(** * API Gateway: request-processing core

    A shallow embedding of the gateway's Go sources: the gin middleware
    pipeline ([middleware] package), the error translation and the thin
    handlers ([handlers] package), the route table and stage order
    ([router] package), the process lifecycle ([main]) and the settings
    read from the environment ([config] package).

    Conventions.
    - Go [int] is 64 bits wide (the gateway is deployed on 64-bit targets);
      [int32(x)] is written out as a wrap-around on [Z].
    - [time.Time] and [time.Duration] are integers (nanoseconds); every
      reading of the clock is an explicit input.
    - A gin handler is a function of the state it can touch; [c.Next()] is
      the continuation running the rest of the chain. *)

From stdpp Require Import gmap strings list fin_maps.
From Stdlib Require Import ZArith Lia Ascii String.

Open Scope Z_scope.

(** ** net/http: status codes and reason phrases *)

Module http.

Definition StatusOK : Z := 200.
Definition StatusCreated : Z := 201.
Definition StatusNoContent : Z := 204.
Definition StatusBadRequest : Z := 400.
Definition StatusUnauthorized : Z := 401.
Definition StatusForbidden : Z := 403.
Definition StatusNotFound : Z := 404.
Definition StatusRequestTimeout : Z := 408.
Definition StatusConflict : Z := 409.
Definition StatusTooManyRequests : Z := 429.
Definition StatusInternalServerError : Z := 500.
Definition StatusNotImplemented : Z := 501.
Definition StatusServiceUnavailable : Z := 503.
Definition StatusGatewayTimeout : Z := 504.

Definition MethodOptions : string := "OPTIONS".

(** [http.StatusText], restricted to the codes the gateway emits; Go
    returns the empty string for a code it does not know. *)
Definition StatusText (code : Z) : string :=
  match code with
  | 200 => "OK"
  | 201 => "Created"
  | 204 => "No Content"
  | 400 => "Bad Request"
  | 401 => "Unauthorized"
  | 403 => "Forbidden"
  | 404 => "Not Found"
  | 408 => "Request Timeout"
  | 409 => "Conflict"
  | 429 => "Too Many Requests"
  | 500 => "Internal Server Error"
  | 501 => "Not Implemented"
  | 503 => "Service Unavailable"
  | 504 => "Gateway Timeout"
  | _ => ""
  end.

End http.

(** ** The response writer

    gin's [responseWriter] behind [http.ResponseWriter]: a pending status,
    the live header map, and what went on the wire.  The status line and a
    snapshot of the headers are sent by the first write ([WriteHeaderNow]);
    headers set later never reach the client. *)

Inductive Body :=
  | ErrorJSON (error message : string) (code : Z)
  | DataJSON (payload : string)
  | PlainText (text : string).

Record responseWriter := mkWriter {
  w_status : Z;
  w_header : gmap string string;
  w_sent : option (Z * gmap string string);
  w_body : list Body
}.

Definition defaultStatus : Z := http.StatusOK.

Definition newWriter : responseWriter :=
  {| w_status := defaultStatus; w_header := ∅; w_sent := None; w_body := [] |}.

Definition Written (w : responseWriter) : bool :=
  match w_sent w with Some _ => true | None => false end.

Definition HeaderSet (k v : string) (w : responseWriter) : responseWriter :=
  {| w_status := w_status w; w_header := <[k := v]> (w_header w);
     w_sent := w_sent w; w_body := w_body w |}.

(** [WriteHeader] only records the status, and refuses to change it once
    the header is on the wire. *)
Definition WriteHeader (code : Z) (w : responseWriter) : responseWriter :=
  if (0 <? code) && negb (w_status w =? code) then
    if Written w then w
    else {| w_status := code; w_header := w_header w;
            w_sent := w_sent w; w_body := w_body w |}
  else w.

Definition WriteHeaderNow (w : responseWriter) : responseWriter :=
  if Written w then w
  else {| w_status := w_status w; w_header := w_header w;
          w_sent := Some (w_status w, w_header w); w_body := w_body w |}.

Definition Write (b : Body) (w : responseWriter) : responseWriter :=
  let w := WriteHeaderNow w in
  {| w_status := w_status w; w_header := w_header w;
     w_sent := w_sent w; w_body := w_body w ++ [b] |}.

(** What the client sees. *)
Definition client_status (w : responseWriter) : option Z :=
  fst <$> w_sent w.

Definition client_header (k : string) (w : responseWriter) : option string :=
  match w_sent w with
  | Some (_, h) => h !! k
  | None => None
  end.

(** ** google.golang.org/grpc: codes and status errors *)

Module codes.

Definition OK : Z := 0.
Definition Canceled : Z := 1.
Definition Unknown : Z := 2.
Definition InvalidArgument : Z := 3.
Definition DeadlineExceeded : Z := 4.
Definition NotFound : Z := 5.
Definition AlreadyExists : Z := 6.
Definition PermissionDenied : Z := 7.
Definition ResourceExhausted : Z := 8.
Definition FailedPrecondition : Z := 9.
Definition Aborted : Z := 10.
Definition OutOfRange : Z := 11.
Definition Unimplemented : Z := 12.
Definition Internal : Z := 13.
Definition Unavailable : Z := 14.
Definition DataLoss : Z := 15.
Definition Unauthenticated : Z := 16.

End codes.

Module status.

Record Status := mkStatus { Code : Z; Message : string }.

(** A Go [error] returned by a backend client: either it carries a gRPC
    status, or it is some other error known only by its text. *)
Inductive error :=
  | StatusError (st : Status)
  | PlainError (text : string).

(** [err.Error()].  The gateway reads it only for an error without a
    status; the rendering of a status error is abridged. *)
Definition Error (err : error) : string :=
  match err with
  | StatusError st => "rpc error: " +:+ Message st
  | PlainError text => text
  end.

(** [status.FromError]: the status and whether the error carried one; an
    error without a status is reported as [Unknown] with its text. *)
Definition FromError (err : error) : Status * bool :=
  match err with
  | StatusError st => (st, true)
  | PlainError text => (mkStatus codes.Unknown text, false)
  end.

End status.

(** ** strconv and integer conversions

    [strconv.Atoi] is [ParseInt(s, 10, 0)]: an optional sign and decimal
    digits.  A syntax error yields 0; a value out of the 64-bit range
    yields the nearest bound together with a range error. *)

Module strconv.

Inductive NumError := ErrSyntax | ErrRange.

Definition maxUint64 : Z := 2 ^ 64 - 1.
Definition cutoff : Z := maxUint64 / 10 + 1.

Definition digit (a : Ascii.ascii) : option Z :=
  let n := Z.of_N (N_of_ascii a) in
  if (48 <=? n) && (n <=? 57) then Some (n - 48) else None.

Fixpoint digits (s : string) (n : Z) : Z * option NumError :=
  match s with
  | EmptyString => (n, None)
  | String a rest =>
      match digit a with
      | None => (0, Some ErrSyntax)
      | Some d =>
          if n >=? cutoff then (maxUint64, Some ErrRange)
          else
            let n1 := n * 10 + d in
            if n1 >? maxUint64 then (maxUint64, Some ErrRange)
            else digits rest n1
      end
  end.

Definition ParseUint (s : string) : Z * option NumError :=
  match s with
  | EmptyString => (0, Some ErrSyntax)
  | _ => digits s 0
  end.

Definition ParseInt (s : string) : Z * option NumError :=
  match s with
  | EmptyString => (0, Some ErrSyntax)
  | String a rest =>
      let neg := Ascii.eqb a "-"%char in
      let s1 :=
        if Ascii.eqb a "+"%char || Ascii.eqb a "-"%char then rest else s in
      let '(un, err) := ParseUint s1 in
      match err with
      | Some ErrSyntax => (0, err)
      | _ =>
          if negb neg && (un >=? 2 ^ 63) then (2 ^ 63 - 1, Some ErrRange)
          else if neg && (un >? 2 ^ 63) then (- 2 ^ 63, Some ErrRange)
          else (if neg then - un else un, None)
      end
  end.

Definition Atoi (s : string) : Z * option NumError := ParseInt s.

End strconv.

(** The conversion [int32(x)] of a Go [int]: the low 32 bits, signed. *)
Definition int32 (x : Z) : Z := (x + 2 ^ 31) mod 2 ^ 32 - 2 ^ 31.

(** ** Requests

    The parts of [*http.Request] the gateway reads.  Header names are the
    literals of the source (Go canonicalises on both [Set] and [Get]).  The
    body is the decoded JSON object when it is one whose members are
    strings, and [None] when decoding into the handler's struct fails.
    The two request-scoped context values are typed fields. *)

Record UserClaims := mkClaims { UserID : Z; Role : string }.

Record Request := mkRequest {
  Method : string;
  Path : string;
  Header : gmap string string;
  URLQuery : gmap string string;
  RemoteIP : string;
  JSONBody : option (gmap string string);
  ctx_requestID : option string;
  ctx_userClaims : option UserClaims
}.

(** [Header.Get] and [url.Values.Get]: the empty string when absent. *)
Definition Get (m : gmap string string) (k : string) : string :=
  default "" (m !! k).

(** ** gin: context and handler chain

    [c.index] and [c.handlers] are kept as gin has them: [Next] advances
    the index and runs the handlers from there on; [Abort] moves the index
    to [abortIndex], past the end of every chain. *)

Module gin.

Record Context := mkContext {
  c_Request : Request;
  c_Writer : responseWriter;
  c_index : Z;
  c_Keys : gmap string string
}.

Definition abortIndex : Z := 63.

Definition setRequest (r : Request) (c : Context) : Context :=
  mkContext r (c_Writer c) (c_index c) (c_Keys c).

Definition setWriter (w : responseWriter) (c : Context) : Context :=
  mkContext (c_Request c) w (c_index c) (c_Keys c).

Definition setIndex (i : Z) (c : Context) : Context :=
  mkContext (c_Request c) (c_Writer c) i (c_Keys c).

(** [c.Set(k, v)]. *)
Definition SetKey (k v : string) (c : Context) : Context :=
  mkContext (c_Request c) (c_Writer c) (c_index c) (<[k := v]> (c_Keys c)).

Definition GetHeader (c : Context) (k : string) : string :=
  Get (Header (c_Request c)) k.

(** [c.Query(k)]. *)
Definition Query (c : Context) (k : string) : string :=
  Get (URLQuery (c_Request c)) k.

(** [c.ClientIP()]: the client key of the request. *)
Definition ClientIP (c : Context) : string := RemoteIP (c_Request c).

Definition Abort (c : Context) : Context := setIndex abortIndex c.

Definition IsAborted (c : Context) : bool := abortIndex <=? c_index c.

Definition Status (code : Z) (c : Context) : Context :=
  setWriter (WriteHeader code (c_Writer c)) c.

Definition bodyAllowedForStatus (code : Z) : bool :=
  negb ((100 <=? code) && (code <=? 199))
  && negb (code =? http.StatusNoContent) && negb (code =? 304).

(** [render.JSON]: the content type is set unless one is there already. *)
Definition WriteContentType (w : responseWriter) : responseWriter :=
  match w_header w !! "Content-Type" with
  | Some _ => w
  | None => HeaderSet "Content-Type" "application/json; charset=utf-8" w
  end.

Definition JSON (code : Z) (obj : Body) (c : Context) : Context :=
  let c := Status code c in
  if negb (bodyAllowedForStatus code) then
    setWriter (WriteHeaderNow (WriteContentType (c_Writer c))) c
  else setWriter (Write obj (WriteContentType (c_Writer c))) c.

Definition AbortWithStatus (code : Z) (c : Context) : Context :=
  let c := Status code c in
  let c := setWriter (WriteHeaderNow (c_Writer c)) c in
  Abort c.

Definition AbortWithStatusJSON (code : Z) (obj : Body) (c : Context)
    : Context :=
  JSON code obj (Abort c).

End gin.

(** ** handlers/response.go *)

Module handlers.

Definition writeJSONError (w : responseWriter) (statusCode : Z)
    (message : string) : responseWriter :=
  let w := HeaderSet "Content-Type" "application/json" w in
  let w := WriteHeader statusCode w in
  Write (ErrorJSON (http.StatusText statusCode) message statusCode) w.

Definition writeJSON (w : responseWriter) (statusCode : Z)
    (data : string) : responseWriter :=
  let w := HeaderSet "Content-Type" "application/json" w in
  let w := WriteHeader statusCode w in
  Write (DataJSON data) w.

Definition grpcCodeToHTTP (code : Z) : Z :=
  if code =? codes.InvalidArgument then http.StatusBadRequest
  else if code =? codes.NotFound then http.StatusNotFound
  else if code =? codes.AlreadyExists then http.StatusConflict
  else if code =? codes.PermissionDenied then http.StatusForbidden
  else if code =? codes.Unauthenticated then http.StatusUnauthorized
  else if code =? codes.ResourceExhausted then http.StatusTooManyRequests
  else if code =? codes.Unimplemented then http.StatusNotImplemented
  else if code =? codes.Unavailable then http.StatusServiceUnavailable
  else if code =? codes.DeadlineExceeded then http.StatusGatewayTimeout
  else if code =? codes.Canceled then http.StatusRequestTimeout
  else http.StatusInternalServerError.

Definition writeJSONErrorFromGRPC (w : responseWriter) (err : status.error)
    (defaultStatus : Z) : responseWriter :=
  let '(st, ok) := status.FromError err in
  if negb ok then writeJSONError w defaultStatus (status.Error err)
  else
    let statusCode := grpcCodeToHTTP (status.Code st) in
    writeJSONError w statusCode (status.Message st).

(** *** Backend requests (generated protobuf messages, fields in use) *)

Record ListProductsRequest := mkListProducts { Page : Z; PerPage : Z }.

Record SearchUsersRequest := mkSearchUsers {
  Query : string; PageNumber : Z; PageSize : Z
}.

Record CreateUserRequest := mkCreateUser {
  Name : string; Email : string; Password : string; CreateRole : string
}.

(** The outcome of one remote call: a reply or an error. *)
Inductive rpc (A : Type) :=
  | Reply (resp : A)
  | Failed (err : status.error).
Arguments Reply {A} resp.
Arguments Failed {A} err.

(** The calls a handler made on its backend client, in order. *)
Inductive BackendCall :=
  | CallListProducts (req : ListProductsRequest)
  | CallSearchUsers (req : SearchUsersRequest)
  | CallCreateUser (req : CreateUserRequest).

Record ProductHandler := mkProductHandler {
  productClient_ListProducts : ListProductsRequest -> rpc string
}.

Record UserHandler := mkUserHandler {
  userClient_CreateUser : CreateUserRequest -> rpc string;
  userClient_SearchUsers : SearchUsersRequest -> rpc string
}.

(** *** handlers/product_handler.go *)

Definition ListProducts (h : ProductHandler) (w : responseWriter)
    (r : Request) : list BackendCall * responseWriter :=
  let page := fst (strconv.Atoi (Get (URLQuery r) "page")) in
  let page := if page <? 1 then 1 else page in
  let perPage := fst (strconv.Atoi (Get (URLQuery r) "per_page")) in
  let perPage := if (perPage <? 1) || (perPage >? 100) then 10 else perPage in
  let req := mkListProducts (int32 page) (int32 perPage) in
  match productClient_ListProducts h req with
  | Failed err =>
      ([CallListProducts req],
       writeJSONErrorFromGRPC w err http.StatusInternalServerError)
  | Reply resp => ([CallListProducts req], writeJSON w http.StatusOK resp)
  end.

(** *** handlers/user_handler.go

    These handlers take the gin context. *)

Definition SearchUsers (h : UserHandler) (c : gin.Context)
    : list BackendCall * gin.Context :=
  let page := fst (strconv.Atoi (gin.Query c "page")) in
  let page := if page <? 1 then 1 else page in
  let perPage := fst (strconv.Atoi (gin.Query c "per_page")) in
  let perPage := if (perPage <? 1) || (perPage >? 100) then 10 else perPage in
  let query := gin.Query c "query" in
  let req := mkSearchUsers query (int32 page) (int32 perPage) in
  match userClient_SearchUsers h req with
  | Failed err =>
      ([CallSearchUsers req],
       gin.setWriter
         (writeJSONErrorFromGRPC (gin.c_Writer c) err
            http.StatusInternalServerError) c)
  | Reply resp =>
      ([CallSearchUsers req], gin.JSON http.StatusOK (DataJSON resp) c)
  end.

Definition Register (h : UserHandler) (c : gin.Context)
    : list BackendCall * gin.Context :=
  match JSONBody (gin.c_Request c) with
  | None =>
      ([], gin.setWriter
             (writeJSONError (gin.c_Writer c) http.StatusBadRequest
                "invalid request body") c)
  | Some obj =>
      let name := Get obj "name" in
      let email := Get obj "email" in
      let password := Get obj "password" in
      let role := Get obj "role" in
      let role := if String.eqb role "" then "customer" else role in
      let req := mkCreateUser name email password role in
      match userClient_CreateUser h req with
      | Failed err =>
          ([CallCreateUser req],
           gin.setWriter
             (writeJSONErrorFromGRPC (gin.c_Writer c) err
                http.StatusInternalServerError) c)
      | Reply resp =>
          ([CallCreateUser req],
           gin.JSON http.StatusCreated (DataJSON resp) c)
      end
  end.

End handlers.


(** ** The middleware package *)

Module middleware.

Import gin.

(** *** State shared by the stages

    Besides the gin context, a request touches the limiter's visitor map
    (shared by all requests), the log, and the backends: [calls] lists the
    remote calls made for it. *)

Record visitor := mkVisitor { lastSeen : Z; count : Z }.

Record RateLimiter := mkRateLimiter {
  visitors : gmap string visitor;
  requests : Z;
  window : Z
}.

Record LogLine := mkLogLine {
  log_requestID : string; log_method : string; log_path : string;
  log_status : Z
}.

Record World := mkWorld {
  gc : Context;
  rl : RateLimiter;
  logs : list LogLine;
  calls : list handlers.BackendCall
}.

Definition onContext (f : Context -> Context) (w : World) : World :=
  mkWorld (f (gc w)) (rl w) (logs w) (calls w).

Definition setLimiter (l : RateLimiter) (w : World) : World :=
  mkWorld (gc w) l (logs w) (calls w).

(** A fresh context for a request, as the engine hands it to the chain,
    and the world of a request that meets the limiter state [l]. *)
Definition newContext (req : Request) : Context :=
  mkContext req newWriter (-1) ∅.

Definition newWorld (req : Request) (l : RateLimiter) : World :=
  mkWorld (newContext req) l [] [].

(** A handler receives [c.Next] as its first argument. *)
Definition HandlerFunc : Type := (World -> World) -> World -> World.

Definition incr (w : World) : World :=
  onContext (fun c => setIndex (c_index c + 1) c) w.

(** The loop of [Context.Next], with [hs] the handlers from [c.index] on
    and [n] the length of the whole chain. *)
Fixpoint handle (n : Z) (hs : list HandlerFunc) (w : World) : World :=
  match hs with
  | [] => w
  | h :: tl =>
      if c_index (gc w) <? n then
        let w1 := h (fun w' => handle n tl (incr w')) w in
        handle n tl (incr w1)
      else w
  end.

(** [Engine.handleHTTPRequest]: reset the index, run the chain, flush the
    header if no handler wrote. *)
Definition serve (hs : list HandlerFunc) (w : World) : World :=
  let w := onContext (setIndex (-1)) w in
  let w := handle (Z.of_nat (List.length hs)) hs (incr w) in
  onContext (fun c => setWriter (WriteHeaderNow (c_Writer c)) c) w.

(** *** response.go *)

Definition writeJSONError (c : Context) (statusCode : Z) (message : string)
    : Context :=
  AbortWithStatusJSON statusCode
    (ErrorJSON (http.StatusText statusCode) message statusCode) c.

(** *** logging.go

    [Logger] writes one line after the chain returned. *)

Definition Logger : HandlerFunc := fun next w =>
  let w := next w in
  let requestID := default "unknown" (c_Keys (gc w) !! "requestID") in
  mkWorld (gc w) (rl w)
    (logs w ++ [mkLogLine requestID (Method (c_Request (gc w)))
                  (Path (c_Request (gc w))) (w_status (c_Writer (gc w)))])
    (calls w).

(** [uuid] is the text of [uuid.New().String()] for this request. *)
Definition RequestID (uuid : string) : HandlerFunc := fun next w =>
  let c := gc w in
  let requestID := GetHeader c "X-Request-ID" in
  let requestID := if String.eqb requestID "" then uuid else requestID in
  let c := setWriter (HeaderSet "X-Request-ID" requestID (c_Writer c)) c in
  let r := c_Request c in
  let c := setRequest
    (mkRequest (Method r) (Path r) (Header r) (URLQuery r) (RemoteIP r)
       (JSONBody r) (Some requestID) (ctx_userClaims r)) c in
  let c := SetKey "requestID" requestID c in
  next (onContext (fun _ => c) w).

(** *** ratelimit.go

    [lastSeen] is written at creation and at a reset only: it is the start
    of the visitor's window.  The map holds pointers, so the update made
    through [v] is an update of the entry of [ip]. *)

(** The readings of the clock during one admission check: [time.Now()] in
    [getVisitor], the reading inside [time.Since], and [time.Now()] at a
    reset. *)
Record Clock := mkClock { now_get : Z; now_since : Z; now_reset : Z }.

(** Go's [int] addition wraps around. *)
Definition int64 (x : Z) : Z := (x + 2 ^ 63) mod 2 ^ 64 - 2 ^ 63.

Definition NewRateLimiter (requests : Z) (window : Z) : RateLimiter :=
  mkRateLimiter ∅ requests window.

(** One tick of [cleanup]'s ticker at time [now]. *)
Definition cleanup (now : Z) (l : RateLimiter) : RateLimiter :=
  mkRateLimiter
    (filter (fun kv : string * visitor => ¬ (now - lastSeen kv.2 > window l))
       (visitors l))
    (requests l) (window l).

Definition getVisitor (l : RateLimiter) (ip : string) (now : Z)
    : RateLimiter * visitor :=
  match visitors l !! ip with
  | Some v => (l, v)
  | None =>
      let v := mkVisitor now 0 in
      (mkRateLimiter (<[ip := v]> (visitors l)) (requests l) (window l), v)
  end.

Definition store (l : RateLimiter) (ip : string) (v : visitor)
    : RateLimiter :=
  mkRateLimiter (<[ip := v]> (visitors l)) (requests l) (window l).

Definition Middleware (clk : Clock) : HandlerFunc := fun next w =>
  let ip := ClientIP (gc w) in
  let '(l, v) := getVisitor (rl w) ip (now_get clk) in
  let v :=
    if now_since clk - lastSeen v >? window l
    then mkVisitor (now_reset clk) 0 else v in
  if count v >=? requests l then
    onContext
      (fun c => writeJSONError c http.StatusTooManyRequests
                  "rate limit exceeded")
      (setLimiter (store l ip v) w)
  else
    let v := mkVisitor (lastSeen v) (int64 (count v + 1)) in
    next (setLimiter (store l ip v) w).

(** *** timeout.go and cancellation.go

    Whether a context is done depends on real time and on the client; what
    a stage observes is an input: [err] is [ctx.Err()] when the chain has
    returned, [done] whether [ctx.Done()] is closed on entry.  For
    [Timeout], [ctx] is the context derived with the deadline [timeout]
    from now; for [Cancellation] it is the request's own context. *)

Inductive ctxError := Canceled | DeadlineExceeded.

Definition is_DeadlineExceeded (e : option ctxError) : bool :=
  match e with Some DeadlineExceeded => true | _ => false end.

Definition Timeout (timeout : Z) (err : option ctxError) : HandlerFunc :=
  fun next w =>
  let w := next w in
  if is_DeadlineExceeded err && negb (Written (c_Writer (gc w))) then
    onContext
      (fun c => writeJSONError c http.StatusGatewayTimeout "request timeout")
      w
  else w.

Definition Cancellation (done : bool) (err : option ctxError)
    : HandlerFunc := fun next w =>
  if done then
    onContext
      (fun c => writeJSONError c http.StatusServiceUnavailable
                  "request canceled") w
  else
    let w := next w in
    if bool_decide (err ≠ None) && negb (Written (c_Writer (gc w))) then
      let status :=
        if is_DeadlineExceeded err then http.StatusGatewayTimeout
        else http.StatusServiceUnavailable in
      onContext (fun c => writeJSONError c status "request canceled") w
    else w.

(** *** cors.go *)

Fixpoint joinStrings_from (result : string) (strs : list string)
    (sep : string) : string :=
  match strs with
  | [] => result
  | s :: tl => joinStrings_from (result +:+ sep +:+ s) tl sep
  end.

Definition joinStrings (strs : list string) (sep : string) : string :=
  match strs with
  | [] => ""
  | s :: tl => joinStrings_from s tl sep
  end.

Fixpoint pickOrigin (allowedOrigins : list string) (origin : string)
    : string :=
  match allowedOrigins with
  | [] => "*"
  | allowed :: tl =>
      if String.eqb allowed "*" || String.eqb allowed origin then allowed
      else pickOrigin tl origin
  end.

Definition CORS (allowedOrigins allowedMethods allowedHeaders : list string)
    : HandlerFunc := fun next w =>
  let c := gc w in
  let origin := GetHeader c "Origin" in
  let allowedOrigin := pickOrigin allowedOrigins origin in
  let h := c_Writer c in
  let h := HeaderSet "Access-Control-Allow-Origin" allowedOrigin h in
  let h := HeaderSet "Access-Control-Allow-Methods"
             (joinStrings allowedMethods ", ") h in
  let h := HeaderSet "Access-Control-Allow-Headers"
             (joinStrings allowedHeaders ", ") h in
  let h := HeaderSet "Access-Control-Allow-Credentials" "true" h in
  let h := HeaderSet "Access-Control-Max-Age" "86400" h in
  let c := setWriter h c in
  if String.eqb (Method (c_Request c)) http.MethodOptions then
    onContext (fun _ => AbortWithStatus http.StatusNoContent c) w
  else next (onContext (fun _ => c) w).

(** [Recovery] acts only when a handler panics; panics are outside this
    model, and on a chain that returns the stage is transparent. *)
Definition Recovery : HandlerFunc := fun next w => next w.

(** *** auth.go *)

(** [strings.Split(s, " ")]. *)
Fixpoint Split (s : string) : list string :=
  match s with
  | EmptyString => [""]
  | String a rest =>
      if Ascii.eqb a " "%char then "" :: Split rest
      else
        match Split rest with
        | p :: ps => String a p :: ps
        | [] => [String a ""]
        end
  end.

(** The token verifier of [pkg/jwt]: the claims, or [None] for an error. *)
Record JWTManager := mkJWTManager { Verify : string -> option UserClaims }.

Definition withClaims (claims : UserClaims) (c : Context) : Context :=
  let r := c_Request c in
  setRequest
    (mkRequest (Method r) (Path r) (Header r) (URLQuery r) (RemoteIP r)
       (JSONBody r) (ctx_requestID r) (Some claims)) c.

Definition AuthMiddleware (jwtManager : JWTManager) : HandlerFunc :=
  fun next w =>
  let c := gc w in
  let authHeader := GetHeader c "Authorization" in
  if String.eqb authHeader "" then
    onContext
      (fun c => Abort (writeJSONError c http.StatusUnauthorized
                         "missing authorization header")) w
  else
    match Split authHeader with
    | [p0; p1] =>
        if negb (String.eqb p0 "Bearer") then
          onContext
            (fun c => Abort (writeJSONError c http.StatusUnauthorized
                               "invalid authorization header format")) w
        else
          let tokenString := p1 in
          match Verify jwtManager tokenString with
          | None =>
              onContext
                (fun c => Abort (writeJSONError c http.StatusUnauthorized
                                   "invalid or expired token")) w
          | Some claims => next (onContext (withClaims claims) w)
          end
    | _ =>
        onContext
          (fun c => Abort (writeJSONError c http.StatusUnauthorized
                             "invalid authorization header format")) w
    end.

Definition OptionalAuthMiddleware (jwtManager : JWTManager) : HandlerFunc :=
  fun next w =>
  let c := gc w in
  let authHeader := GetHeader c "Authorization" in
  if negb (String.eqb authHeader "") then
    match Split authHeader with
    | [p0; p1] =>
        if String.eqb p0 "Bearer" then
          match Verify jwtManager p1 with
          | Some claims => next (onContext (withClaims claims) w)
          | None => next w
          end
        else next w
    | _ => next w
    end
  else next w.

Fixpoint hasRole (role : string) (roles : list string) : bool :=
  match roles with
  | [] => false
  | r :: tl => if String.eqb role r then true else hasRole role tl
  end.

Definition RequireRole (roles : list string) : HandlerFunc := fun next w =>
  match ctx_userClaims (c_Request (gc w)) with
  | None =>
      onContext
        (fun c => Abort (writeJSONError c http.StatusUnauthorized
                           "unauthorized")) w
  | Some claims =>
      if negb (hasRole (Role claims) roles) then
        onContext
          (fun c => Abort (writeJSONError c http.StatusForbidden
                             "insufficient permissions")) w
      else next w
  end.

Definition GetUserClaims (r : Request) : option UserClaims :=
  ctx_userClaims r.

Definition GetUserID (r : Request) : Z * bool :=
  match GetUserClaims r with
  | None => (0, false)
  | Some claims => (UserID claims, true)
  end.

Definition GetUserRole (r : Request) : string * bool :=
  match GetUserClaims r with
  | None => ("", false)
  | Some claims => (Role claims, true)
  end.

End middleware.

(** ** router/router.go *)

Module router.

Import gin middleware.

Record Config := mkConfig {
  AllowedOrigins : list string;
  AllowedMethods : list string;
  AllowedHeaders : list string;
  RateLimitRequests : Z;
  RateLimitWindow : Z;
  RequestTimeout : Z
}.

(** What one request draws from outside the program: the fresh identifier,
    the clock, and the fate of its contexts. *)
Record Oracle := mkOracle {
  o_uuid : string;
  o_clock : Clock;
  o_done : bool;
  o_err : option ctxError;
  o_timeout_err : option ctxError
}.

(** The access level a route is registered with: no stage, [withAuth()],
    or [withAuth()] followed by [withRole(roles...)]. *)
Inductive Access :=
  | Public
  | Authenticated
  | RoleGated (roles : list string).

Record Route := mkRoute {
  r_method : string;
  r_path : string;
  r_access : Access;
  r_handler : string
}.

(** The router with its handlers.  The handlers this development does not
    embed are the field [others], by the name they are registered under. *)
Record Router := mkRouter {
  cfg : Config;
  jwtManager : JWTManager;
  userHandler : handlers.UserHandler;
  productHandler : handlers.ProductHandler;
  others : string -> HandlerFunc
}.

Definition setupRoutes : list Route := [
  mkRoute "GET" "/health" Public "healthCheck";
  mkRoute "GET" "/api/v1/health" Public "healthCheck";
  mkRoute "POST" "/api/v1/users/register" Public "userHandler.Register";
  mkRoute "POST" "/api/v1/users/login" Public "userHandler.Login";
  mkRoute "GET" "/api/v1/users/profile" Authenticated "userHandler.GetProfile";
  mkRoute "PUT" "/api/v1/users/update" Authenticated "userHandler.UpdateUser";
  mkRoute "GET" "/api/v1/users/search" (RoleGated ["admin"])
    "userHandler.SearchUsers";
  mkRoute "GET" "/api/v1/users/by-id" (RoleGated ["admin"])
    "userHandler.GetUserByID";
  mkRoute "DELETE" "/api/v1/users/delete" (RoleGated ["admin"])
    "userHandler.DeleteUser";
  mkRoute "POST" "/api/v1/addresses/create" Authenticated
    "userHandler.CreateAddress";
  mkRoute "GET" "/api/v1/addresses/list" Authenticated
    "userHandler.ListAddresses";
  mkRoute "PUT" "/api/v1/addresses/update" Authenticated
    "userHandler.UpdateAddress";
  mkRoute "DELETE" "/api/v1/addresses/delete" Authenticated
    "userHandler.DeleteAddress";
  mkRoute "GET" "/api/v1/products" Public "productHandler.ListProducts";
  mkRoute "GET" "/api/v1/products/by-id" Public
    "productHandler.GetProductByID";
  mkRoute "POST" "/api/v1/products/create" (RoleGated ["admin"])
    "productHandler.CreateProduct";
  mkRoute "PUT" "/api/v1/products/update" (RoleGated ["admin"])
    "productHandler.UpdateProduct";
  mkRoute "DELETE" "/api/v1/products/delete" (RoleGated ["admin"])
    "productHandler.DeleteProduct";
  mkRoute "GET" "/api/v1/categories" Public "productHandler.ListCategories";
  mkRoute "GET" "/api/v1/categories/by-id" Public
    "productHandler.GetCategoryByID";
  mkRoute "POST" "/api/v1/categories/create" (RoleGated ["admin"])
    "productHandler.CreateCategory";
  mkRoute "PUT" "/api/v1/categories/update" (RoleGated ["admin"])
    "productHandler.UpdateCategory";
  mkRoute "DELETE" "/api/v1/categories/delete" (RoleGated ["admin"])
    "productHandler.DeleteCategory";
  mkRoute "GET" "/api/v1/cart" Authenticated "cartHandler.GetCart";
  mkRoute "POST" "/api/v1/cart/items/add" Authenticated "cartHandler.AddItem";
  mkRoute "PUT" "/api/v1/cart/items/update" Authenticated
    "cartHandler.UpdateItem";
  mkRoute "DELETE" "/api/v1/cart/items/remove" Authenticated
    "cartHandler.RemoveItem";
  mkRoute "DELETE" "/api/v1/cart/clear" Authenticated "cartHandler.ClearCart";
  mkRoute "POST" "/api/v1/orders/create" Authenticated
    "orderHandler.CreateOrder";
  mkRoute "GET" "/api/v1/orders" Authenticated "orderHandler.ListOrders";
  mkRoute "GET" "/api/v1/orders/by-id" Authenticated
    "orderHandler.GetOrderByID";
  mkRoute "POST" "/api/v1/orders/items/add" Authenticated
    "orderHandler.AddOrderItem";
  mkRoute "DELETE" "/api/v1/orders/items/remove" Authenticated
    "orderHandler.RemoveOrderItem";
  mkRoute "PATCH" "/api/v1/orders/status" (RoleGated ["admin"])
    "orderHandler.UpdateOrderStatus"
].

(** [gin.WrapF], and a gin handler as a member of a chain; neither calls
    [Next]. *)
Definition WrapF
    (f : responseWriter -> Request
         -> list handlers.BackendCall * responseWriter) : HandlerFunc :=
  fun _ w =>
    let '(cs, wr) := f (c_Writer (gc w)) (c_Request (gc w)) in
    mkWorld (setWriter wr (gc w)) (rl w) (logs w) (calls w ++ cs).

Definition ginHandler
    (f : Context -> list handlers.BackendCall * Context) : HandlerFunc :=
  fun _ w =>
    let '(cs, c) := f (gc w) in
    mkWorld c (rl w) (logs w) (calls w ++ cs).

Definition healthCheck : HandlerFunc := fun _ w =>
  onContext
    (JSON http.StatusOK (DataJSON "{status: healthy, service: api-gateway}"))
    w.

(** The handler registered under a name. *)
Definition endpoint (r : Router) (name : string) : HandlerFunc :=
  if String.eqb name "healthCheck" then healthCheck
  else if String.eqb name "userHandler.Register"
  then ginHandler (handlers.Register (userHandler r))
  else if String.eqb name "userHandler.SearchUsers"
  then ginHandler (handlers.SearchUsers (userHandler r))
  else if String.eqb name "productHandler.ListProducts"
  then WrapF (handlers.ListProducts (productHandler r))
  else others r name.

Definition withAuth (r : Router) : HandlerFunc :=
  AuthMiddleware (jwtManager r).

Definition withRole (r : Router) (roles : list string) : HandlerFunc :=
  RequireRole roles.

(** The handlers a route was registered with, in order. *)
Definition routeHandlers (r : Router) (rt : Route) : list HandlerFunc :=
  match r_access rt with
  | Public => [endpoint r (r_handler rt)]
  | Authenticated => [withAuth r; endpoint r (r_handler rt)]
  | RoleGated roles =>
      [withAuth r; withRole r roles; endpoint r (r_handler rt)]
  end.

(** The stages registered on the engine, in order.  ([gin.Default] puts its
    own logger and recovery before them; on a chain that returns they
    neither write to the response nor abort.) *)
Definition setupMiddleware (r : Router) (o : Oracle) : list HandlerFunc := [
  CORS (AllowedOrigins (cfg r)) (AllowedMethods (cfg r))
    (AllowedHeaders (cfg r));
  Recovery;
  RequestID (o_uuid o);
  Logger;
  Cancellation (o_done o) (o_err o);
  Timeout (RequestTimeout (cfg r)) (o_timeout_err o);
  Middleware (o_clock o)
].

Definition matches (req : Request) (rt : Route) : bool :=
  String.eqb (r_method rt) (Method req) && String.eqb (r_path rt) (Path req).

Definition findRoute (req : Request) : option Route :=
  List.find (matches req) setupRoutes.

(** gin's [serveError] for an unmatched request: the engine's stages run
    with status 404 pending, and the default body is written unless a stage
    wrote or changed the status. *)
Definition serveError (hs : list HandlerFunc) (w : World) : World :=
  let w := onContext
    (fun c => setWriter (mkWriter http.StatusNotFound (w_header (c_Writer c))
                           (w_sent (c_Writer c)) (w_body (c_Writer c)))
                (setIndex (-1) c)) w in
  let w := handle (Z.of_nat (List.length hs)) hs (incr w) in
  let wr := c_Writer (gc w) in
  if Written wr then w
  else if w_status wr =? http.StatusNotFound then
    onContext
      (setWriter (Write (PlainText "404 page not found")
                    (HeaderSet "Content-Type" "text/plain" wr))) w
  else onContext (setWriter (WriteHeaderNow wr)) w.

(** [Engine.ServeHTTP] for one request against the limiter state [l]. *)
Definition ServeHTTP (r : Router) (o : Oracle) (l : RateLimiter)
    (req : Request) : World :=
  let w := newWorld req l in
  match findRoute req with
  | Some rt => serve (setupMiddleware r o ++ routeHandlers r rt) w
  | None => serveError (setupMiddleware r o) w
  end.

End router.

(** ** cmd/main.go

    The lifecycle as [main] runs it.  What the environment decides is an
    input: whether configuration and clients come up, whether
    [ListenAndServe] fails to bind, whether a termination signal is ever
    delivered, and whether [Shutdown] returns the drain context's error
    (the 30 s drain timeout elapsed with requests still in flight). *)

Module main.

Record Env := mkEnv {
  config_Load_ok : bool;
  NewServiceClients_ok : bool;
  ListenAndServe_fails : bool;
  signal_delivered : bool;
  Shutdown_err : bool
}.

Inductive LogEntry :=
  | LogInfo (msg : string)
  | LogError (msg : string).

(** How [main] ends: by returning, by a call of [os.Exit], or not at all
    (blocked on the signal channel). *)
Inductive Termination :=
  | Returned
  | OsExit (code : Z)
  | Waiting.

(** The exit status of the process: 0 when [main] returns. *)
Definition exit_status (t : Termination) : option Z :=
  match t with
  | Returned => Some 0
  | OsExit code => Some code
  | Waiting => None
  end.

(** One run: what [main] logged, what the goroutine around
    [ListenAndServe] logged, and how [main] ended. *)
Record Run := mkRun {
  main_log : list LogEntry;
  server_log : list LogEntry;
  termination : Termination
}.

(** The goroutine started by [main]; a listener error is logged and goes
    nowhere else.  [stopped] tells whether [ListenAndServe] returned. *)
Definition serverGoroutine (env : Env) (stopped : bool) : list LogEntry :=
  [LogInfo "API Gateway listening on port"]
  ++ (if ListenAndServe_fails env then
        [LogError "Failed to start server"; LogInfo "Server stopped"]
      else if stopped then [LogInfo "Server stopped"] else []).

Definition main (env : Env) : Run :=
  if negb (config_Load_ok env) then
    mkRun [LogError "failed to load configuration"] [] Returned
  else
    let log := [LogInfo "Starting API Gateway...";
                LogInfo "Configuration loaded successfully"] in
    if negb (NewServiceClients_ok env) then
      mkRun (log ++ [LogError "Failed to initialize service clients"]) []
        Returned
    else if negb (signal_delivered env) then
      mkRun log (serverGoroutine env false) Waiting
    else
      let log := log ++ [LogInfo "Shutting down API Gateway..."] in
      let log :=
        if Shutdown_err env
        then log ++ [LogError "Server forced to shutdown"] else log in
      mkRun (log ++ [LogInfo "API Gateway stopped"]) (serverGoroutine env true)
        Returned.

End main.

(** ** config/config.go

    The process environment is a map from names to values; [os.Getenv] of
    an unset name is the empty string.  A string is the sequence of its
    characters, the unit the loop of [getEnvArray] ranges over. *)

Module config.

Definition Getenv (env : gmap string string) (key : string) : string :=
  Get env key.

Definition GetEnv (env : gmap string string) (key defaultValue : string)
    : string :=
  let value := Getenv env key in
  if String.eqb value "" then defaultValue else value.

Definition getEnvBool (env : gmap string string) (key : string)
    (defaultValue : bool) : bool :=
  let value := Getenv env key in
  if String.eqb value "" then defaultValue
  else String.eqb value "true" || String.eqb value "1"
       || String.eqb value "yes".



End config.

(** ** More of the handlers package

    The handlers that look a record up by an identifier of the query
    string, and those that act for the caller.  Each returns the calls it
    made on its backend client, in order, with the response. *)

Module handlers_ext.

Import gin handlers.

(** The fields the gateway reads or writes of the generated messages. *)
Record Address := mkAddress { AddressUserId : Z; AddressFields : string }.

Record CreateAddressRequest := mkCreateAddress {
  UserId : Z; Fields : string
}.

Inductive Call :=
  | CallGetUserByID (Id : Z)
  | CallUpdateUser (Id : Z) (Name Email : string)
  | CallDeleteUser (Id : Z)
  | CallCreateAddress (req : CreateAddressRequest)
  | CallListAddressesByUserID (UserId : Z)
  | CallGetAddressByID (Id : Z)
  | CallDeleteAddress (Id : Z)
  | CallLogin (Email Password : string)
  | CallGetProductByID (Id : Z)
  | CallDeleteProduct (Id : Z)
  | CallGetCategoryByID (Id : Z)
  | CallDeleteCategory (Id : Z)
  | CallListCategories (Page PerPage : Z)
  | CallGetOrderByID (Id : Z)
  | CallListOrders (Page PerPage UserId : Z)
  | CallGetCart (UserId : Z)
  | CallClearCart (UserId : Z).

(** The backend clients: what each call returns.  [GetAddressByID] is the
    one call whose reply the gateway looks into; a reply to it carries the
    address. *)
Record Clients := mkClients {
  invoke : Call -> rpc string;
  userClient_GetAddressByID : Z -> rpc Address
}.

Definition unauthorized (w : responseWriter) : responseWriter :=
  writeJSONError w http.StatusUnauthorized "unauthorized".

(** The tail shared by the gin handlers: one call, then the error
    translation with the handler's default status, or the reply with the
    handler's success status. *)
Definition forward (h : Clients) (call : Call) (defaultStatus ok : Z)
    (c : Context) : list Call * Context :=
  match invoke h call with
  | Failed err =>
      ([call], setWriter (writeJSONErrorFromGRPC (c_Writer c) err defaultStatus) c)
  | Reply resp => ([call], JSON ok (DataJSON resp) c)
  end.

(** The same for the handlers on [http.ResponseWriter]. *)
Definition forwardF (h : Clients) (call : Call) (defaultStatus ok : Z)
    (w : responseWriter) : list Call * responseWriter :=
  match invoke h call with
  | Failed err => ([call], writeJSONErrorFromGRPC w err defaultStatus)
  | Reply resp => ([call], writeJSON w ok resp)
  end.

(** *** handlers/user_handler.go *)


Definition GetProfile (h : Clients) (c : Context) : list Call * Context :=
  let '(userID, ok) := middleware.GetUserID (c_Request c) in
  if negb ok then ([], setWriter (unauthorized (c_Writer c)) c)
  else
    forward h (CallGetUserByID (int32 userID)) http.StatusNotFound
      http.StatusOK c.

Definition GetUserByID (h : Clients) (c : Context) : list Call * Context :=
  let idStr := gin.Query c "id" in
  if String.eqb idStr "" then
    ([], setWriter
           (writeJSONError (c_Writer c) http.StatusBadRequest
              "missing user ID") c)
  else
    match strconv.ParseInt idStr with
    | (_, Some _) =>
        ([], setWriter
               (writeJSONError (c_Writer c) http.StatusBadRequest
                  "invalid user ID") c)
    | (id, None) =>
        forward h (CallGetUserByID (int32 id)) http.StatusNotFound
          http.StatusOK c
    end.

Definition UpdateUser (h : Clients) (c : Context) : list Call * Context :=
  let '(userID, ok) := middleware.GetUserID (c_Request c) in
  if negb ok then ([], setWriter (unauthorized (c_Writer c)) c)
  else
    match JSONBody (c_Request c) with
    | None =>
        ([], setWriter
               (writeJSONError (c_Writer c) http.StatusBadRequest
                  "invalid request body") c)
    | Some obj =>
        forward h
          (CallUpdateUser (int32 userID) (Get obj "name") (Get obj "email"))
          http.StatusInternalServerError http.StatusOK c
    end.

Definition DeleteUser (h : Clients) (c : Context) : list Call * Context :=
  let idStr := gin.Query c "id" in
  if String.eqb idStr "" then
    ([], setWriter
           (writeJSONError (c_Writer c) http.StatusBadRequest
              "missing user ID") c)
  else
    match strconv.ParseInt idStr with
    | (_, Some _) =>
        ([], setWriter
               (writeJSONError (c_Writer c) http.StatusBadRequest
                  "invalid user ID") c)
    | (id, None) =>
        forward h (CallDeleteUser (int32 id)) http.StatusInternalServerError
          http.StatusOK c
    end.

(** [decoded] is the body bound to [userpb.CreateAddressRequest] by
    [ShouldBindJSON], [None] when binding fails. *)
Definition CreateAddress (h : Clients)
    (decoded : option CreateAddressRequest) (c : Context)
    : list Call * Context :=
  let '(userID, ok) := middleware.GetUserID (c_Request c) in
  if negb ok then ([], setWriter (unauthorized (c_Writer c)) c)
  else
    match decoded with
    | None =>
        ([], setWriter
               (writeJSONError (c_Writer c) http.StatusBadRequest
                  "invalid request body") c)
    | Some req =>
        let req := mkCreateAddress (int32 userID) (Fields req) in
        forward h (CallCreateAddress req) http.StatusInternalServerError
          http.StatusCreated c
    end.

Definition ListAddresses (h : Clients) (c : Context) : list Call * Context :=
  let '(userID, ok) := middleware.GetUserID (c_Request c) in
  if negb ok then ([], setWriter (unauthorized (c_Writer c)) c)
  else
    forward h (CallListAddressesByUserID (int32 userID))
      http.StatusInternalServerError http.StatusOK c.


(** *** handlers/product_handler.go, order_handler.go, cart_handler.go *)

Definition GetProductByID (h : Clients) (w : responseWriter) (r : Request)
    : list Call * responseWriter :=
  let idStr := Get (URLQuery r) "id" in
  if String.eqb idStr "" then
    ([], writeJSONError w http.StatusBadRequest "missing product ID")
  else
    match strconv.ParseInt idStr with
    | (_, Some _) =>
        ([], writeJSONError w http.StatusBadRequest "invalid product ID")
    | (id, None) =>
        forwardF h (CallGetProductByID id) http.StatusNotFound http.StatusOK w
    end.

Definition DeleteProduct (h : Clients) (w : responseWriter) (r : Request)
    : list Call * responseWriter :=
  let idStr := Get (URLQuery r) "id" in
  if String.eqb idStr "" then
    ([], writeJSONError w http.StatusBadRequest "missing product ID")
  else
    match strconv.ParseInt idStr with
    | (_, Some _) =>
        ([], writeJSONError w http.StatusBadRequest "invalid product ID")
    | (id, None) =>
        forwardF h (CallDeleteProduct id) http.StatusInternalServerError
          http.StatusOK w
    end.

Definition GetCategoryByID (h : Clients) (w : responseWriter) (r : Request)
    : list Call * responseWriter :=
  let idStr := Get (URLQuery r) "id" in
  if String.eqb idStr "" then
    ([], writeJSONError w http.StatusBadRequest "missing category ID")
  else
    match strconv.ParseInt idStr with
    | (_, Some _) =>
        ([], writeJSONError w http.StatusBadRequest "invalid category ID")
    | (id, None) =>
        forwardF h (CallGetCategoryByID id) http.StatusNotFound
          http.StatusOK w
    end.

Definition ListCategories (h : Clients) (w : responseWriter) (r : Request)
    : list Call * responseWriter :=
  let page := fst (strconv.Atoi (Get (URLQuery r) "page")) in
  let page := if page <? 1 then 1 else page in
  let perPage := fst (strconv.Atoi (Get (URLQuery r) "per_page")) in
  let perPage := if (perPage <? 1) || (perPage >? 100) then 10 else perPage in
  forwardF h (CallListCategories (int32 page) (int32 perPage))
    http.StatusInternalServerError http.StatusOK w.

Definition DeleteCategory (h : Clients) (w : responseWriter) (r : Request)
    : list Call * responseWriter :=
  let idStr := Get (URLQuery r) "id" in
  if String.eqb idStr "" then
    ([], writeJSONError w http.StatusBadRequest "missing category ID")
  else
    match strconv.ParseInt idStr with
    | (_, Some _) =>
        ([], writeJSONError w http.StatusBadRequest "invalid category ID")
    | (id, None) =>
        forwardF h (CallDeleteCategory id) http.StatusInternalServerError
          http.StatusOK w
    end.

Definition GetOrderByID (h : Clients) (w : responseWriter) (r : Request)
    : list Call * responseWriter :=
  let idStr := Get (URLQuery r) "id" in
  if String.eqb idStr "" then
    ([], writeJSONError w http.StatusBadRequest "missing order ID")
  else
    match strconv.ParseInt idStr with
    | (_, Some _) =>
        ([], writeJSONError w http.StatusBadRequest "invalid order ID")
    | (id, None) =>
        forwardF h (CallGetOrderByID id) http.StatusNotFound http.StatusOK w
    end.

Definition ListOrders (h : Clients) (w : responseWriter) (r : Request)
    : list Call * responseWriter :=
  let page := fst (strconv.Atoi (Get (URLQuery r) "page")) in
  let page := if page <? 1 then 1 else page in
  let perPage := fst (strconv.Atoi (Get (URLQuery r) "per_page")) in
  let perPage := if (perPage <? 1) || (perPage >? 100) then 10 else perPage in
  let userIDParam := Get (URLQuery r) "user_id" in
  let userIDFilter :=
    if negb (String.eqb userIDParam "") then
      fst (strconv.ParseInt userIDParam)
    else
      let '(userID, ok) := middleware.GetUserID r in
      if ok then middleware.int64 userID else 0 in
  forwardF h (CallListOrders (int32 page) (int32 perPage) userIDFilter)
    http.StatusInternalServerError http.StatusOK w.

Definition GetCart (h : Clients) (w : responseWriter) (r : Request)
    : list Call * responseWriter :=
  let '(userID, ok) := middleware.GetUserID r in
  if negb ok then ([], unauthorized w)
  else
    forwardF h (CallGetCart (middleware.int64 userID))
      http.StatusInternalServerError http.StatusOK w.

Definition ClearCart (h : Clients) (w : responseWriter) (r : Request)
    : list Call * responseWriter :=
  let '(userID, ok) := middleware.GetUserID r in
  if negb ok then ([], unauthorized w)
  else
    forwardF h (CallClearCart (middleware.int64 userID))
      http.StatusInternalServerError http.StatusOK w.

End handlers_ext.

(** * Specification-side definitions *)

(** The table of the specification, kind by kind: invalid-argument 400,
    not-found 404, already-exists 409, permission-denied 403,
    unauthenticated 401, resource-exhausted 429, unimplemented 501,
    unavailable 503, deadline-exceeded 504, canceled 408; anything else
    500. *)
Definition spec_status_table : list (Z * Z) :=
  [(3, 400); (5, 404); (6, 409); (7, 403); (16, 401); (8, 429);
   (12, 501); (14, 503); (4, 504); (1, 408)].

Fixpoint spec_lookup (table : list (Z * Z)) (kind : Z) : Z :=
  match table with
  | [] => 500
  | (k, s) :: tl => if kind =? k then s else spec_lookup tl kind
  end.

(** The message member of the last JSON error document on the wire. *)
Definition client_message (w : responseWriter) : option string :=
  match List.last (w_body w) (PlainText "") with
  | ErrorJSON _ message _ => Some message
  | _ => None
  end.

(** A request with the given query string values and nothing else. *)
Definition queryRequest (method path : string) (q : gmap string string)
    : Request :=
  mkRequest method path ∅ q "" None None None.

(** *** Credentials, in the words of the specification

    A credential is an [Authorization] header made of the word [Bearer],
    one space and a token without spaces, whose token the verifier
    accepts. *)

Fixpoint no_space (s : string) : bool :=
  match s with
  | EmptyString => true
  | String a rest => negb (Ascii.eqb a " "%char) && no_space rest
  end.

Definition bearer_token (h tok : string) : Prop :=
  h = "Bearer " +:+ tok /\ no_space tok = true.

Definition valid_credential (jwt : middleware.JWTManager) (req : Request)
    (claims : UserClaims) : Prop :=
  exists tok, bearer_token (Get (Header req) "Authorization") tok
              /\ middleware.Verify jwt tok = Some claims.

(** What [AuthMiddleware] does with the header, in one place: the claims
    it attaches, or the message of its 401. *)
Definition authenticate (jwt : middleware.JWTManager) (req : Request)
    : UserClaims + string :=
  let authHeader := Get (Header req) "Authorization" in
  if String.eqb authHeader "" then inr "missing authorization header"
  else
    match middleware.Split authHeader with
    | [p0; p1] =>
        if negb (String.eqb p0 "Bearer")
        then inr "invalid authorization header format"
        else match middleware.Verify jwt p1 with
             | None => inr "invalid or expired token"
             | Some claims => inl claims
             end
    | _ => inr "invalid authorization header format"
    end.

(** Nothing of a response has been written. *)
Definition unwritten (w : responseWriter) : Prop :=
  w_sent w = None /\ w_body w = [].

(** The writer of a world. *)
Definition writer (w : middleware.World) : responseWriter :=
  gin.c_Writer (middleware.gc w).

(** The chain has ended at [x] with the response [wr] written: the index
    is past the [n] handlers. *)
Definition answered (n : Z) (wr : responseWriter) (x : middleware.World)
    : Prop :=
  n <= gin.c_index (middleware.gc x) /\ writer x = wr /\ Written wr = true.

(** The request [req] stands at position [i] of its chain with nothing
    written yet and the limiter state [l]. *)
Definition at_stage (i : Z) (req : Request) (l : middleware.RateLimiter)
    (w : middleware.World) : Prop :=
  gin.c_index (middleware.gc w) = i
  /\ Header (gin.c_Request (middleware.gc w)) = Header req
  /\ RemoteIP (gin.c_Request (middleware.gc w)) = RemoteIP req
  /\ Method (gin.c_Request (middleware.gc w)) = Method req
  /\ middleware.rl w = l
  /\ w_sent (writer w) = None.

(** The identifier the identification stage settles on, and the response
    headers the engine's stages have set when the limiter is reached. *)
Definition request_id (o : router.Oracle) (req : Request) : string :=
  if String.eqb (Get (Header req) "X-Request-ID") ""
  then router.o_uuid o else Get (Header req) "X-Request-ID".

Definition cors_headers (r : router.Router) (req : Request)
    : gmap string string :=
  <["Access-Control-Max-Age" := "86400"]>
    (<["Access-Control-Allow-Credentials" := "true"]>
       (<["Access-Control-Allow-Headers" :=
            middleware.joinStrings (router.AllowedHeaders (router.cfg r)) ", "]>
          (<["Access-Control-Allow-Methods" :=
               middleware.joinStrings (router.AllowedMethods (router.cfg r))
                 ", "]>
             (<["Access-Control-Allow-Origin" :=
                  middleware.pickOrigin
                    (router.AllowedOrigins (router.cfg r))
                    (Get (Header req) "Origin")]> ∅)))).

Definition engine_headers (r : router.Router) (o : router.Oracle)
    (req : Request) : gmap string string :=
  <["X-Request-ID" := request_id o req]> (cors_headers r req).

(** *** Admission checks in sequence

    One admission check is the limiter stage run for a request of the
    client [ip], with a continuation that marks the request as passed on.
    A history is a sequence of checks, of any clients, and of ticks of the
    background sweep. *)

Inductive Verdict :=
  | Passed
  | Rejected (status : option Z).

Definition checkRequest (ip : string) : Request :=
  mkRequest "GET" "/" ∅ ∅ ip None None None.

Definition check (l : middleware.RateLimiter) (ip : string)
    (clk : middleware.Clock) : middleware.RateLimiter * Verdict :=
  let passed := middleware.onContext (gin.SetKey "passed" "yes") in
  let w := middleware.Middleware clk passed
             (middleware.newWorld (checkRequest ip) l)
  in
  (middleware.rl w,
   match gin.c_Keys (middleware.gc w) !! "passed" with
   | Some _ => Passed
   | None => Rejected (client_status (writer w))
   end).

Inductive Event :=
  | Visit (ip : string) (clk : middleware.Clock)
  | Sweep (now : Z).

Definition step (l : middleware.RateLimiter) (ev : Event)
    : middleware.RateLimiter :=
  match ev with
  | Visit ip clk => fst (check l ip clk)
  | Sweep now => middleware.cleanup now l
  end.

Definition run (l : middleware.RateLimiter) (evs : list Event)
    : middleware.RateLimiter :=
  fold_left step evs l.

(** The number of checks of [k] in a history. *)
Fixpoint checks_of (k : string) (evs : list Event) : Z :=
  match evs with
  | [] => 0
  | Visit ip _ :: tl =>
      (if String.eqb ip k then 1 else 0) + checks_of k tl
  | Sweep _ :: tl => checks_of k tl
  end.

(** The start of [k]'s first window: the time its record was created, by
    its first check. *)
Fixpoint window_start (k : string) (evs : list Event) : option Z :=
  match evs with
  | [] => None
  | Visit ip clk :: tl =>
      if String.eqb ip k then Some (middleware.now_get clk)
      else window_start k tl
  | Sweep _ :: tl => window_start k tl
  end.

(** An event within the window of length [W] that started at [t0]: a
    check of [k] made, or a sweep run, no later than [W] after [t0]. *)
Definition within (W t0 : Z) (k : string) (ev : Event) : Prop :=
  match ev with
  | Visit ip clk => ip = k -> middleware.now_since clk - t0 <= W
  | Sweep now => now - t0 <= W
  end.

(** The count the limiter holds for [k]; 0 when it holds no record. *)
Definition count_of (k : string) (l : middleware.RateLimiter) : Z :=
  match middleware.visitors l !! k with
  | Some v => middleware.count v
  | None => 0
  end.

Definition at_time (t : Z) : middleware.Clock := middleware.mkClock t t t.

(** A history of the client "a" with limit 3 and window 60: three checks
    of "a", one of another client and one sweep, all within the window
    that the first check opened at time 0. *)
Definition demoHistory : list Event :=
  [Visit "a" (at_time 0); Visit "b" (at_time 5); Sweep 30;
   Visit "a" (at_time 10); Visit "a" (at_time 20)].

(** *** A small gateway to run examples on *)

Definition demoVerify (tok : string) : option UserClaims :=
  if String.eqb tok "t0k3n" then Some (mkClaims 7 "customer") else None.

Definition demoRouter : router.Router :=
  router.mkRouter
    (router.mkConfig ["*"] ["GET"; "POST"] ["Authorization"] 1
       60000000000 30000000000)
    (middleware.mkJWTManager demoVerify)
    (handlers.mkUserHandler (fun _ => handlers.Reply "{id: 1}")
       (fun _ => handlers.Reply "{users: []}"))
    (handlers.mkProductHandler (fun _ => handlers.Reply "{products: []}"))
    (fun _ _ w =>
       middleware.onContext
         (gin.JSON http.StatusOK (DataJSON "{}")) w).

Definition demoLimiter : middleware.RateLimiter :=
  middleware.NewRateLimiter 1 60000000000.

Definition adminSearch : router.Route :=
  router.mkRoute "GET" "/api/v1/users/search" (router.RoleGated ["admin"])
    "userHandler.SearchUsers".

Definition searchRequest (hd : gmap string string) : Request :=
  mkRequest "GET" "/api/v1/users/search" hd ∅ "203.0.113.9" None None None.

Definition demoOracle (now : Z) : router.Oracle :=
  router.mkOracle "6ba7b810-9dad-41d1-80b4-00c04fd430c8"
    (middleware.mkClock now now now) false None None.

(** The limiter after one admitted request of 203.0.113.9 at time 0. *)
Definition demoLimiterUsed : middleware.RateLimiter :=
  middleware.mkRateLimiter {[ "203.0.113.9" := middleware.mkVisitor 0 1 ]}
    1 60000000000.

(** The same gateway with handlers that return without writing, and a
    request whose deadline has passed when they return. *)
Definition demoSilentRouter : router.Router :=
  router.mkRouter (router.cfg demoRouter) (router.jwtManager demoRouter)
    (router.userHandler demoRouter) (router.productHandler demoRouter)
    (fun _ _ w => w).

Definition demoLateOracle (err : option middleware.ctxError) : router.Oracle :=
  router.mkOracle "6ba7b810-9dad-41d1-80b4-00c04fd430c8"
    (middleware.mkClock 0 0 0) false err
    (Some middleware.DeadlineExceeded).

Definition categoriesRequest : Request :=
  mkRequest "GET" "/api/v1/categories" ∅ ∅ "203.0.113.9" None None None.

Definition registerRequest (obj : gmap string string) : Request :=
  mkRequest "POST" "/api/v1/users/register" ∅ ∅ "203.0.113.9" (Some obj)
    None None.

(** *** Comma-separated settings

    The fields of a value: the pieces between its commas, as
    [strings.Split(value, ",")] returns them. *)






(** Every count the limiter holds lies between 0 and its limit. *)
Definition counts_bounded (l : middleware.RateLimiter) : Prop :=
  forall k v,
    middleware.visitors l !! k = Some v ->
    0 <= middleware.count v <= Z.max (middleware.requests l) 0.

(** *** What a request leaves behind

    The response, the limiter's state, the calls made on the backends and
    the lines logged. *)

Record Outcome := mkOutcome {
  response : responseWriter;
  limiter : middleware.RateLimiter;
  backend : list handlers.BackendCall;
  logged : list middleware.LogLine
}.

Definition outcome (w : middleware.World) : Outcome :=
  mkOutcome (writer w) (middleware.rl w) (middleware.calls w)
    (middleware.logs w).

(** The request as the identification stage leaves it. *)
Definition identified (o : router.Oracle) (req : Request) : Request :=
  mkRequest (Method req) (Path req) (Header req) (URLQuery req)
    (RemoteIP req) (JSONBody req) (Some (request_id o req))
    (ctx_userClaims req).

(** The world in which the handler at position [i] is entered, for a
    position after the identification stage and up to the first handler
    of the route: the engine's headers are set, nothing is written. *)
Definition entering (i : Z) (r : router.Router) (o : router.Oracle)
    (l : middleware.RateLimiter) (req : Request) : middleware.World :=
  middleware.mkWorld
    (gin.mkContext (identified o req)
       (mkWriter defaultStatus (engine_headers r o req) None []) i
       (<["requestID" := request_id o req]> ∅))
    l [] [].

(** The line [Logger] writes for a chain that returned [w]. *)
Definition log_line (w : middleware.World) : middleware.LogLine :=
  middleware.mkLogLine
    (default "unknown" (gin.c_Keys (middleware.gc w) !! "requestID"))
    (Method (gin.c_Request (middleware.gc w)))
    (Path (gin.c_Request (middleware.gc w)))
    (w_status (writer w)).

(** The chain of [n] handlers has ended at [x] with a response written. *)
Definition finished (n : Z) (x : middleware.World) : Prop :=
  n <= gin.c_index (middleware.gc x) /\ Written (writer x) = true.

(** The outcome of a request that a stage behind the identification stage
    refused with [writeJSONError code msg]: the error document with the
    engine's headers, no backend call, one log line. *)
Definition refusal (r : router.Router) (o : router.Oracle) (req : Request)
    (l : middleware.RateLimiter) (code : Z) (msg : string) : Outcome :=
  let hd := <["Content-Type" := "application/json; charset=utf-8"]>
              (engine_headers r o req) in
  mkOutcome
    (mkWriter code hd (Some (code, hd))
       [ErrorJSON (http.StatusText code) msg code])
    l []
    [middleware.mkLogLine (request_id o req) (Method req) (Path req) code].

(** The demonstration gateway with a second token, of an administrator. *)
Definition demoAdminVerify (tok : string) : option UserClaims :=
  if String.eqb tok "r00t" then Some (mkClaims 1 "admin") else demoVerify tok.

Definition demoAdminRouter : router.Router :=
  router.mkRouter (router.cfg demoRouter)
    (middleware.mkJWTManager demoAdminVerify)
    (router.userHandler demoRouter) (router.productHandler demoRouter)
    (router.others demoRouter).

Definition productsRoute : router.Route :=
  router.mkRoute "GET" "/api/v1/products" router.Public
    "productHandler.ListProducts".

(** *** Whom a backend call acts for

    The user a call names: the record fetched, changed or deleted, or the
    owner of the addresses, cart or orders concerned. *)

Definition subject (call : handlers_ext.Call) : option Z :=
  match call with
  | handlers_ext.CallGetUserByID id => Some id
  | handlers_ext.CallUpdateUser id _ _ => Some id
  | handlers_ext.CallDeleteUser id => Some id
  | handlers_ext.CallCreateAddress req => Some (handlers_ext.UserId req)
  | handlers_ext.CallListAddressesByUserID user_id => Some user_id
  | handlers_ext.CallListOrders _ _ user_id => Some user_id
  | handlers_ext.CallGetCart user_id => Some user_id
  | handlers_ext.CallClearCart user_id => Some user_id
  | _ => None
  end.

(** A handler answered once: one document more on the wire, and the
    header sent. *)
Definition answers_once (w w' : responseWriter) : Prop :=
  Written w' = true /\ exists doc, w_body w' = w_body w ++ [doc].

(** A request of a caller with the given claims, and a context for it. *)
Definition callerRequest (claims : option UserClaims)
    (q : gmap string string) (body : option (gmap string string)) : Request :=
  mkRequest "GET" "/" ∅ q "203.0.113.9" body None claims.

Definition demoClients : handlers_ext.Clients :=
  handlers_ext.mkClients (fun _ => handlers.Reply "{}")
    (fun id => handlers.Reply (handlers_ext.mkAddress 7 "{}")).

(** * Sanity checks of the library models *)

Example Atoi_plain : strconv.Atoi "12" = (12, None).
Proof. reflexivity. Qed.

Example Atoi_negative : strconv.Atoi "-7" = (-7, None).
Proof. reflexivity. Qed.

Example Atoi_trailing : strconv.Atoi "12abc" = (0, Some strconv.ErrSyntax).
Proof. reflexivity. Qed.

Example Atoi_empty : strconv.Atoi "" = (0, Some strconv.ErrSyntax).
Proof. reflexivity. Qed.

Example Atoi_sign_only : strconv.Atoi "+" = (0, Some strconv.ErrSyntax).
Proof. reflexivity. Qed.

Example Atoi_saturates :
  strconv.Atoi "99999999999999999999" = (2 ^ 63 - 1, Some strconv.ErrRange).
Proof. vm_compute. reflexivity. Qed.

Example Atoi_max : strconv.Atoi "9223372036854775807" = (2 ^ 63 - 1, None).
Proof. vm_compute. reflexivity. Qed.

Example Atoi_min : strconv.Atoi "-9223372036854775808" = (- 2 ^ 63, None).
Proof. vm_compute. reflexivity. Qed.

Example Split_bearer_token :
  middleware.Split "Bearer abc" = ["Bearer"; "abc"].
Proof. reflexivity. Qed.

Example Split_empty : middleware.Split "" = [""].
Proof. reflexivity. Qed.

Example Split_double_space :
  middleware.Split "Bearer  abc" = ["Bearer"; ""; "abc"].
Proof. reflexivity. Qed.

(** * Error translation (handlers/response.go) *)

Section ErrorTranslation.

Import handlers.

Lemma writeJSONError_status (w : responseWriter) (code : Z) (msg : string) :
  Written w = false -> 0 < code ->
  client_status (writeJSONError w code msg) = Some code.
Proof.
  destruct w as [st hd [sent|] bd]; [discriminate|]. intros _ Hc.
  unfold writeJSONError, Write, WriteHeaderNow, WriteHeader, HeaderSet,
    client_status, Written. simpl.
  assert ((0 <? code) = true) as -> by (apply Z.ltb_lt; lia).
  destruct (st =? code) eqn:Es; simpl; [|reflexivity].
  apply Z.eqb_eq in Es. by rewrite Es.
Qed.

Lemma writeJSONError_body (w : responseWriter) (code : Z) (msg : string) :
  w_body (writeJSONError w code msg)
  = w_body w ++ [ErrorJSON (http.StatusText code) msg code].
Proof.
  unfold writeJSONError, Write, WriteHeaderNow, WriteHeader, HeaderSet, Written.
  simpl. repeat (case_match; simpl); reflexivity.
Qed.

Lemma grpcCodeToHTTP_pos (code : Z) : 0 < grpcCodeToHTTP code.
Proof. unfold grpcCodeToHTTP. repeat case_match; reflexivity. Qed.

Lemma grpcCodeToHTTP_table (code : Z) :
  grpcCodeToHTTP code = spec_lookup spec_status_table code.
Proof.
  unfold grpcCodeToHTTP, spec_status_table, spec_lookup.
  unfold codes.InvalidArgument, codes.NotFound, codes.AlreadyExists,
    codes.PermissionDenied, codes.Unauthenticated, codes.ResourceExhausted,
    codes.Unimplemented, codes.Unavailable, codes.DeadlineExceeded,
    codes.Canceled.
  repeat (case_match; [reflexivity|]). reflexivity.
Qed.

(** C2, as amended: a failure that carries a gRPC status is answered with
    the status the fixed table gives for its kind, whatever its message
    and whatever the handler's default; a failure that carries no gRPC
    status is answered with the handler's default status. *)
Theorem backend_failure_status :
  forall (w : responseWriter) (d : Z),
    Written w = false ->
    (forall st : status.Status,
        client_status (writeJSONErrorFromGRPC w (status.StatusError st) d)
        = Some (spec_lookup spec_status_table (status.Code st)))
    /\ (0 < d ->
        forall text : string,
          client_status (writeJSONErrorFromGRPC w (status.PlainError text) d)
          = Some d).
Proof.
  intros w d Hw. split.
  - intros st. unfold writeJSONErrorFromGRPC, status.FromError, negb.
    rewrite writeJSONError_status; [| done | apply grpcCodeToHTTP_pos].
    by rewrite grpcCodeToHTTP_table.
  - intros Hd text. unfold writeJSONErrorFromGRPC, status.FromError, negb.
    by apply writeJSONError_status.
Qed.

Lemma backend_failure_status_witness :
  client_status
    (writeJSONErrorFromGRPC newWriter
       (status.StatusError (status.mkStatus codes.NotFound "no such product"))
       http.StatusInternalServerError) = Some 404
  /\ client_status
       (writeJSONErrorFromGRPC newWriter (status.PlainError "broken pipe")
          http.StatusNotFound) = Some 404.
Proof.
  destruct (backend_failure_status newWriter http.StatusNotFound eq_refl)
    as [_ Hplain].
  destruct (backend_failure_status newWriter http.StatusInternalServerError
              eq_refl) as [Hst _].
  split.
  - exact (Hst (status.mkStatus codes.NotFound "no such product")).
  - apply Hplain. reflexivity.
Defined.

(** C2 as stated fails: the same failure, of no known kind, is answered
    404 by a handler whose default is 404 and 401 by one whose default is
    401, and never 500. *)
Lemma backend_failure_status_counterexample :
  let err := status.PlainError "connection reset by peer" in
  status.Code (fst (status.FromError err)) = codes.Unknown
  /\ client_status (writeJSONErrorFromGRPC newWriter err http.StatusNotFound)
     = Some 404
  /\ client_status
       (writeJSONErrorFromGRPC newWriter err http.StatusUnauthorized)
     = Some 401
  /\ spec_lookup spec_status_table codes.Unknown = 500.
Proof. repeat split. Qed.

(** C5, as amended: the message of the client-facing error is the backend's
    own message, verbatim, for every kind; unauthenticated and
    permission-denied are no exception.  For an error without a gRPC
    status it is the text of the error. *)
Theorem backend_message_forwarded :
  forall (w : responseWriter) (err : status.error) (d : Z),
    client_message (writeJSONErrorFromGRPC w err d)
    = Some (match err with
            | status.StatusError st => status.Message st
            | status.PlainError text => text
            end).
Proof.
  intros w [st|text] d;
    unfold writeJSONErrorFromGRPC, client_message, status.FromError, negb;
    rewrite writeJSONError_body; by rewrite last_last.
Qed.

(** C5 as stated fails: two unauthenticated failures that differ in their
    raw message reach the client with different messages, each the raw
    one. *)
Lemma backend_message_counterexample :
  let e1 := status.StatusError
              (status.mkStatus codes.Unauthenticated
                 "invalid internal token: expected svc-7f3a") in
  let e2 := status.StatusError
              (status.mkStatus codes.Unauthenticated "session table offline") in
  client_message (writeJSONErrorFromGRPC newWriter e1 http.StatusUnauthorized)
  = Some "invalid internal token: expected svc-7f3a"
  /\ client_message (writeJSONErrorFromGRPC newWriter e1 http.StatusUnauthorized)
     <> client_message
          (writeJSONErrorFromGRPC newWriter e2 http.StatusUnauthorized).
Proof. split; [reflexivity | discriminate]. Qed.

End ErrorTranslation.

(** * Pagination and registration (handlers) *)

Section Handlers.

Import handlers.

Lemma int32_small (x : Z) : - 2 ^ 31 <= x < 2 ^ 31 -> int32 x = x.
Proof. intros H. unfold int32. rewrite Z.mod_small; lia. Qed.

(** The page size a list request forwards is always within 1..100. *)
Lemma clamped_per_page (p : Z) :
  let perPage := if (p <? 1) || (p >? 100) then 10 else p in
  1 <= int32 perPage <= 100.
Proof.
  simpl. destruct (p <? 1) eqn:E1; simpl; [rewrite int32_small; lia|].
  destruct (p >? 100) eqn:E2; [rewrite int32_small; lia|].
  rewrite int32_small; lia.
Qed.

Lemma ListProducts_per_page (h : ProductHandler) (w : responseWriter)
    (r : Request) :
  exists req, fst (ListProducts h w r) = [CallListProducts req]
              /\ 1 <= PerPage req <= 100.
Proof.
  unfold ListProducts.
  eexists. split; [by destruct (productClient_ListProducts h _)|].
  apply clamped_per_page.
Qed.

(** A page number below 2^31 is forwarded as written, and never below 1. *)
Lemma clamped_page_small (p : Z) :
  p < 2 ^ 31 ->
  let page := if p <? 1 then 1 else p in
  1 <= int32 page /\ (1 <= p -> int32 page = p).
Proof.
  intros Hp. simpl. destruct (p <? 1) eqn:E.
  - rewrite int32_small; lia.
  - rewrite int32_small; lia.
Qed.

(** C9, at the failing input: the page parameter 4294967296 passes the
    lower-bound test as a 64-bit [int] and is then narrowed to 32 bits;
    both list handlers forward page 0 to the backend. *)
Theorem page_narrowing_forwards_zero :
  forall (hp : ProductHandler) (hu : UserHandler) (w : responseWriter)
         (i : Z) (keys : gmap string string),
    let q : gmap string string := {[ "page" := "4294967296" ]} in
    fst (ListProducts hp w (queryRequest "GET" "/api/v1/products" q))
    = [CallListProducts (mkListProducts 0 10)]
    /\ fst (SearchUsers hu
               (gin.mkContext (queryRequest "GET" "/api/v1/users/search" q)
                  w i keys))
       = [CallSearchUsers (mkSearchUsers "" 0 10)].
Proof.
  intros hp hu w i keys q. split.
  - unfold ListProducts.
    by destruct (productClient_ListProducts hp _).
  - unfold SearchUsers.
    by destruct (userClient_SearchUsers hu _).
Qed.

(** The same slip with a parameter that is out of the 64-bit range: [Atoi]
    saturates, the error is dropped, and the narrowing yields -1. *)
Example page_saturation_forwards_minus_one :
  forall (hp : ProductHandler) (w : responseWriter),
    fst (ListProducts hp w
           (queryRequest "GET" "/api/v1/products"
              {[ "page" := "99999999999999999999" ]}))
    = [CallListProducts (mkListProducts (-1) 10)].
Proof.
  intros hp w. unfold ListProducts.
  by destruct (productClient_ListProducts hp _).
Qed.


(** A client that asks for the role "admin" is registered with it. *)
Example register_admin_verbatim :
  forall (h : UserHandler) (c : gin.Context),
    fst (Register h
           (gin.setRequest
              (mkRequest "POST" "/api/v1/users/register" ∅ ∅ ""
                 (Some {[ "name" := "eve"; "role" := "admin" ]}) None None)
              c))
    = [CallCreateUser (mkCreateUser "eve" "" "" "admin")].
Proof.
  intros h c. unfold Register. simpl.
  by destruct (userClient_CreateUser h _).
Qed.

(** A body that does not decode is answered 400 and nothing is forwarded. *)
Lemma register_bad_body (h : UserHandler) (w : responseWriter) (i : Z)
    (keys : gmap string string) (method path ip : string)
    (hd q : gmap string string) (rid : option string)
    (cl : option UserClaims) :
  let out := Register h
               (gin.mkContext (mkRequest method path hd q ip None rid cl)
                  w i keys) in
  fst out = []
  /\ (Written w = false ->
      client_status (gin.c_Writer (snd out)) = Some 400).
Proof.
  split; [reflexivity|]. intros Hw. unfold Register. simpl.
  by apply writeJSONError_status.
Qed.

End Handlers.

(** * Process lifecycle (cmd/main.go) *)

Section Lifecycle.

Import main.

(** C7, as amended: [main] never ends the process with a non-zero status.
    When a termination signal is delivered it returns, status 0, whether
    the drain was clean or [Shutdown] gave up at the drain timeout, and
    whether or not the listener had failed to start; without a signal a
    started gateway does not exit at all, a failed listener included. *)
Theorem exit_status_always_zero :
  forall env : Env,
    exit_status (termination (main env))
    = if config_Load_ok env && NewServiceClients_ok env
         && negb (signal_delivered env)
      then None else Some 0.
Proof.
  intros [c n l s f]. unfold main. simpl.
  destruct c, n, s, f; reflexivity.
Qed.

(** C7 as stated fails: a forced shutdown after a signal, and a listener
    that failed to start, both end with status 0. *)
Lemma exit_status_counterexample :
  let forced := mkEnv true true false true true in
  let unbound := mkEnv true true true true false in
  Shutdown_err forced = true
  /\ In (LogError "Server forced to shutdown") (main_log (main forced))
  /\ exit_status (termination (main forced)) = Some 0
  /\ ListenAndServe_fails unbound = true
  /\ In (LogError "Failed to start server") (server_log (main unbound))
  /\ exit_status (termination (main unbound)) = Some 0.
Proof. cbn. intuition. Qed.

End Lifecycle.

(** * The handler chain and the writer: equations *)

Section Chain.

Import gin middleware.

Lemma handle_step (n : Z) (h : HandlerFunc) (tl : list HandlerFunc)
    (w : World) :
  c_index (gc w) < n ->
  handle n (h :: tl) w
  = handle n tl (incr (h (fun w' => handle n tl (incr w')) w)).
Proof.
  intros H. simpl. by assert ((c_index (gc w) <? n) = true) as ->
    by (apply Z.ltb_lt; lia).
Qed.

Lemma handle_done (n : Z) (hs : list HandlerFunc) (w : World) :
  n <= c_index (gc w) -> handle n hs w = w.
Proof.
  intros H. destruct hs as [|h tl]; simpl; [done|].
  by assert ((c_index (gc w) <? n) = false) as -> by (apply Z.ltb_ge; lia).
Qed.

(** A stage that aborted ends the chain: the handlers after it do not
    run. *)
Lemma handle_after_abort (n : Z) (tl : list HandlerFunc) (w : World) :
  n <= abortIndex + 1 -> c_index (gc w) = abortIndex ->
  handle n tl (incr w) = incr w.
Proof. intros Hn Hi. apply handle_done. simpl. lia. Qed.

Lemma writeJSONError_index (c : Context) (code : Z) (msg : string) :
  c_index (writeJSONError c code msg) = abortIndex.
Proof.
  unfold writeJSONError, AbortWithStatusJSON, JSON.
  by destruct (negb (bodyAllowedForStatus code)).
Qed.

Lemma writeJSONError_request (c : Context) (code : Z) (msg : string) :
  c_Request (writeJSONError c code msg) = c_Request c.
Proof.
  unfold writeJSONError, AbortWithStatusJSON, JSON.
  by destruct (negb (bodyAllowedForStatus code)).
Qed.

Lemma writeJSONError_writer (c : Context) (code : Z) (msg : string) :
  bodyAllowedForStatus code = true ->
  c_Writer (writeJSONError c code msg)
  = Write (ErrorJSON (http.StatusText code) msg code)
      (WriteContentType (WriteHeader code (c_Writer c))).
Proof.
  intros H. unfold writeJSONError, AbortWithStatusJSON, JSON.
  by rewrite H.
Qed.

(** A stage that answers by aborting: the rest of the chain is skipped and
    the loop ends. *)
Lemma handle_step_abort (n : Z) (h : HandlerFunc) (tl : list HandlerFunc)
    (w : World) :
  c_index (gc w) < n <= abortIndex + 1 ->
  c_index (gc (h (fun w' => handle n tl (incr w')) w)) = abortIndex ->
  handle n (h :: tl) w = incr (h (fun w' => handle n tl (incr w')) w).
Proof.
  intros Hn Hi. rewrite handle_step by lia.
  apply handle_after_abort; [lia | done].
Qed.

(** The first write on a writer: status line, header snapshot, body. *)
Lemma first_write (wr : responseWriter) (code : Z) (b : Body) :
  w_sent wr = None -> 0 < code ->
  let out := Write b (WriteContentType (WriteHeader code wr)) in
  w_sent out = Some (code, w_header (WriteContentType wr))
  /\ w_body out = w_body wr ++ [b].
Proof.
  destruct wr as [st hd sent bd]. simpl. intros -> Hc.
  unfold Write, WriteHeaderNow, WriteContentType, WriteHeader, Written,
    HeaderSet. simpl.
  assert ((0 <? code) = true) as -> by (apply Z.ltb_lt; lia).
  destruct (st =? code) eqn:E; simpl.
  - apply Z.eqb_eq in E. subst st. by destruct (hd !! "Content-Type").
  - by destruct (hd !! "Content-Type").
Qed.

(** A later write leaves the status line and the headers alone. *)
Lemma WriteHeaderNow_written (wr : responseWriter) :
  Written wr = true -> WriteHeaderNow wr = wr.
Proof. intros H. unfold WriteHeaderNow. by rewrite H. Qed.

Lemma Written_sent (wr : responseWriter) (x : Z * gmap string string) :
  w_sent wr = Some x -> Written wr = true.
Proof. intros H. unfold Written. by rewrite H. Qed.

(** The response of a stage that answers with [writeJSONError] on a writer
    nothing was written to, as it stands after the engine's final flush. *)
Lemma error_response (c : Context) (code : Z) (msg : string) :
  w_sent (c_Writer c) = None -> 0 < code ->
  bodyAllowedForStatus code = true ->
  let out := WriteHeaderNow (c_Writer (writeJSONError c code msg)) in
  out = c_Writer (writeJSONError c code msg)
  /\ w_sent out = Some (code, w_header (WriteContentType (c_Writer c)))
  /\ w_body out
     = w_body (c_Writer c) ++ [ErrorJSON (http.StatusText code) msg code].
Proof.
  intros Hs Hc Hb. simpl. rewrite writeJSONError_writer by done.
  destruct (first_write (c_Writer c) code
              (ErrorJSON (http.StatusText code) msg code) Hs Hc) as [H1 H2].
  rewrite WriteHeaderNow_written by (eapply Written_sent, H1). done.
Qed.

End Chain.

(** * Authentication and authorization (middleware/auth.go) *)

Section Auth.

Import gin middleware router.

Lemma Split_not_nil (s : string) : Split s <> [].
Proof.
  induction s as [|a s IH]; simpl; [done|].
  destruct (Ascii.eqb a " "); [done|]. by destruct (Split s).
Qed.

Lemma Split_no_space (s : string) : no_space s = true -> Split s = [s].
Proof.
  induction s as [|a s IH]; simpl; [done|].
  destruct (Ascii.eqb a " "); simpl; [done|]. intros H. by rewrite IH.
Qed.

Lemma Split_append (p rest : string) :
  no_space p = true -> Split (p +:+ String " " rest) = p :: Split rest.
Proof.
  induction p as [|a p IH]; simpl; [done|].
  destruct (Ascii.eqb a " "); simpl; [done|]. intros H. by rewrite IH.
Qed.

Lemma Split_cons (h p : string) (ps : list string) :
  Split h = p :: ps ->
  no_space p = true
  /\ ((ps = [] /\ h = p)
      \/ exists rest, h = p +:+ String " " rest /\ Split rest = ps).
Proof.
  revert p ps. induction h as [|a h IH]; simpl; intros p ps H.
  - injection H as <- <-. auto.
  - destruct (Ascii.eqb a " ") eqn:E.
    + apply Ascii.eqb_eq in E. subst a. injection H as <- <-.
      split; [done|]. right. by exists h.
    + destruct (Split h) as [|p' ps'] eqn:Es; [by apply Split_not_nil in Es|].
      injection H as <- <-.
      destruct (IH p' ps' eq_refl) as [Hns [[-> ->]|[rest [-> Hr]]]].
      * simpl. rewrite E. simpl. split; [done|]. by left.
      * simpl. rewrite E. simpl. split; [done|]. right. by exists rest.
Qed.

Lemma Split_two (h p0 p1 : string) :
  Split h = [p0; p1] -> h = p0 +:+ String " " p1 /\ no_space p1 = true.
Proof.
  intros H. destruct (Split_cons _ _ _ H) as [_ [[? _]|[rest [-> Hr]]]];
    [done|].
  destruct (Split_cons _ _ _ Hr) as [Hns [[_ ->]|[rest' [_ Hr']]]];
    [done|]. by apply Split_not_nil in Hr'.
Qed.

Lemma Split_bearer (tok : string) :
  no_space tok = true -> Split ("Bearer " +:+ tok) = ["Bearer"; tok].
Proof.
  intros H. change ("Bearer " +:+ tok) with ("Bearer" +:+ String " " tok).
  rewrite Split_append by done. by rewrite Split_no_space.
Qed.

Lemma hasRole_elem_of (role : string) (roles : list string) :
  hasRole role roles = true <-> role ∈ roles.
Proof.
  induction roles as [|r tl IH]; simpl.
  - split; [done|]. by intros ?%elem_of_nil.
  - rewrite elem_of_cons. destruct (String.eqb role r) eqn:E.
    + apply String.eqb_eq in E. tauto.
    + apply String.eqb_neq in E. rewrite IH. tauto.
Qed.

Lemma authenticate_inl (jwt : JWTManager) (req : Request)
    (claims : UserClaims) :
  authenticate jwt req = inl claims <-> valid_credential jwt req claims.
Proof.
  unfold authenticate, valid_credential, bearer_token. split.
  - destruct (String.eqb _ "") eqn:E0; [done|].
    destruct (Split _) as [|p0 [|p1 [|]]] eqn:Es; try done.
    destruct (String.eqb p0 "Bearer") eqn:Eb; simpl; [|done].
    apply String.eqb_eq in Eb. subst p0.
    destruct (Verify jwt p1) eqn:Ev; [|done]. intros [= ->].
    apply Split_two in Es as [-> Hns]. by exists p1.
  - intros [tok [[Hh Hns] Hv]]. rewrite Hh, Split_bearer by done.
    simpl. by rewrite Hv.
Qed.

Lemma AuthMiddleware_authenticate (jwt : JWTManager) (next : World -> World)
    (w : World) :
  AuthMiddleware jwt next w
  = match authenticate jwt (c_Request (gc w)) with
    | inr msg =>
        onContext
          (fun c => Abort (writeJSONError c http.StatusUnauthorized msg)) w
    | inl claims => next (onContext (withClaims claims) w)
    end.
Proof.
  unfold AuthMiddleware, authenticate, GetHeader.
  destruct (String.eqb _ "") eqn:E0; [done|].
  destruct (Split _) as [|p0 [|p1 [|]]] eqn:Es; try done.
  destruct (String.eqb p0 "Bearer") eqn:Eb; simpl; [|done].
  by destruct (Verify jwt p1).
Qed.

Lemma RequireRole_claims (roles : list string) (next : World -> World)
    (w : World) (claims : UserClaims) :
  ctx_userClaims (c_Request (gc w)) = Some claims ->
  hasRole (Role claims) roles = false ->
  RequireRole roles next w
  = onContext
      (fun c => Abort (writeJSONError c http.StatusForbidden
                         "insufficient permissions")) w.
Proof. intros Hc Hr. unfold RequireRole. by rewrite Hc, Hr. Qed.




End Auth.

(** * Deadlines (middleware/timeout.go, middleware/cancellation.go) *)

Section Deadline.

Import gin middleware router.

Lemma writeJSONError_Written (c : Context) (code : Z) (msg : string) :
  bodyAllowedForStatus code = true ->
  Written (c_Writer (writeJSONError c code msg)) = true.
Proof.
  intros H. rewrite writeJSONError_writer by done.
  by destruct (WriteContentType _) as [? ? [?|] ?].
Qed.



Lemma Cancellation_written (err : option ctxError) (next : World -> World)
    (w : World) :
  Written (writer (next w)) = true ->
  Cancellation false err next w = next w.
Proof. intros H. unfold Cancellation, writer in *. by rewrite H, andb_false_r. Qed.

Lemma Timeout_written (t : Z) (err : option ctxError)
    (next : World -> World) (w : World) :
  Written (writer (next w)) = true -> Timeout t err next w = next w.
Proof. intros H. unfold Timeout, writer in *. by rewrite H, andb_false_r. Qed.

Lemma Timeout_fires (t : Z) (next : World -> World) (w : World) :
  Written (writer (next w)) = false ->
  Timeout t (Some DeadlineExceeded) next w
  = onContext
      (fun c => writeJSONError c http.StatusGatewayTimeout "request timeout")
      (next w).
Proof. intros H. unfold Timeout, writer in *. by rewrite H. Qed.

(** The same inside gin's loop, with [tl] the handlers registered after
    the timeout stage.  [R] is what the rest of the chain returns to the
    timeout stage; when it wrote a response, the loop is at its end. *)
Lemma deadline_answered_once_in_chain (n t : Z) (tl : list HandlerFunc)
    (err : option ctxError) (w : World) :
  c_index (gc w) + 1 < n <= abortIndex + 1 ->
  let R := handle n tl (incr (incr w)) in
  (unwritten (writer R) ->
     let out :=
       writer (handle n (Cancellation false err
                           :: Timeout t (Some DeadlineExceeded) :: tl) w) in
     client_status out = Some 504
     /\ w_body out = [ErrorJSON "Gateway Timeout" "request timeout" 504])
  /\ (forall terr : option ctxError,
        Written (writer R) = true -> n <= c_index (gc R) + 1 ->
        writer (handle n (Cancellation false err :: Timeout t terr :: tl) w)
        = writer R).
Proof.
  intros Hn R. unfold abortIndex in Hn.
  set (nextT := fun w' : World => handle n tl (incr w')).
  assert (nextT (incr w) = R) as HR by reflexivity.
  split.
  - intros [Hs Hb] out.
    set (W504 := onContext
           (fun c => writeJSONError c http.StatusGatewayTimeout
                       "request timeout") R).
    assert (handle n (Timeout t (Some DeadlineExceeded) :: tl) (incr w)
            = incr W504) as HT.
    { rewrite handle_step by (cbn; lia). fold nextT.
      rewrite Timeout_fires by (rewrite HR; unfold Written; by rewrite Hs).
      rewrite HR. apply handle_after_abort; [unfold abortIndex; lia|].
      apply writeJSONError_index. }
    assert (Written (writer (incr W504)) = true) as HW
      by (apply writeJSONError_Written; reflexivity).
    assert (handle n (Cancellation false err
                        :: Timeout t (Some DeadlineExceeded) :: tl) w
            = incr (incr W504)) as HC.
    { rewrite handle_step by lia.
      rewrite Cancellation_written by (by rewrite HT).
      rewrite HT. apply handle_done.
      change (n <= c_index (gc W504) + 1 + 1).
      replace (c_index (gc W504)) with abortIndex
        by (symmetry; apply writeJSONError_index).
      unfold abortIndex. lia. }
    unfold out. rewrite HC.
    destruct (error_response (gc R) http.StatusGatewayTimeout
                "request timeout" Hs eq_refl eq_refl) as (He & Hs' & Hb').
    unfold writer in *. cbn [gc incr onContext c_Writer setIndex W504].
    rewrite <- He. unfold client_status. rewrite Hs', Hb', Hb. by split.
  - intros terr Hw Hend.
    assert (handle n (Timeout t terr :: tl) (incr w) = incr R) as HT.
    { rewrite handle_step by (cbn; lia). fold nextT.
      rewrite Timeout_written by (by rewrite HR).
      rewrite HR. apply handle_done. cbn. lia. }
    rewrite handle_step by lia.
    rewrite Cancellation_written by (by rewrite HT).
    rewrite HT. by rewrite handle_done by (cbn; lia).
Qed.

(** The 504 the client gets for a backend call cut short by the deadline
    comes from the handler, through the error table; the timeout stage
    then finds a response written and adds none. *)
Example deadline_during_backend_call :
  let h := handlers.mkProductHandler
             (fun _ => handlers.Failed
                (status.StatusError
                   (status.mkStatus codes.DeadlineExceeded
                      "context deadline exceeded"))) in
  let rest (w : World) :=
    onContext
      (fun c => setWriter
         (snd (handlers.ListProducts h (c_Writer c) (c_Request c))) c) w in
  let w := newWorld (queryRequest "GET" "/api/v1/products" ∅) demoLimiter in
  let out := writer (Cancellation false None
                       (Timeout 1000000 (Some DeadlineExceeded) rest) w) in
  client_status out = Some 504
  /\ w_body out
     = [ErrorJSON "Gateway Timeout" "context deadline exceeded" 504].
Proof. split; reflexivity. Qed.

End Deadline.

(** * Response headers (router/router.go, stage order) *)

Section ResponseHeaders.

Import gin middleware router.

Lemma no_OPTIONS_route (path ip : string) (hd q : gmap string string)
    (body : option (gmap string string)) :
  findRoute (mkRequest "OPTIONS" path hd q ip body None None) = None.
Proof. reflexivity. Qed.

(** C6, at the failing input: a preflight request, to any path and
    whether or not it carries an [X-Request-ID] of its own, is answered
    204 by the cross-origin stage, which is registered before the
    request-identification stage; the response has no [X-Request-ID]. *)
Theorem preflight_has_no_request_id :
  forall (r : Router) (o : Oracle) (l : RateLimiter) (path ip : string)
         (hd q : gmap string string) (body : option (gmap string string)),
    let out :=
      writer (ServeHTTP r o l (mkRequest "OPTIONS" path hd q ip body None None))
    in
    client_status out = Some 204
    /\ client_header "X-Request-ID" out = None.
Proof.
  intros r o l path ip hd q body. unfold ServeHTTP.
  rewrite no_OPTIONS_route. unfold serveError, setupMiddleware, writer.
  cbn [List.length Z.of_nat Pos.of_succ_nat Pos.succ].
  set (w0 := incr _).
  rewrite handle_step_abort; [| by cbn | reflexivity].
  split; [reflexivity|].
  unfold client_header. cbn. by simplify_map_eq.
Qed.

(** The identification stage puts the identifier on the response before
    anything downstream runs: the client's when it sent a non-empty one,
    the generated one otherwise. *)
Lemma RequestID_header (uuid : string) (next : World -> World) (w : World) :
  exists w', RequestID uuid next w = next w'
    /\ w_header (writer w') !! "X-Request-ID"
       = Some (if String.eqb (GetHeader (gc w) "X-Request-ID") ""
               then uuid else GetHeader (gc w) "X-Request-ID").
Proof.
  unfold RequestID. eexists. split; [reflexivity|].
  unfold writer. cbn. by rewrite lookup_insert_eq.
Qed.

(** The sibling paths do carry the identifier: a request turned away by
    the limiter, and one turned away by authentication. *)
Example limited_response_has_request_id :
  let out := writer (ServeHTTP demoRouter (demoOracle 1000000000)
                       demoLimiterUsed (searchRequest ∅)) in
  client_status out = Some 429
  /\ client_header "X-Request-ID" out
     = Some "6ba7b810-9dad-41d1-80b4-00c04fd430c8".
Proof. split; reflexivity. Qed.

Example unauthenticated_response_has_request_id :
  let out := writer (ServeHTTP demoRouter (demoOracle 0) demoLimiter
                       (searchRequest {[ "X-Request-ID" := "req-42" ]})) in
  client_status out = Some 401
  /\ client_header "X-Request-ID" out = Some "req-42".
Proof. split; reflexivity. Qed.

(** The limiter state of that run is the one a first request left. *)
Example first_request_admitted :
  let out := ServeHTTP demoRouter (demoOracle 0) demoLimiter
               (searchRequest ∅) in
  rl out = demoLimiterUsed /\ client_status (writer out) = Some 401.
Proof. split; reflexivity. Qed.

(** C8, at the failing input: with a limit of one request per minute, the
    second request of a client one second after its first is answered 429;
    the response has none of [X-RateLimit-Limit], [X-RateLimit-Remaining]
    and [Retry-After]. *)
Theorem limited_response_has_no_retry_hint :
  let out := writer (ServeHTTP demoRouter (demoOracle 1000000000)
                       demoLimiterUsed (searchRequest ∅)) in
  client_status out = Some 429
  /\ w_body out = [ErrorJSON "Too Many Requests" "rate limit exceeded" 429]
  /\ client_header "Retry-After" out = None
  /\ client_header "X-RateLimit-Limit" out = None
  /\ client_header "X-RateLimit-Remaining" out = None.
Proof. repeat split. Qed.

(** The headers of that response, all of them. *)
Example limited_response_headers :
  let out := writer (ServeHTTP demoRouter (demoOracle 1000000000)
                       demoLimiterUsed (searchRequest ∅)) in
  snd <$> w_sent out
  = Some ({[ "Access-Control-Allow-Origin" := "*";
             "Access-Control-Allow-Methods" := "GET, POST";
             "Access-Control-Allow-Headers" := "Authorization";
             "Access-Control-Allow-Credentials" := "true";
             "Access-Control-Max-Age" := "86400";
             "X-Request-ID" := "6ba7b810-9dad-41d1-80b4-00c04fd430c8";
             "Content-Type" := "application/json; charset=utf-8" ]}
          : gmap string string).
Proof. vm_compute. reflexivity. Qed.

End ResponseHeaders.

(** * The rate limiter (middleware/ratelimit.go) *)

Section RateLimit.

Import gin middleware router.

(** The limiter stage, as a function of the record it finds. *)
Lemma Middleware_eq (clk : Clock) (next : World -> World) (w : World) :
  Middleware clk next w
  = let l := rl w in
    let ip := ClientIP (gc w) in
    let v0 := match visitors l !! ip with
               | Some v => v
               | None => mkVisitor (now_get clk) 0
               end in
    let v1 := if now_since clk - lastSeen v0 >? window l
              then mkVisitor (now_reset clk) 0 else v0 in
    if count v1 >=? requests l
    then onContext
           (fun c => writeJSONError c http.StatusTooManyRequests
                       "rate limit exceeded")
           (setLimiter (store l ip v1) w)
    else next (setLimiter
                 (store l ip (mkVisitor (lastSeen v1) (int64 (count v1 + 1))))
                 w).
Proof.
  unfold Middleware, getVisitor, store.
  destruct (visitors (rl w) !! ClientIP (gc w)) as [v|] eqn:E;
    cbn [window requests lastSeen count visitors];
    destruct (_ >? _); cbn [count lastSeen];
    destruct (_ >=? _); rewrite ?insert_insert_eq; reflexivity.
Qed.

(** When it rejects, the stage answers 429 with the headers that were set
    before it ran and the content type of the error document: it adds no
    header of its own. *)
Lemma limiter_rejection_response (clk : Clock) (next : World -> World)
    (w : World) (v : visitor) :
  visitors (rl w) !! ClientIP (gc w) = Some v ->
  now_since clk - lastSeen v <= window (rl w) ->
  requests (rl w) <= count v ->
  w_sent (writer w) = None ->
  let out := writer (Middleware clk next w) in
  w_sent out
  = Some (429, w_header (WriteContentType (writer w)))
  /\ (forall k, k <> "Content-Type" ->
        client_header k out = w_header (writer w) !! k).
Proof.
  intros Hv Hin Hfull Hs. rewrite Middleware_eq. cbv zeta. rewrite Hv.
  assert ((now_since clk - lastSeen v >? window (rl w)) = false) as ->
    by (rewrite Z.gtb_ltb; apply Z.ltb_ge; lia).
  assert ((count v >=? requests (rl w)) = true) as ->
    by (rewrite Z.geb_leb; apply Z.leb_le; lia).
  unfold writer in *. cbn [gc onContext setLimiter].
  destruct (error_response (gc w) http.StatusTooManyRequests
              "rate limit exceeded" Hs eq_refl eq_refl) as (He & Hs' & _).
  rewrite <- He. split; [done|].
  intros k Hk. unfold client_header. rewrite Hs'.
  unfold WriteContentType, HeaderSet.
  destruct (w_header (c_Writer (gc w)) !! "Content-Type"); [done|].
  cbn. by rewrite lookup_insert_ne.
Qed.

(** One check, as a function of the record it finds. *)
Lemma check_eq (l : RateLimiter) (ip : string) (clk : Clock) :
  check l ip clk
  = let v0 := match visitors l !! ip with
               | Some v => v
               | None => mkVisitor (now_get clk) 0
               end in
    let v1 := if now_since clk - lastSeen v0 >? window l
              then mkVisitor (now_reset clk) 0 else v0 in
    if count v1 >=? requests l
    then (store l ip v1, Rejected (Some 429))
    else (store l ip (mkVisitor (lastSeen v1) (int64 (count v1 + 1))),
          Passed).
Proof.
  unfold check, Middleware, getVisitor, ClientIP, store.
  cbn [gc c_Request newWorld newContext checkRequest RemoteIP rl].
  destruct (visitors l !! ip) as [v|] eqn:E;
    cbn [window requests lastSeen count];
    destruct (_ >? _); cbn [count lastSeen];
    destruct (_ >=? _); cbn [visitors requests window];
    rewrite ?insert_insert_eq; reflexivity.
Qed.

Lemma check_other (l : RateLimiter) (ip k : string) (clk : Clock) :
  ip <> k -> visitors (fst (check l ip clk)) !! k = visitors l !! k.
Proof.
  intros Hne. rewrite check_eq. cbv zeta.
  destruct (_ >=? _); cbn [fst store visitors]; by rewrite lookup_insert_ne.
Qed.

Lemma step_config (l : RateLimiter) (ev : Event) :
  requests (step l ev) = requests l /\ window (step l ev) = window l.
Proof.
  destruct ev as [ip clk|now]; [|done].
  unfold step. rewrite check_eq. cbv zeta. by destruct (_ >=? _).
Qed.

Lemma run_snoc (l : RateLimiter) (evs : list Event) (ev : Event) :
  run l (evs ++ [ev]) = step (run l evs) ev.
Proof. unfold run. by rewrite fold_left_app. Qed.

Lemma run_config (l : RateLimiter) (evs : list Event) :
  requests (run l evs) = requests l /\ window (run l evs) = window l.
Proof.
  induction evs as [|ev evs IH] using rev_ind; [done|].
  rewrite run_snoc. destruct (step_config (run l evs) ev) as [-> ->]. done.
Qed.

Lemma checks_of_app (k : string) (evs1 evs2 : list Event) :
  checks_of k (evs1 ++ evs2) = checks_of k evs1 + checks_of k evs2.
Proof.
  induction evs1 as [|[ip clk|now] tl IH]; simpl; [done| |done].
  rewrite IH. lia.
Qed.

Lemma checks_of_nonneg (k : string) (evs : list Event) :
  0 <= checks_of k evs.
Proof.
  induction evs as [|[ip clk|now] tl IH]; simpl; [done| |done].
  destruct (String.eqb ip k); lia.
Qed.

Lemma window_start_app (k : string) (evs1 evs2 : list Event) :
  window_start k (evs1 ++ evs2)
  = match window_start k evs1 with
    | Some t => Some t
    | None => window_start k evs2
    end.
Proof.
  induction evs1 as [|[ip clk|now] tl IH]; simpl; [done| |done].
  by destruct (String.eqb ip k).
Qed.

Lemma window_start_None (k : string) (evs : list Event) :
  window_start k evs = None <-> checks_of k evs = 0.
Proof.
  induction evs as [|[ip clk|now] tl IH]; simpl; [done| |done].
  pose proof (checks_of_nonneg k tl).
  destruct (String.eqb ip k); [|by rewrite IH].
  split; [done | lia].
Qed.

Lemma int64_small (x : Z) : - 2 ^ 63 <= x < 2 ^ 63 -> int64 x = x.
Proof. intros H. unfold int64. rewrite Z.mod_small; lia. Qed.

(** Within its first window, the record of [k] holds the window's start
    and the number of [k]'s checks so far, capped at the limit. *)
Lemma run_in_window (L W : Z) (k : string) (t0 : Z) (evs : list Event) :
  0 <= L < 2 ^ 63 ->
  Forall (within W t0 k) evs ->
  (forall t, window_start k evs = Some t -> t = t0) ->
  visitors (run (NewRateLimiter L W) evs) !! k
  = if checks_of k evs =? 0 then None
    else Some (mkVisitor t0 (Z.min (checks_of k evs) L)).
Proof.
  intros HL. induction evs as [|ev evs IH] using rev_ind; intros Hin Hst.
  - done.
  - apply Forall_app in Hin as [Hin Hev]. apply Forall_inv in Hev.
    rewrite window_start_app in Hst.
    assert (visitors (run (NewRateLimiter L W) evs) !! k
            = if checks_of k evs =? 0 then None
              else Some (mkVisitor t0 (Z.min (checks_of k evs) L))) as IH'.
    { apply IH; [done|]. intros t Ht. apply Hst. by rewrite Ht. }
    clear IH. rewrite run_snoc, checks_of_app.
    destruct (run_config (NewRateLimiter L W) evs) as [HrL HrW].
    cbn [requests window NewRateLimiter] in HrL, HrW.
    pose proof (checks_of_nonneg k evs) as Hn.
    set (l := run (NewRateLimiter L W) evs) in *.
    set (n := checks_of k evs) in *.
    destruct ev as [ip clk|now]; cbn [step checks_of].
    + destruct (String.eqb ip k) eqn:Eip.
      * apply String.eqb_eq in Eip. subst ip.
        cbn [within] in Hev. specialize (Hev eq_refl).
        rewrite check_eq, IH', HrL, HrW. cbv zeta.
        destruct (n =? 0) eqn:En.
        -- apply Z.eqb_eq in En.
           assert (window_start k evs = None) as Hws
             by (by apply window_start_None).
           rewrite Hws in Hst. cbn [window_start] in Hst.
           rewrite String.eqb_refl in Hst.
           rewrite (Hst _ eq_refl). cbn [lastSeen count].
           assert ((now_since clk - t0 >? W) = false) as ->
             by (rewrite Z.gtb_ltb; apply Z.ltb_ge; lia).
           cbn [count lastSeen]. rewrite En.
           destruct (0 >=? L) eqn:E0.
           ++ cbn [fst store visitors]. rewrite lookup_insert_eq.
              apply Z.geb_le in E0.
              replace (Z.min (0 + (1 + 0)) L) with 0 by lia. done.
           ++ cbn [fst store visitors]. rewrite lookup_insert_eq.
              rewrite Z.geb_leb in E0. apply Z.leb_gt in E0.
              rewrite int64_small by lia.
              replace (Z.min (0 + (1 + 0)) L) with (0 + 1) by lia. done.
        -- apply Z.eqb_neq in En. cbn [lastSeen count].
           assert ((now_since clk - t0 >? W) = false) as ->
             by (rewrite Z.gtb_ltb; apply Z.ltb_ge; lia).
           cbn [count lastSeen].
           assert ((n + (1 + 0) =? 0) = false) as -> by (apply Z.eqb_neq; lia).
           destruct (Z.min n L >=? L) eqn:E0.
           ++ cbn [fst store visitors]. rewrite lookup_insert_eq.
              apply Z.geb_le in E0.
              replace (Z.min (n + (1 + 0)) L) with (Z.min n L) by lia. done.
           ++ cbn [fst store visitors]. rewrite lookup_insert_eq.
              rewrite Z.geb_leb in E0. apply Z.leb_gt in E0.
              rewrite int64_small by lia.
              replace (Z.min (n + (1 + 0)) L) with (Z.min n L + 1) by lia.
              done.
      * apply String.eqb_neq in Eip. rewrite check_other by done.
        rewrite IH'. by replace (n + (0 + 0)) with n by lia.
    + cbn [within] in Hev. rewrite Z.add_0_r.
      unfold cleanup. cbn [visitors]. fold l. rewrite HrW.
      destruct (n =? 0).
      * apply map_lookup_filter_None. left. done.
      * apply map_lookup_filter_Some. split; [done|]. cbn. lia.
Qed.

(** C1, as amended (limit at least 1).  Start from an empty visitor store
    and let any history run: checks of any clients and sweeps.  Consider a
    check of [k] that comes after [n] earlier checks of [k], everything so
    far within [W] of the start of [k]'s window.  If [n < L] the check is
    admitted and [k]'s count goes from [n] to [n + 1]; otherwise it is
    rejected with 429 and the count stays [L].  And whatever the history,
    a check of [k] made more than [W] after the start of the window in
    [k]'s record is admitted, with the window restarted at the current
    time and the count 1; so is a check that finds no record of [k] (none
    yet, or swept away), the window starting at the record's creation. *)
Theorem fixed_window_admission :
  forall (L W : Z) (k : string) (evs : list Event) (c : Clock),
    1 <= L < 2 ^ 63 ->
    let l := run (NewRateLimiter L W) evs in
    let n := checks_of k evs in
    (let t0 := match window_start k evs with
               | Some t => t
               | None => now_get c
               end in
     Forall (within W t0 k) (evs ++ [Visit k c]) ->
     count_of k l = Z.min n L
     /\ snd (check l k c)
        = (if n <? L then Passed else Rejected (Some 429))
     /\ visitors (fst (check l k c)) !! k
        = Some (mkVisitor t0 (Z.min (n + 1) L)))
    /\ (forall v : visitor,
          visitors l !! k = Some v ->
          now_since c - lastSeen v > W ->
          snd (check l k c) = Passed
          /\ visitors (fst (check l k c)) !! k
             = Some (mkVisitor (now_reset c) 1))
    /\ (visitors l !! k = None ->
        now_since c - now_get c <= W ->
        snd (check l k c) = Passed
        /\ visitors (fst (check l k c)) !! k
           = Some (mkVisitor (now_get c) 1)).
Proof.
  intros L W k evs c HL l n.
  destruct (run_config (NewRateLimiter L W) evs) as [HrL HrW].
  cbn [requests window NewRateLimiter] in HrL, HrW. fold l in HrL, HrW.
  pose proof (checks_of_nonneg k evs) as Hn. fold n in Hn.
  split; [| split].
  - intros t0 Hin.
    assert (visitors l !! k
            = if n =? 0 then None else Some (mkVisitor t0 (Z.min n L)))
      as Hbefore.
    { apply run_in_window; [lia | by apply Forall_app in Hin as [? _] |].
      intros t Ht. unfold t0. by rewrite Ht. }
    assert (visitors (fst (check l k c)) !! k
            = Some (mkVisitor t0 (Z.min (n + 1) L))) as Hafter.
    { change (fst (check l k c)) with (step l (Visit k c)).
      unfold l. rewrite <- run_snoc.
      rewrite (run_in_window L W k t0); [| lia | done |].
      - rewrite checks_of_app. cbn [checks_of].
        rewrite String.eqb_refl. fold n.
        assert ((n + (1 + 0) =? 0) = false) as -> by (apply Z.eqb_neq; lia).
        by replace (n + (1 + 0)) with (n + 1) by lia.
      - intros t. rewrite window_start_app. cbn [window_start].
        rewrite String.eqb_refl. unfold t0.
        destruct (window_start k evs); congruence. }
    split; [| split; [| done]].
    + unfold count_of. rewrite Hbefore.
      destruct (n =? 0) eqn:En; [|done].
      apply Z.eqb_eq in En. lia.
    + apply Forall_app in Hin as [_ Hc]. apply Forall_inv in Hc.
      cbn [within] in Hc. specialize (Hc eq_refl).
      rewrite check_eq, Hbefore, HrL, HrW. cbv zeta.
      destruct (n =? 0) eqn:En.
      * apply Z.eqb_eq in En.
        assert (window_start k evs = None) as Hws
          by (by apply window_start_None).
        unfold t0 in Hc. rewrite Hws in Hc. cbn [lastSeen count].
        assert ((now_since c - now_get c >? W) = false) as ->
          by (rewrite Z.gtb_ltb; apply Z.ltb_ge; lia).
        cbn [count].
        assert ((0 >=? L) = false) as ->
          by (rewrite Z.geb_leb; apply Z.leb_gt; lia).
        assert ((n <? L) = true) as -> by (apply Z.ltb_lt; lia). done.
      * cbn [lastSeen count].
        assert ((now_since c - t0 >? W) = false) as ->
          by (rewrite Z.gtb_ltb; apply Z.ltb_ge; lia).
        cbn [count].
        destruct (n <? L) eqn:El.
        -- apply Z.ltb_lt in El.
           assert ((Z.min n L >=? L) = false) as ->
             by (rewrite Z.geb_leb; apply Z.leb_gt; lia). done.
        -- apply Z.ltb_ge in El.
           assert ((Z.min n L >=? L) = true) as ->
             by (rewrite Z.geb_leb; apply Z.leb_le; lia). done.
  - intros v Hv Hlate. rewrite check_eq, Hv, HrL, HrW. cbv zeta.
    assert ((now_since c - lastSeen v >? W) = true) as ->
      by (apply Z.gtb_lt; lia).
    cbn [count lastSeen].
    assert ((0 >=? L) = false) as ->
      by (rewrite Z.geb_leb; apply Z.leb_gt; lia).
    cbn [fst snd store visitors]. by rewrite lookup_insert_eq.
  - intros Hv Hnear. rewrite check_eq, Hv, HrL, HrW. cbv zeta.
    cbn [lastSeen].
    assert ((now_since c - now_get c >? W) = false) as ->
      by (rewrite Z.gtb_ltb; apply Z.ltb_ge; lia).
    cbn [count lastSeen].
    assert ((0 >=? L) = false) as ->
      by (rewrite Z.geb_leb; apply Z.leb_gt; lia).
    cbn [fst snd store visitors]. by rewrite lookup_insert_eq.
Qed.

Lemma fixed_window_admission_witness :
  snd (check (run (NewRateLimiter 3 60) demoHistory) "a" (at_time 30))
  = Rejected (Some 429)
  /\ snd (check (run (NewRateLimiter 3 60) demoHistory) "a" (at_time 61))
     = Passed.
Proof.
  split.
  - destruct (fixed_window_admission 3 60 "a" demoHistory (at_time 30))
      as (H & _ & _); [lia|].
    apply H. unfold demoHistory. repeat constructor; cbn; intros; lia.
  - destruct (fixed_window_admission 3 60 "a" demoHistory (at_time 61))
      as (_ & H & _); [lia|].
    apply (H (mkVisitor 0 3)); [reflexivity | cbn; lia].
Defined.

(** C1 as stated fails for the limit 0: a check made after the window has
    passed restarts the window but is rejected, and the count is 0. *)
Lemma fixed_window_admission_counterexample :
  let l := run (NewRateLimiter 0 60) [Visit "a" (at_time 0)] in
  visitors l !! "a" = Some (mkVisitor 0 0)
  /\ snd (check l "a" (at_time 61)) = Rejected (Some 429)
  /\ visitors (fst (check l "a" (at_time 61))) !! "a"
     = Some (mkVisitor 61 0).
Proof. repeat split. Qed.

(** The run of the specification's example: limit 3, window 60 s. *)
Example three_per_minute :
  let l0 := NewRateLimiter 3 60 in
  let '(l1, r1) := check l0 "a" (at_time 0) in
  let '(l2, r2) := check l1 "a" (at_time 1) in
  let '(l3, r3) := check l2 "a" (at_time 2) in
  let '(l4, r4) := check l3 "a" (at_time 59) in
  let '(l5, r5) := check l4 "a" (at_time 61) in
  [r1; r2; r3; r4; r5]
  = [Passed; Passed; Passed; Rejected (Some 429); Passed]
  /\ visitors l4 !! "a" = Some (mkVisitor 0 3)
  /\ visitors l5 !! "a" = Some (mkVisitor 61 1).
Proof. vm_compute. repeat split. Qed.

(** The sweep drops exactly the records whose window has passed. *)
Lemma cleanup_lookup (now : Z) (l : RateLimiter) (k : string) :
  visitors (cleanup now l) !! k
  = match visitors l !! k with
    | Some v => if decide (now - lastSeen v > window l) then None else Some v
    | None => None
    end.
Proof.
  unfold cleanup. cbn [visitors].
  destruct (visitors l !! k) as [v|] eqn:E.
  - destruct (decide _) as [H|H].
    + apply map_lookup_filter_None. right. intros v' Hv'. cbn.
      rewrite E in Hv'. injection Hv' as <-. tauto.
    + apply map_lookup_filter_Some. by split.
  - apply map_lookup_filter_None. by left.
Qed.

End RateLimit.

(** * Whole requests through the engine *)

Section EndToEnd.

Import gin middleware router.

(** The page parameter 4294967296 reaches the product backend as page 0. *)
Example products_page_zero :
  let out := ServeHTTP demoRouter (demoOracle 0) demoLimiter
               (mkRequest "GET" "/api/v1/products" ∅
                  {[ "page" := "4294967296" ]} "203.0.113.9" None None None)
  in
  calls out = [handlers.CallListProducts (handlers.mkListProducts 0 10)]
  /\ client_status (writer out) = Some 200.
Proof. split; reflexivity. Qed.

(** Registration forwards a privileged role as the client wrote it. *)
Example register_admin_end_to_end :
  let out := ServeHTTP demoRouter (demoOracle 0) demoLimiter
               (registerRequest {[ "name" := "eve"; "role" := "admin" ]}) in
  calls out
  = [handlers.CallCreateUser (handlers.mkCreateUser "eve" "" "" "admin")]
  /\ client_status (writer out) = Some 201.
Proof. split; reflexivity. Qed.

(** A handler that returns without writing after the deadline: the client
    gets the one 504 of the timeout stage, also when the request's own
    context was canceled meanwhile. *)
Example late_handler_one_504 :
  forall err : option ctxError,
    let out := ServeHTTP demoSilentRouter (demoLateOracle err) demoLimiter
                 categoriesRequest in
    client_status (writer out) = Some 504
    /\ w_body (writer out)
       = [ErrorJSON "Gateway Timeout" "request timeout" 504]
    /\ client_header "X-Request-ID" (writer out)
       = Some "6ba7b810-9dad-41d1-80b4-00c04fd430c8".
Proof. intros [[|]|]; repeat split. Qed.

(** A request whose context is already canceled when it arrives is
    answered 503 and goes no further. *)
Example canceled_on_arrival :
  let o := mkOracle "6ba7b810-9dad-41d1-80b4-00c04fd430c8"
             (mkClock 0 0 0) true (Some Canceled) (Some Canceled) in
  let out := ServeHTTP demoRouter o demoLimiter categoriesRequest in
  client_status (writer out) = Some 503
  /\ visitors (rl out) = ∅.
Proof. split; reflexivity. Qed.

(** A request without a route gets gin's 404. *)
Example unknown_route :
  let out := ServeHTTP demoRouter (demoOracle 0) demoLimiter
               (mkRequest "GET" "/nowhere" ∅ ∅ "203.0.113.9" None None None)
  in
  client_status (writer out) = Some 404
  /\ w_body (writer out) = [PlainText "404 page not found"].
Proof. split; reflexivity. Qed.

End EndToEnd.

(** * The stages in the loop, one at a time *)

Section Pipeline.

Import gin middleware router.

Lemma answered_incr (n : Z) (wr : responseWriter) (x : World) :
  answered n wr x -> answered n wr (incr x).
Proof. intros (Hi & Hw & HW). repeat split; [cbn; lia | done | done]. Qed.

(** A stage that answers and aborts. *)
Lemma stage_abort (n : Z) (h : HandlerFunc) (tl : list HandlerFunc)
    (w A : World) :
  c_index (gc w) < n <= abortIndex + 1 ->
  h (fun x => handle n tl (incr x)) w = A ->
  c_index (gc A) = abortIndex ->
  Written (writer A) = true ->
  answered n (writer A) (handle n (h :: tl) w).
Proof.
  intros Hn <- Hi HW. rewrite handle_step_abort by (lia || done).
  repeat split; [| done]. cbn. fold (gc (h (fun x => handle n tl (incr x)) w)).
  rewrite Hi. lia.
Qed.

(** A stage that hands a world on and returns what the chain returns. *)
Lemma stage_pass (n : Z) (h : HandlerFunc) (tl : list HandlerFunc)
    (w w' : World) (wr : responseWriter) :
  c_index (gc w) < n ->
  h (fun x => handle n tl (incr x)) w = handle n tl (incr w') ->
  answered n wr (handle n tl (incr w')) ->
  answered n wr (handle n (h :: tl) w).
Proof.
  intros Hn Hh Ha. rewrite handle_step by done. rewrite Hh.
  rewrite handle_done by (destruct Ha as [Hi _]; cbn; lia).
  by apply answered_incr.
Qed.

Lemma stage_Logger (n : Z) (tl : list HandlerFunc) (w : World)
    (wr : responseWriter) :
  c_index (gc w) < n ->
  answered n wr (handle n tl (incr w)) ->
  answered n wr (handle n (Logger :: tl) w).
Proof.
  intros Hn (Hi & Hw & HW). rewrite handle_step by done.
  rewrite handle_done by (cbn; lia).
  repeat split; [cbn; lia | done | done].
Qed.

Lemma stage_Cancellation (n : Z) (err : option ctxError)
    (tl : list HandlerFunc) (w : World) (wr : responseWriter) :
  c_index (gc w) < n ->
  answered n wr (handle n tl (incr w)) ->
  answered n wr (handle n (Cancellation false err :: tl) w).
Proof.
  intros Hn Ha. apply (stage_pass n _ tl w w); [done | | done].
  apply (Cancellation_written err (fun x => handle n tl (incr x)) w).
  destruct Ha as (_ & Hw & HW). cbv beta. by rewrite Hw.
Qed.

Lemma stage_Timeout (n t : Z) (err : option ctxError)
    (tl : list HandlerFunc) (w : World) (wr : responseWriter) :
  c_index (gc w) < n ->
  answered n wr (handle n tl (incr w)) ->
  answered n wr (handle n (Timeout t err :: tl) w).
Proof.
  intros Hn Ha. apply (stage_pass n _ tl w w); [done | | done].
  apply (Timeout_written t err (fun x => handle n tl (incr x)) w).
  destruct Ha as (_ & Hw & HW). cbv beta. by rewrite Hw.
Qed.

Lemma at_stage_incr (i : Z) (req : Request) (l : RateLimiter) (w : World) :
  at_stage i req l w -> at_stage (i + 1) req l (incr w).
Proof. intros (Hi & H). split; [cbn; lia | done]. Qed.

Lemma CORS_pass (r : Router) (i : Z) (req : Request) (l : RateLimiter)
    (w : World) :
  Method req <> http.MethodOptions ->
  at_stage i req l w ->
  w_header (writer w) = ∅ ->
  exists w', at_stage i req l w'
    /\ w_header (writer w') = cors_headers r req
    /\ forall next,
         CORS (AllowedOrigins (cfg r)) (AllowedMethods (cfg r))
           (AllowedHeaders (cfg r)) next w = next w'.
Proof.
  intros Hm (Hi & Hh & Hip & Hme & Hl & Hs) Hhd. rewrite <- Hme in Hm.
  apply String.eqb_neq in Hm. eexists.
  split; [| split; [| intros next; unfold CORS; cbn; rewrite Hm; reflexivity]].
  - by repeat split.
  - unfold writer, cors_headers, GetHeader in *. cbn. by rewrite Hhd, Hh.
Qed.

Lemma RequestID_pass (o : Oracle) (i : Z) (req : Request)
    (l : RateLimiter) (w : World) :
  at_stage i req l w ->
  exists w', at_stage i req l w'
    /\ w_header (writer w')
       = <["X-Request-ID" := request_id o req]> (w_header (writer w))
    /\ forall next, RequestID (o_uuid o) next w = next w'.
Proof.
  intros (Hi & Hh & Hip & Hme & Hl & Hs). eexists.
  split; [| split; [| intros next; unfold RequestID; reflexivity]].
  - by repeat split.
  - unfold writer, request_id, GetHeader. cbn. by rewrite Hh.
Qed.

Lemma Middleware_pass (clk : Clock) (i : Z) (req : Request)
    (l : RateLimiter) (w : World) :
  snd (check l (RemoteIP req) clk) = Passed ->
  at_stage i req l w ->
  exists w', at_stage i req (fst (check l (RemoteIP req) clk)) w'
    /\ w_header (writer w') = w_header (writer w)
    /\ forall next, Middleware clk next w = next w'.
Proof.
  intros Hp (Hi & Hh & Hip & Hme & Hl & Hs).
  exists (setLimiter (fst (check l (RemoteIP req) clk)) w).
  split; [by repeat split | split; [done|]]. intros next.
  rewrite Middleware_eq. unfold ClientIP. rewrite Hl, Hip.
  rewrite check_eq in Hp |- *. cbv zeta in Hp |- *.
  by destruct (_ >=? _).
Qed.

(** The six stages in front of the limiter are transparent to a request
    that is not a preflight and is live on arrival, when the rest of the
    chain answers it: the answer is the client's response.  The limiter is
    reached with nothing written and the engine's headers set. *)
Lemma engine_prefix_transparent (r : Router) (o : Oracle) (l : RateLimiter)
    (req : Request) (tl : list HandlerFunc) (P : responseWriter -> Prop) :
  Method req <> http.MethodOptions ->
  o_done o = false ->
  let hs := setupMiddleware r o ++ tl in
  let n := Z.of_nat (List.length hs) in
  (forall w6,
      at_stage 6 req l w6 ->
      w_header (writer w6) = engine_headers r o req ->
      exists wr, answered n wr (handle n (Middleware (o_clock o) :: tl) w6)
                 /\ P wr) ->
  exists wr, writer (serve hs (newWorld req l)) = wr
             /\ Written wr = true /\ P wr.
Proof.
  intros Hm Hdone hs n Htl.
  assert (7 <= n) as Hn.
  { unfold n, hs. rewrite length_app. cbn [setupMiddleware List.length]. lia. }
  unfold serve. fold n.
  set (w0 := incr (onContext (setIndex (-1)) (newWorld req l))).
  assert (at_stage 0 req l w0) as H0 by (by repeat split).
  unfold hs, setupMiddleware. rewrite Hdone. cbn [app].
  destruct (CORS_pass r 0 req l w0 Hm H0 eq_refl) as (w1 & H1 & Hd1 & E1).
  apply at_stage_incr in H1. cbn [Z.add] in H1.
  pose proof (at_stage_incr _ _ _ _ H1) as H2. cbn [Z.add Pos.add Pos.succ] in H2.
  destruct (RequestID_pass o 2 req l _ H2) as (w3 & H3 & Hd3 & E3).
  apply at_stage_incr in H3. cbn [Z.add Pos.add Pos.succ] in H3.
  pose proof (at_stage_incr _ _ _ _ H3) as H4.
  pose proof (at_stage_incr _ _ _ _ H4) as H5.
  pose proof (at_stage_incr _ _ _ _ H5) as H6.
  cbn [Z.add Pos.add Pos.succ] in H4, H5, H6.
  destruct (Htl _ H6) as (wr & Ha & HP).
  { unfold writer in *. cbn in Hd3 |- *. rewrite Hd3. cbn. by rewrite Hd1. }
  exists wr.
  assert (answered n wr
            (handle n
               (CORS (AllowedOrigins (cfg r)) (AllowedMethods (cfg r))
                  (AllowedHeaders (cfg r))
                :: Recovery :: RequestID (o_uuid o) :: Logger
                :: Cancellation false (o_err o)
                :: Timeout (RequestTimeout (cfg r)) (o_timeout_err o)
                :: Middleware (o_clock o) :: tl) w0)) as (Hi & Hw & HW).
  { destruct H0 as [I0 _], H1 as [I1 _], H2 as [I2 _], H3 as [I3 _],
             H4 as [I4 _], H5 as [I5 _].
    eapply stage_pass;
      [lia | exact (E1 (fun x => handle n _ (incr x))) |].
    eapply (stage_pass n Recovery); [lia | reflexivity |].
    eapply stage_pass;
      [lia | exact (E3 (fun x => handle n _ (incr x))) |].
    apply stage_Logger; [lia|].
    apply stage_Cancellation; [lia|].
    by apply stage_Timeout; [lia|]. }
  unfold writer in *. cbn [gc onContext c_Writer setWriter].
  rewrite Hw. by rewrite WriteHeaderNow_written.
Qed.

(** The same with the limiter, for a request it passes on. *)
Lemma engine_stages_transparent (r : Router) (o : Oracle) (l : RateLimiter)
    (req : Request) (tl : list HandlerFunc) (P : responseWriter -> Prop) :
  Method req <> http.MethodOptions ->
  o_done o = false ->
  snd (check l (RemoteIP req) (o_clock o)) = Passed ->
  let hs := setupMiddleware r o ++ tl in
  let n := Z.of_nat (List.length hs) in
  (forall w7,
      at_stage 7 req (fst (check l (RemoteIP req) (o_clock o))) w7 ->
      w_header (writer w7) = engine_headers r o req ->
      exists wr, answered n wr (handle n tl w7) /\ P wr) ->
  exists wr, writer (serve hs (newWorld req l)) = wr
             /\ Written wr = true /\ P wr.
Proof.
  intros Hm Hdone Hpass hs n Htl.
  assert (7 <= n) as Hn.
  { unfold n, hs. rewrite length_app. cbn [setupMiddleware List.length]. lia. }
  apply engine_prefix_transparent; [done | done |]. fold hs n.
  intros w6 H6 Hd6.
  destruct (Middleware_pass (o_clock o) 6 req l w6 Hpass H6)
    as (w7 & H7 & Hd7 & E7).
  apply at_stage_incr in H7. cbn [Z.add Pos.add Pos.succ] in H7.
  destruct (Htl (incr w7) H7) as (wr & Ha & HP).
  { unfold writer in *. cbn. by rewrite Hd7. }
  exists wr. split; [|done].
  eapply stage_pass;
    [destruct H6 as [-> _]; lia
    | exact (E7 (fun x => handle n _ (incr x))) | done].
Qed.

(** What the client sees of a [writeJSONError] on an unwritten writer. *)
Lemma error_answer (c : Context) (code : Z) (msg : string) :
  w_sent (c_Writer c) = None -> 0 < code ->
  bodyAllowedForStatus code = true ->
  let wr := c_Writer (writeJSONError c code msg) in
  Written wr = true
  /\ client_status wr = Some code
  /\ forall k, k <> "Content-Type" ->
       client_header k wr = w_header (c_Writer c) !! k.
Proof.
  intros Hs Hc Hb wr.
  destruct (error_response c code msg Hs Hc Hb) as (He & Hs' & _).
  fold wr in He, Hs'. rewrite He in Hs'.
  split; [by eapply Written_sent | split].
  - unfold client_status. by rewrite Hs'.
  - intros k Hk. unfold client_header. rewrite Hs'.
    unfold WriteContentType, HeaderSet.
    destruct (w_header (c_Writer c) !! "Content-Type"); [done|].
    cbn. by rewrite lookup_insert_ne.
Qed.

Lemma authenticate_Header (jwt : JWTManager) (r1 r2 : Request) :
  Header r1 = Header r2 -> authenticate jwt r1 = authenticate jwt r2.
Proof. intros H. unfold authenticate. by rewrite H. Qed.

Lemma route_method (rt : Route) :
  In rt setupRoutes -> r_method rt <> http.MethodOptions.
Proof.
  unfold setupRoutes. intros H.
  repeat (destruct H as [<-|H]; [discriminate|]). destruct H.
Qed.

Lemma findRoute_Some (req : Request) (rt : Route) :
  findRoute req = Some rt ->
  In rt setupRoutes /\ r_method rt = Method req /\ r_path rt = Path req.
Proof.
  intros H. apply find_some in H as [Hin Hm]. split; [done|].
  unfold matches in Hm. apply andb_prop in Hm as [H1 H2].
  by apply String.eqb_eq in H1, H2.
Qed.

(** The whole engine in front of a role-gated route.  A request that is
    live on arrival and within its rate limit is answered by the route's
    authentication stages, 401 without a valid credential and 403 with a
    valid credential of another role; the stages upstream leave the answer
    alone, and it carries the request identifier. *)
Lemma role_gated_rejection (r : Router) (o : Oracle) (l : RateLimiter)
    (req : Request) (rt : Route) (roles : list string) (code : Z) :
  findRoute req = Some rt ->
  r_access rt = RoleGated roles ->
  o_done o = false ->
  snd (check l (RemoteIP req) (o_clock o)) = Passed ->
  match authenticate (jwtManager r) req with
  | inr _ => code = 401
  | inl claims => hasRole (Role claims) roles = false /\ code = 403
  end ->
  let out := writer (ServeHTTP r o l req) in
  client_status out = Some code
  /\ client_header "X-Request-ID" out = Some (request_id o req).
Proof.
  intros Hfind Hacc Hdone Hpass Hrej out.
  destruct (findRoute_Some _ _ Hfind) as (Hin & Hmeth & _).
  pose proof (route_method rt Hin) as Hopt. rewrite Hmeth in Hopt.
  set (id := request_id o req).
  assert (exists wr, out = wr /\ Written wr = true
            /\ (client_status wr = Some code
                /\ client_header "X-Request-ID" wr = Some id))
    as (wr & -> & _ & H); [| done].
  unfold out, ServeHTTP. rewrite Hfind.
  apply engine_stages_transparent; [done | done | done |].
  unfold routeHandlers. rewrite Hacc.
  cbn [setupMiddleware app List.length Z.of_nat Pos.of_succ_nat Pos.succ].
  intros w7 (Hi & Hh & _ & _ & _ & Hs) Hhd.
  assert (w_header (writer w7) !! "X-Request-ID" = Some id) as Hid
    by (rewrite Hhd; apply lookup_insert_eq).
  clear Hhd. rename Hid into Hhd.
  pose proof (authenticate_Header (jwtManager r) _ _ Hh) as Hauth.
  unfold withAuth, withRole.
  destruct (authenticate (jwtManager r) req) as [claims|msg] eqn:E.
  - destruct Hrej as [Hr ->].
    set (w8 := onContext (withClaims claims) w7).
    destruct (error_answer (gc (incr w8)) http.StatusForbidden
                "insufficient permissions" Hs eq_refl eq_refl)
      as (HW & Hst & Hk).
    eexists. split.
    + eapply stage_pass; [lia | |].
      * rewrite AuthMiddleware_authenticate, Hauth. reflexivity.
      * eapply stage_abort.
        -- cbn. unfold abortIndex. lia.
        -- by apply (RequireRole_claims roles _ (incr w8) claims).
        -- reflexivity.
        -- exact HW.
    + split; [exact Hst|]. rewrite Hk by done. exact Hhd.
  - subst code.
    destruct (error_answer (gc w7) http.StatusUnauthorized msg
                Hs eq_refl eq_refl) as (HW & Hst & Hk).
    eexists. split.
    + eapply stage_abort.
      * unfold abortIndex. lia.
      * rewrite AuthMiddleware_authenticate, Hauth. reflexivity.
      * reflexivity.
      * exact HW.
    + split; [exact Hst|]. rewrite Hk by done. exact Hhd.
Qed.

(** A request the limiter rejects, through the whole engine: 429, with the
    engine's headers and the content type of the error document, and no
    header that tells when to retry. *)
Lemma limiter_rejection_end_to_end (r : Router) (o : Oracle)
    (l : RateLimiter) (req : Request) (rt : Route) (status : option Z) :
  findRoute req = Some rt ->
  o_done o = false ->
  snd (check l (RemoteIP req) (o_clock o)) = Rejected status ->
  let out := writer (ServeHTTP r o l req) in
  client_status out = Some 429
  /\ snd <$> w_sent out
     = Some (<["Content-Type" := "application/json; charset=utf-8"]>
               (engine_headers r o req))
  /\ client_header "X-Request-ID" out = Some (request_id o req)
  /\ client_header "Retry-After" out = None
  /\ client_header "X-RateLimit-Limit" out = None
  /\ client_header "X-RateLimit-Remaining" out = None.
Proof.
  intros Hfind Hdone Hrej out.
  destruct (findRoute_Some _ _ Hfind) as (Hin & Hmeth & _).
  pose proof (route_method rt Hin) as Hopt. rewrite Hmeth in Hopt.
  assert (exists wr, out = wr /\ Written wr = true
            /\ w_sent wr
               = Some (429, <["Content-Type" :=
                               "application/json; charset=utf-8"]>
                              (engine_headers r o req)))
    as (wr & -> & _ & Hs).
  { unfold out, ServeHTTP. rewrite Hfind.
    apply engine_prefix_transparent; [done | done |].
    set (n := Z.of_nat _).
    assert (7 <= n <= 10) as Hn.
    { unfold n. rewrite length_app. unfold routeHandlers.
      destruct (r_access rt); cbn [setupMiddleware List.length]; lia. }
    intros w6 (Hi & Hh & Hip & Hme & Hl & Hs) Hhd.
    set (A := Middleware (o_clock o)
                (fun x => handle n (routeHandlers r rt) (incr x)) w6).
    assert (c_index (gc A) = abortIndex
            /\ w_sent (writer A)
               = Some (429, <["Content-Type" :=
                               "application/json; charset=utf-8"]>
                              (engine_headers r o req))) as [HiA HsA].
    { unfold A. rewrite Middleware_eq. unfold ClientIP. rewrite Hl, Hip.
      rewrite check_eq in Hrej. cbv zeta in Hrej |- *.
      destruct (_ >=? _); [| discriminate Hrej].
      split; [apply writeJSONError_index|].
      unfold writer in *. cbn [gc onContext setLimiter].
      destruct (error_response (gc w6) http.StatusTooManyRequests
                  "rate limit exceeded" Hs eq_refl eq_refl)
        as (He & Hs' & _).
      rewrite <- He, Hs'. unfold WriteContentType. rewrite Hhd.
      assert (engine_headers r o req !! "Content-Type" = None) as ->
        by (unfold engine_headers, cors_headers;
            by rewrite !lookup_insert_ne by done).
      unfold HeaderSet. cbn [w_header]. by rewrite Hhd. }
    exists (writer A). split; [| done].
    apply stage_abort; [unfold abortIndex; lia | done | done |].
    by eapply Written_sent. }
  unfold client_status, client_header. rewrite Hs.
  cbn [fmap option_fmap option_map fst snd].
  repeat split; unfold engine_headers, cors_headers;
    rewrite ?lookup_insert_ne by done; by rewrite ?lookup_insert_eq.
Qed.

End Pipeline.

(** * Settings read from the environment *)

Section Settings.

Import config.


















End Settings.

(** * The limiter's store *)

Section LimiterStore.

Import gin middleware router.

Lemma step_counts_bounded (l : RateLimiter) (ev : Event) :
  requests l < 2 ^ 63 -> counts_bounded l -> counts_bounded (step l ev).
Proof.
  intros HL Hinv k v. destruct ev as [ip clk|now]; unfold step.
  - destruct (decide (ip = k)) as [->|Hne].
    + rewrite check_eq. cbv zeta.
      set (v0 := match visitors l !! k with
                 | Some v => v
                 | None => mkVisitor (now_get clk) 0
                 end).
      assert (H0 : 0 <= count v0 <= Z.max (requests l) 0).
      { unfold v0. destruct (visitors l !! k) as [u|] eqn:E.
        - by apply (Hinv k).
        - cbn. lia. }
      set (v1 := if now_since clk - lastSeen v0 >? window l
                 then mkVisitor (now_reset clk) 0 else v0).
      assert (H1 : 0 <= count v1 <= Z.max (requests l) 0).
      { unfold v1. destruct (_ >? _); [cbn; lia | done]. }
      destruct (count v1 >=? requests l) eqn:Hc;
        cbn [fst store visitors requests]; rewrite lookup_insert_eq;
        intros [= <-]; [done |].
      rewrite Z.geb_leb in Hc. apply Z.leb_gt in Hc. cbn [count].
      rewrite int64_small; lia.
    + rewrite check_other by done. intros Hv.
      destruct (step_config l (Visit ip clk)) as [Hr _]. unfold step in Hr.
      rewrite Hr. by apply (Hinv k).
  - rewrite cleanup_lookup. cbn [cleanup requests].
    destruct (visitors l !! k) as [u|] eqn:E; [|done].
    destruct (decide _); [done |]. intros [= <-]. by apply (Hinv k).
Qed.

(** X3: whatever the history of checks and sweeps, of any clients and
    with any clock readings, every count the limiter holds lies between 0
    and the limit (0 when the limit is negative). *)
Theorem limiter_counts_bounded (L W : Z) (evs : list Event) (k : string)
    (v : visitor) :
  L < 2 ^ 63 ->
  visitors (run (NewRateLimiter L W) evs) !! k = Some v ->
  0 <= count v <= Z.max L 0.
Proof.
  intros HL. revert k v.
  assert (H : counts_bounded (run (NewRateLimiter L W) evs)).
  { induction evs as [|ev evs IH] using rev_ind.
    - intros k v. by cbn.
    - rewrite run_snoc. apply step_counts_bounded; [|done].
      destruct (run_config (NewRateLimiter L W) evs) as [-> _]. done. }
  intros k v Hv. specialize (H k v Hv).
  destruct (run_config (NewRateLimiter L W) evs) as [Hr _].
  rewrite Hr in H. done.
Qed.

Lemma limiter_counts_bounded_witness :
  0 <= count (mkVisitor 0 3) <= Z.max 3 0.
Proof.
  apply (limiter_counts_bounded 3 60 demoHistory "a" (mkVisitor 0 3)).
  - lia.
  - reflexivity.
Defined.

(** X4: an admission check is local to the client's record.  Two
    limiters with the same limit and window that hold the same record for
    a client give it the same verdict and leave it the same record; and a
    check leaves the records of all other clients as they were. *)
Theorem check_local (l l' : RateLimiter) (ip : string) (clk : Clock) :
  requests l = requests l' -> window l = window l' ->
  visitors l !! ip = visitors l' !! ip ->
  snd (check l ip clk) = snd (check l' ip clk)
  /\ visitors (fst (check l ip clk)) !! ip
     = visitors (fst (check l' ip clk)) !! ip
  /\ (forall k, k <> ip ->
        visitors (fst (check l ip clk)) !! k = visitors l !! k).
Proof.
  intros Hr Hw Hv. rewrite !check_eq. cbv zeta. rewrite <- Hv, <- Hr, <- Hw.
  split; [|split].
  - by destruct (_ >=? _).
  - destruct (_ >=? _); cbn [fst store visitors]; by rewrite !lookup_insert_eq.
  - intros k Hk.
    destruct (_ >=? _); cbn [fst store visitors];
      by rewrite lookup_insert_ne.
Qed.

Lemma check_local_witness :
  snd (check demoLimiterUsed "203.0.113.9" (at_time 5))
  = snd (check (store demoLimiterUsed "198.51.100.7" (mkVisitor 1 0))
           "203.0.113.9" (at_time 5)).
Proof.
  apply (check_local demoLimiterUsed
           (store demoLimiterUsed "198.51.100.7" (mkVisitor 1 0))
           "203.0.113.9" (at_time 5)); reflexivity.
Defined.



End LimiterStore.

(** * Outcomes of requests through the whole engine *)

Section Outcomes.

Import gin middleware router.

(** One stage of the loop that hands [w'] on and applies [post] to what
    the rest of the chain returns, [X]. *)
Lemma chain_stage (n : Z) (h : HandlerFunc) (tl : list HandlerFunc)
    (w w' X : World) (post : World -> World) :
  c_index (gc w) < n ->
  handle n tl (incr w') = X ->
  (handle n tl (incr w') = X ->
   h (fun x => handle n tl (incr x)) w = post X) ->
  n <= c_index (gc (post X)) ->
  handle n (h :: tl) w = incr (post X).
Proof.
  intros Hn HX Hh Hend. rewrite handle_step by done. rewrite (Hh HX).
  apply handle_done. cbn. lia.
Qed.

Lemma finished_incr (n : Z) (x : World) : finished n x -> finished n (incr x).
Proof. intros [Hi HW]. split; [cbn; lia | done]. Qed.

Lemma CORS_enter (r : Router) (l : RateLimiter) (req : Request)
    (next : World -> World) :
  Method req <> http.MethodOptions ->
  CORS (AllowedOrigins (cfg r)) (AllowedMethods (cfg r))
    (AllowedHeaders (cfg r)) next
    (mkWorld (mkContext req newWriter 0 ∅) l [] [])
  = next (mkWorld
            (mkContext req
               (mkWriter defaultStatus (cors_headers r req) None []) 0 ∅)
            l [] []).
Proof.
  intros Hm. apply String.eqb_neq in Hm. unfold CORS. cbn. by rewrite Hm.
Qed.

Lemma RequestID_enter (r : Router) (o : Oracle) (l : RateLimiter)
    (req : Request) (i : Z) (next : World -> World) :
  RequestID (o_uuid o) next
    (mkWorld
       (mkContext req
          (mkWriter defaultStatus (cors_headers r req) None []) i ∅)
       l [] [])
  = next (entering i r o l req).
Proof. reflexivity. Qed.

(** The four stages in front of the cancellation stage, for a request
    that is not a preflight: when the rest of the chain [rest], entered at
    position 4, ends with a response written, the outcome is what it left
    and the one line of the logger. *)
Lemma engine_head_outcome (r : Router) (o : Oracle) (l : RateLimiter)
    (req : Request) (rest : list HandlerFunc) :
  Method req <> http.MethodOptions ->
  let hs := [CORS (AllowedOrigins (cfg r)) (AllowedMethods (cfg r))
               (AllowedHeaders (cfg r));
             Recovery; RequestID (o_uuid o); Logger] ++ rest in
  let n := Z.of_nat (List.length hs) in
  let R := handle n rest (entering 4 r o l req) in
  finished n R ->
  outcome (serve hs (newWorld req l))
  = mkOutcome (writer R) (rl R) (calls R) (logs R ++ [log_line R]).
Proof.
  intros Hm hs n R [Hi HW].
  assert (4 <= n) as Hn.
  { unfold n, hs. rewrite length_app. cbn [List.length]. lia. }
  unfold serve. fold n. unfold hs. cbn [app].
  change (incr (onContext (setIndex (-1)) (newWorld req l)))
    with (mkWorld (mkContext req newWriter 0 ∅) l [] []).
  assert (HR : handle n rest (incr (entering 3 r o l req)) = R)
    by reflexivity.
  clearbody R n. clear hs.
  assert (H3 : handle n (Logger :: rest) (entering 3 r o l req)
               = incr (Logger (fun x => x) R)).
  { apply (chain_stage n Logger rest _ (entering 3 r o l req) R
             (Logger (fun x => x))); [cbn; lia | exact HR | | exact Hi].
    intros HX. unfold Logger. by rewrite HX. }
  assert (H2 : handle n (RequestID (o_uuid o) :: Logger :: rest)
                 (mkWorld
                    (mkContext req
                       (mkWriter defaultStatus (cors_headers r req) None [])
                       2 ∅) l [] [])
               = incr (incr (Logger (fun x => x) R))).
  { apply (chain_stage n _ (Logger :: rest) _ (entering 2 r o l req) _
             (fun x => x)); [cbn; lia | exact H3 | | cbn; lia].
    intros HX. by rewrite RequestID_enter. }
  set (w1 := mkWorld
               (mkContext req
                  (mkWriter defaultStatus (cors_headers r req) None []) 0 ∅)
               l [] []).
  assert (H1 : handle n (Recovery :: RequestID (o_uuid o) :: Logger :: rest)
                 (incr w1)
               = incr (incr (incr (Logger (fun x => x) R)))).
  { apply (chain_stage n Recovery _ (incr w1) (incr w1) _ (fun x => x));
      [unfold w1; cbn; lia | exact H2 | | cbn; lia].
    intros HX. unfold Recovery. exact HX. }
  rewrite (chain_stage n _ _ (mkWorld (mkContext req newWriter 0 ∅) l [] [])
             w1 _ (fun x => x) ltac:(cbn; lia) H1);
    [| intros HX; unfold w1; by rewrite CORS_enter | cbn; lia ].
  unfold outcome, writer, log_line, Logger in *.
  destruct R as [[rq wr i ks] l' lg cs]. cbn in HW |- *.
  by rewrite WriteHeaderNow_written.
Qed.

(** The six stages in front of the limiter, for a request whose context
    is live on arrival. *)
Lemma engine_outcome (r : Router) (o : Oracle) (l : RateLimiter)
    (req : Request) (tl : list HandlerFunc) :
  Method req <> http.MethodOptions ->
  o_done o = false ->
  let hs := setupMiddleware r o ++ tl in
  let n := Z.of_nat (List.length hs) in
  let R := handle n (Middleware (o_clock o) :: tl) (entering 6 r o l req) in
  finished n R ->
  outcome (serve hs (newWorld req l))
  = mkOutcome (writer R) (rl R) (calls R) (logs R ++ [log_line R]).
Proof.
  intros Hm Hdone. cbv zeta. unfold setupMiddleware. rewrite Hdone.
  cbn [app].
  pose proof (engine_head_outcome r o l req
                (Cancellation false (o_err o)
                 :: Timeout (RequestTimeout (cfg r)) (o_timeout_err o)
                 :: Middleware (o_clock o) :: tl) Hm) as H.
  cbv zeta in H. cbn [app] in H.
  set (n := Z.of_nat _) in *.
  assert (7 <= n) as Hn by (unfold n; cbn [List.length]; lia).
  set (R := handle n (Middleware (o_clock o) :: tl) (entering 6 r o l req)).
  intros [Hi HW].
  assert (HR : handle n (Middleware (o_clock o) :: tl)
                 (incr (entering 5 r o l req)) = R) by reflexivity.
  clearbody R n.
  assert (H5 : handle n (Timeout (RequestTimeout (cfg r)) (o_timeout_err o)
                         :: Middleware (o_clock o) :: tl)
                 (entering 5 r o l req) = incr R).
  { apply (chain_stage n _ _ (entering 5 r o l req) (entering 5 r o l req)
             R (fun x => x));
      [cbn; lia | exact HR | | exact Hi].
    intros HX. rewrite Timeout_written; cbv beta; by rewrite HX. }
  assert (H4 : handle n (Cancellation false (o_err o)
                         :: Timeout (RequestTimeout (cfg r)) (o_timeout_err o)
                         :: Middleware (o_clock o) :: tl)
                 (entering 4 r o l req) = incr (incr R)).
  { apply (chain_stage n _ _ (entering 4 r o l req) (entering 4 r o l req)
             (incr R) (fun x => x));
      [cbn; lia | exact H5 | | cbn; lia].
    intros HX. rewrite Cancellation_written; cbv beta; by rewrite HX. }
  rewrite H4 in H. rewrite H; [done |].
  split; [cbn; lia | done].
Qed.

(** The same with the limiter, for a request it passes on. *)
Lemma engine_outcome_passed (r : Router) (o : Oracle) (l : RateLimiter)
    (req : Request) (tl : list HandlerFunc) :
  Method req <> http.MethodOptions ->
  o_done o = false ->
  snd (check l (RemoteIP req) (o_clock o)) = Passed ->
  let hs := setupMiddleware r o ++ tl in
  let n := Z.of_nat (List.length hs) in
  let R := handle n tl
             (entering 7 r o (fst (check l (RemoteIP req) (o_clock o))) req) in
  finished n R ->
  outcome (serve hs (newWorld req l))
  = mkOutcome (writer R) (rl R) (calls R) (logs R ++ [log_line R]).
Proof.
  intros Hm Hdone Hpass. cbv zeta.
  pose proof (engine_outcome r o l req tl Hm Hdone) as H.
  cbv zeta in H.
  set (n := Z.of_nat _) in *.
  assert (7 <= n) as Hn.
  { unfold n. rewrite length_app. cbn [setupMiddleware List.length]. lia. }
  set (R := handle n tl _).
  intros [Hi HW].
  assert (HR : handle n tl
                 (incr (entering 6 r o
                          (fst (check l (RemoteIP req) (o_clock o))) req))
               = R) by reflexivity.
  clearbody R n.
  assert (H6 : handle n (Middleware (o_clock o) :: tl) (entering 6 r o l req)
               = incr R).
  { apply (chain_stage n _ _ (entering 6 r o l req)
             (entering 6 r o (fst (check l (RemoteIP req) (o_clock o))) req)
             R (fun x => x)); [cbn; lia | exact HR | | exact Hi].
    intros _. rewrite <- HR. rewrite Middleware_eq.
    rewrite check_eq in Hpass |- *. cbv zeta in Hpass |- *.
    cbn [ClientIP gc entering c_Request identified RemoteIP rl].
    destruct (_ >=? _); [discriminate Hpass | reflexivity]. }
  rewrite H6 in H. rewrite H; [done |].
  split; [cbn; lia | done].
Qed.

(** The first write, as a whole. *)
Lemma first_write_eq (wr : responseWriter) (code : Z) (b : Body) :
  w_sent wr = None -> 0 < code ->
  Write b (WriteContentType (WriteHeader code wr))
  = let hd := w_header (WriteContentType wr) in
    mkWriter code hd (Some (code, hd)) (w_body wr ++ [b]).
Proof.
  destruct wr as [st hd sent bd]. simpl. intros -> Hc.
  unfold Write, WriteHeaderNow, WriteContentType, WriteHeader, Written,
    HeaderSet. simpl.
  assert ((0 <? code) = true) as -> by (apply Z.ltb_lt; lia).
  destruct (st =? code) eqn:E; simpl.
  - apply Z.eqb_eq in E. subst st. by destruct (hd !! "Content-Type").
  - by destruct (hd !! "Content-Type").
Qed.

(** [writeJSONError] on a context nothing was written to. *)
Lemma writeJSONError_eq (c : Context) (code : Z) (msg : string) :
  w_sent (c_Writer c) = None -> 0 < code ->
  bodyAllowedForStatus code = true ->
  writeJSONError c code msg
  = let hd := w_header (WriteContentType (c_Writer c)) in
    mkContext (c_Request c)
      (mkWriter code hd (Some (code, hd))
         (w_body (c_Writer c) ++ [ErrorJSON (http.StatusText code) msg code]))
      abortIndex (c_Keys c).
Proof.
  intros Hs Hc Hb. unfold writeJSONError, AbortWithStatusJSON, JSON.
  rewrite Hb. cbn [negb]. unfold Status, Abort, setWriter, setIndex.
  cbn [c_Writer c_Request c_index c_Keys].
  by rewrite first_write_eq.
Qed.

Lemma engine_headers_no_content_type (r : Router) (o : Oracle)
    (req : Request) :
  engine_headers r o req !! "Content-Type" = None.
Proof.
  unfold engine_headers, cors_headers. by rewrite !lookup_insert_ne by done.
Qed.

(** A stage behind the identification stage that refuses the request. *)
Lemma refusal_at (n i code : Z) (msg : string) (h : HandlerFunc)
    (tl : list HandlerFunc) (r : Router) (o : Oracle) (l l' : RateLimiter)
    (req : Request) :
  i < n <= abortIndex + 1 -> 0 < code -> bodyAllowedForStatus code = true ->
  h (fun x => handle n tl (incr x)) (entering i r o l req)
  = onContext (fun c => writeJSONError c code msg) (entering i r o l' req) ->
  let R := handle n (h :: tl) (entering i r o l req) in
  finished n R
  /\ mkOutcome (writer R) (rl R) (calls R) (logs R ++ [log_line R])
     = refusal r o req l' code msg.
Proof.
  intros Hn Hc Hb Hh R.
  assert (HR : R = incr (onContext (fun c => writeJSONError c code msg)
                           (entering i r o l' req))).
  { unfold R. rewrite handle_step_abort; [by rewrite Hh | cbn; lia |].
    rewrite Hh. apply writeJSONError_index. }
  clearbody R. subst R. unfold finished, log_line, refusal, writer.
  cbn [incr onContext gc rl logs calls entering].
  rewrite writeJSONError_eq by done.
  cbn [c_Writer c_Request c_Keys c_index setIndex w_status w_header w_body
       identified Method Path app].
  unfold WriteContentType. cbn [w_header].
  rewrite engine_headers_no_content_type. cbn [HeaderSet w_header].
  rewrite lookup_insert_eq. cbn [default from_option id].
  split; [split; [unfold abortIndex in *; lia | reflexivity] | reflexivity].
Qed.

Lemma routeHandlers_length (r : Router) (rt : Route) :
  (1 <= List.length (routeHandlers r rt) <= 3)%nat.
Proof. unfold routeHandlers. destruct (r_access rt); cbn; lia. Qed.

Lemma chain_length (r : Router) (o : Oracle) (rt : Route) :
  8 <= Z.of_nat (List.length (setupMiddleware r o ++ routeHandlers r rt))
    <= 10.
Proof.
  rewrite length_app. pose proof (routeHandlers_length r rt).
  cbn [setupMiddleware List.length]. lia.
Qed.

Lemma route_not_preflight (req : Request) (rt : Route) :
  findRoute req = Some rt -> Method req <> http.MethodOptions.
Proof.
  intros Hfind. destruct (findRoute_Some _ _ Hfind) as (Hin & Hmeth & _).
  rewrite <- Hmeth. by apply route_method.
Qed.

Lemma limiter_refusal_eq (r : Router) (o : Oracle) (l : RateLimiter)
    (req : Request) (rt : Route) (status : option Z) :
  findRoute req = Some rt ->
  o_done o = false ->
  snd (check l (RemoteIP req) (o_clock o)) = Rejected status ->
  outcome (ServeHTTP r o l req)
  = refusal r o req (fst (check l (RemoteIP req) (o_clock o)))
      http.StatusTooManyRequests "rate limit exceeded".
Proof.
  intros Hfind Hdone Hrej. pose proof (route_not_preflight _ _ Hfind) as Hm.
  unfold ServeHTTP. rewrite Hfind.
  pose proof (chain_length r o rt) as Hlen.
  pose proof (engine_outcome r o l req (routeHandlers r rt) Hm Hdone) as H.
  cbv zeta in H.
  set (n := Z.of_nat _) in *.
  destruct (refusal_at n 6 http.StatusTooManyRequests "rate limit exceeded"
              (Middleware (o_clock o)) (routeHandlers r rt) r o l
              (fst (check l (RemoteIP req) (o_clock o))) req)
    as [Hfin Hout]; [unfold abortIndex; lia | done | done | |].
  - rewrite Middleware_eq. rewrite check_eq in Hrej |- *.
    cbv zeta in Hrej |- *.
    cbn [ClientIP gc entering c_Request identified RemoteIP rl].
    destruct (_ >=? _); [done | discriminate Hrej].
  - rewrite (H Hfin). exact Hout.
Qed.


Lemma Abort_writeJSONError (c : Context) (code : Z) (msg : string) :
  Abort (writeJSONError c code msg) = writeJSONError c code msg.
Proof.
  unfold writeJSONError, AbortWithStatusJSON, JSON.
  by destruct (negb (bodyAllowedForStatus code)).
Qed.

Lemma AuthMiddleware_refuses (jwt : JWTManager) (next : World -> World)
    (w : World) (msg : string) :
  authenticate jwt (c_Request (gc w)) = inr msg ->
  AuthMiddleware jwt next w
  = onContext (fun c => writeJSONError c http.StatusUnauthorized msg) w.
Proof.
  intros H. rewrite AuthMiddleware_authenticate, H. unfold onContext.
  by rewrite Abort_writeJSONError.
Qed.

(** A request without a valid credential on a route registered with
    [withAuth]. *)
Lemma credential_refusal_eq (r : Router) (o : Oracle) (l : RateLimiter)
    (req : Request) (rt : Route) (msg : string) :
  findRoute req = Some rt ->
  r_access rt <> Public ->
  o_done o = false ->
  snd (check l (RemoteIP req) (o_clock o)) = Passed ->
  authenticate (jwtManager r) req = inr msg ->
  outcome (ServeHTTP r o l req)
  = refusal r o req (fst (check l (RemoteIP req) (o_clock o)))
      http.StatusUnauthorized msg.
Proof.
  intros Hfind Hacc Hdone Hpass Hauth.
  pose proof (route_not_preflight _ _ Hfind) as Hm.
  unfold ServeHTTP. rewrite Hfind.
  pose proof (chain_length r o rt) as Hlen.
  pose proof (engine_outcome_passed r o l req (routeHandlers r rt) Hm Hdone
                Hpass) as H.
  cbv zeta in H. set (n := Z.of_nat _) in *.
  set (l' := fst (check l (RemoteIP req) (o_clock o))) in *.
  assert (exists tl, routeHandlers r rt = AuthMiddleware (jwtManager r) :: tl)
    as [tl Htl].
  { unfold routeHandlers, withAuth. destruct (r_access rt); [done | |];
      by eexists. }
  rewrite Htl in H |- *.
  destruct (refusal_at n 7 http.StatusUnauthorized msg
              (AuthMiddleware (jwtManager r)) tl r o l' l' req)
    as [Hfin Hout]; [unfold abortIndex; lia | done | done | |].
  - by apply AuthMiddleware_refuses.
  - rewrite (H Hfin). exact Hout.
Qed.

(** A request with a valid credential of a role that is not listed, on a
    route registered with [withRole]. *)
Lemma role_refusal_eq (r : Router) (o : Oracle) (l : RateLimiter)
    (req : Request) (rt : Route) (roles : list string)
    (claims : UserClaims) :
  findRoute req = Some rt ->
  r_access rt = RoleGated roles ->
  o_done o = false ->
  snd (check l (RemoteIP req) (o_clock o)) = Passed ->
  authenticate (jwtManager r) req = inl claims ->
  hasRole (Role claims) roles = false ->
  outcome (ServeHTTP r o l req)
  = refusal r o req (fst (check l (RemoteIP req) (o_clock o)))
      http.StatusForbidden "insufficient permissions".
Proof.
  intros Hfind Hacc Hdone Hpass Hauth Hrole.
  pose proof (route_not_preflight _ _ Hfind) as Hm.
  unfold ServeHTTP. rewrite Hfind.
  pose proof (engine_outcome_passed r o l req (routeHandlers r rt) Hm Hdone
                Hpass) as H.
  cbv zeta in H. unfold routeHandlers in H |- *. rewrite Hacc in H |- *.
  unfold withAuth, withRole in H |- *.
  set (n := Z.of_nat _) in *.
  assert (Hn : n = 10) by reflexivity.
  set (l' := fst (check l (RemoteIP req) (o_clock o))) in *.
  set (req' := mkRequest (Method req) (Path req) (Header req) (URLQuery req)
                 (RemoteIP req) (JSONBody req) (ctx_requestID req)
                 (Some claims)).
  destruct (refusal_at n 8 http.StatusForbidden "insufficient permissions"
              (RequireRole roles) [endpoint r (r_handler rt)] r o l' l' req')
    as [[Hi HW] Hout]; [unfold abortIndex; lia | done | done | |].
  - by apply RequireRole_claims with claims.
  - set (R8 := handle n (RequireRole roles :: _) (entering 8 r o l' req'))
      in *.
    assert (H7 : handle n
                   (AuthMiddleware (jwtManager r) :: RequireRole roles
                    :: [endpoint r (r_handler rt)]) (entering 7 r o l' req)
                 = incr R8).
    { apply (chain_stage n _ _ (entering 7 r o l' req)
               (onContext (withClaims claims) (entering 7 r o l' req))
               R8 (fun x => x)); [cbn; lia | reflexivity | | exact Hi].
      intros HX. rewrite AuthMiddleware_authenticate.
      cbn [entering gc c_Request]. 
      rewrite (authenticate_Header (jwtManager r) (identified o req) req)
        by reflexivity.
      rewrite Hauth. exact HX. }
    clearbody R8. rewrite H7 in H. rewrite H; [| split; [cbn; lia | done]].
    exact Hout.
Qed.

(** A request whose context is done when it reaches the cancellation
    stage. *)
Lemma canceled_refusal_eq (r : Router) (o : Oracle) (l : RateLimiter)
    (req : Request) (rt : Route) :
  findRoute req = Some rt ->
  o_done o = true ->
  outcome (ServeHTTP r o l req)
  = refusal r o req l http.StatusServiceUnavailable "request canceled".
Proof.
  intros Hfind Hdone. pose proof (route_not_preflight _ _ Hfind) as Hm.
  unfold ServeHTTP. rewrite Hfind.
  pose proof (chain_length r o rt) as Hlen.
  pose proof (engine_head_outcome r o l req
                (Cancellation true (o_err o)
                 :: Timeout (RequestTimeout (cfg r)) (o_timeout_err o)
                 :: Middleware (o_clock o) :: routeHandlers r rt) Hm) as H.
  cbv zeta in H. unfold setupMiddleware in Hlen |- *. rewrite Hdone in *.
  cbn [app] in H, Hlen |- *. set (n := Z.of_nat _) in *.
  destruct (refusal_at n 4 http.StatusServiceUnavailable "request canceled"
              (Cancellation true (o_err o))
              (Timeout (RequestTimeout (cfg r)) (o_timeout_err o)
               :: Middleware (o_clock o) :: routeHandlers r rt) r o l l req)
    as [Hfin Hout]; [unfold abortIndex; lia | done | done | done |].
  rewrite (H Hfin). exact Hout.
Qed.

End Outcomes.

(** * What a refused request leaves behind *)

Section Refusals.

Import gin middleware router.

(** X6: a request the limiter rejects, through the whole engine.  The
    client gets the 429 document, no stage behind the limiter runs and no
    backend is called, the limiter holds what the check left, and the one
    log line carries the request's identifier and the status 429. *)
Theorem limited_request_outcome (r : Router) (o : Oracle) (l : RateLimiter)
    (req : Request) (rt : Route) (status : option Z) :
  findRoute req = Some rt ->
  o_done o = false ->
  snd (check l (RemoteIP req) (o_clock o)) = Rejected status ->
  let out := outcome (ServeHTTP r o l req) in
  client_status (response out) = Some 429
  /\ w_body (response out)
     = [ErrorJSON "Too Many Requests" "rate limit exceeded" 429]
  /\ backend out = []
  /\ limiter out = fst (check l (RemoteIP req) (o_clock o))
  /\ logged out
     = [mkLogLine (request_id o req) (Method req) (Path req) 429].
Proof.
  intros Hfind Hdone Hrej out. unfold out.
  rewrite (limiter_refusal_eq r o l req rt status Hfind Hdone Hrej).
  by repeat split.
Qed.

Lemma limited_request_outcome_witness :
  backend (outcome (ServeHTTP demoRouter (demoOracle 1000000000)
                      demoLimiterUsed (searchRequest ∅))) = [].
Proof.
  destruct (limited_request_outcome demoRouter (demoOracle 1000000000)
              demoLimiterUsed (searchRequest ∅) adminSearch (Some 429))
    as (_ & _ & H & _); [reflexivity | reflexivity | reflexivity | exact H].
Defined.

Lemma no_credential (jwt : JWTManager) (req : Request) :
  (forall claims, ~ valid_credential jwt req claims) ->
  exists msg, authenticate jwt req = inr msg.
Proof.
  intros H. destruct (authenticate jwt req) as [claims|msg] eqn:E.
  - by apply authenticate_inl, H in E.
  - by exists msg.
Qed.

(** X7: a request without a valid credential on a route registered with
    [withAuth], live on arrival and within its rate limit.  It is answered
    401 by the authentication stage; the route's handler does not run and
    no backend is called; the request has been counted against the
    client's limit; one line is logged, with the status 401. *)
Theorem unauthenticated_request_outcome (r : Router) (o : Oracle)
    (l : RateLimiter) (req : Request) (rt : Route) :
  findRoute req = Some rt ->
  r_access rt <> Public ->
  o_done o = false ->
  snd (check l (RemoteIP req) (o_clock o)) = Passed ->
  (forall claims, ~ valid_credential (jwtManager r) req claims) ->
  let out := outcome (ServeHTTP r o l req) in
  client_status (response out) = Some 401
  /\ (exists msg, w_body (response out) = [ErrorJSON "Unauthorized" msg 401])
  /\ backend out = []
  /\ limiter out = fst (check l (RemoteIP req) (o_clock o))
  /\ logged out
     = [mkLogLine (request_id o req) (Method req) (Path req) 401].
Proof.
  intros Hfind Hacc Hdone Hpass Hno out. unfold out.
  destruct (no_credential _ _ Hno) as [msg Hauth].
  rewrite (credential_refusal_eq r o l req rt msg Hfind Hacc Hdone Hpass
             Hauth).
  repeat split. by exists msg.
Qed.

Lemma unauthenticated_request_outcome_witness :
  backend (outcome (ServeHTTP demoRouter (demoOracle 0) demoLimiter
                      (searchRequest ∅))) = [].
Proof.
  destruct (unauthenticated_request_outcome demoRouter (demoOracle 0)
              demoLimiter (searchRequest ∅) adminSearch)
    as (_ & _ & H & _);
    [reflexivity | discriminate | reflexivity | reflexivity | | exact H].
  intros claims [tok [[Hh _] _]]. discriminate Hh.
Defined.

(** X8: a request with a valid credential whose role is not listed, on a
    route registered with [withRole], live on arrival and within its rate
    limit.  It is answered 403; the handler does not run, no backend is
    called, the request has been counted, one line is logged. *)
Theorem wrong_role_request_outcome (r : Router) (o : Oracle)
    (l : RateLimiter) (req : Request) (rt : Route) (roles : list string)
    (claims : UserClaims) :
  findRoute req = Some rt ->
  r_access rt = RoleGated roles ->
  o_done o = false ->
  snd (check l (RemoteIP req) (o_clock o)) = Passed ->
  valid_credential (jwtManager r) req claims ->
  Role claims ∉ roles ->
  let out := outcome (ServeHTTP r o l req) in
  client_status (response out) = Some 403
  /\ w_body (response out)
     = [ErrorJSON "Forbidden" "insufficient permissions" 403]
  /\ backend out = []
  /\ limiter out = fst (check l (RemoteIP req) (o_clock o))
  /\ logged out
     = [mkLogLine (request_id o req) (Method req) (Path req) 403].
Proof.
  intros Hfind Hacc Hdone Hpass Hcred Hrole out. unfold out.
  apply authenticate_inl in Hcred.
  assert (hasRole (Role claims) roles = false) as Hno.
  { destruct (hasRole (Role claims) roles) eqn:E; [|done].
    by apply hasRole_elem_of in E. }
  rewrite (role_refusal_eq r o l req rt roles claims Hfind Hacc Hdone Hpass
             Hcred Hno).
  by repeat split.
Qed.

Lemma wrong_role_request_outcome_witness :
  backend
    (outcome (ServeHTTP demoRouter (demoOracle 0) demoLimiter
                (searchRequest {[ "Authorization" := "Bearer t0k3n" ]})))
  = [].
Proof.
  destruct (wrong_role_request_outcome demoRouter (demoOracle 0) demoLimiter
              (searchRequest {[ "Authorization" := "Bearer t0k3n" ]})
              adminSearch ["admin"] (mkClaims 7 "customer"))
    as (_ & _ & H & _);
    [reflexivity | reflexivity | reflexivity | reflexivity | | | exact H].
  - exists "t0k3n". by repeat split.
  - cbn. intros H. apply list_elem_of_singleton in H. discriminate H.
Defined.

(** X9: a request whose context is already done when it reaches the
    cancellation stage.  It is answered 503 there: the limiter is never
    consulted and holds what it held, no backend is called, and the line
    logged carries the status 503. *)
Theorem canceled_request_outcome (r : Router) (o : Oracle) (l : RateLimiter)
    (req : Request) (rt : Route) :
  findRoute req = Some rt ->
  o_done o = true ->
  let out := outcome (ServeHTTP r o l req) in
  client_status (response out) = Some 503
  /\ w_body (response out)
     = [ErrorJSON "Service Unavailable" "request canceled" 503]
  /\ backend out = []
  /\ limiter out = l
  /\ logged out
     = [mkLogLine (request_id o req) (Method req) (Path req) 503].
Proof.
  intros Hfind Hdone out. unfold out.
  rewrite (canceled_refusal_eq r o l req rt Hfind Hdone).
  by repeat split.
Qed.

Lemma canceled_request_outcome_witness :
  limiter
    (outcome (ServeHTTP demoRouter
                (mkOracle "6ba7b810-9dad-41d1-80b4-00c04fd430c8"
                   (at_time 0) true (Some Canceled) None)
                demoLimiter (searchRequest ∅)))
  = demoLimiter.
Proof.
  destruct (canceled_request_outcome demoRouter
              (mkOracle "6ba7b810-9dad-41d1-80b4-00c04fd430c8"
                 (at_time 0) true (Some Canceled) None)
              demoLimiter (searchRequest ∅) adminSearch)
    as (_ & _ & _ & H & _); [reflexivity | reflexivity | exact H].
Defined.

(** X10: a preflight request, whatever its path, headers and the state of
    its context: 204 with the five cross-origin headers and nothing else,
    no body; the limiter is not consulted, nothing is logged by [Logger],
    no backend is called. *)
Theorem preflight_outcome (r : Router) (o : Oracle) (l : RateLimiter)
    (req : Request) :
  Method req = http.MethodOptions ->
  outcome (ServeHTTP r o l req)
  = mkOutcome
      (mkWriter 204 (cors_headers r req) (Some (204, cors_headers r req)) [])
      l [] [].
Proof.
  intros Hm. destruct req as [m p hd q ip body rid cl]. cbn in Hm. subst m.
  unfold ServeHTTP.
  change (findRoute (mkRequest http.MethodOptions p hd q ip body rid cl))
    with (@None Route).
  unfold serveError, setupMiddleware.
  cbn [List.length Z.of_nat Pos.of_succ_nat Pos.succ].
  set (w0 := incr _).
  rewrite handle_step_abort; [| by cbn | reflexivity].
  reflexivity.
Qed.

Lemma preflight_outcome_witness :
  logged
    (outcome (ServeHTTP demoRouter (demoOracle 0) demoLimiter
                (mkRequest "OPTIONS" "/api/v1/cart" ∅ ∅ "203.0.113.9" None
                   None None)))
  = [].
Proof.
  rewrite (preflight_outcome demoRouter (demoOracle 0) demoLimiter
             (mkRequest "OPTIONS" "/api/v1/cart" ∅ ∅ "203.0.113.9" None
                None None)); reflexivity.
Defined.

(** X11: the routes registered with [withAuth] reach their backends only
    for a verified caller, and those registered with [withRole] only for a
    verified caller with a listed role: whatever the limiter holds and
    whatever becomes of the request's context, a request for which a
    backend call is made carries a valid credential (of a listed role). *)
Theorem backend_call_requires_credential (r : Router) (o : Oracle)
    (l : RateLimiter) (req : Request) (rt : Route) :
  findRoute req = Some rt ->
  backend (outcome (ServeHTTP r o l req)) <> [] ->
  match r_access rt with
  | Public => True
  | Authenticated =>
      exists claims, valid_credential (jwtManager r) req claims
  | RoleGated roles =>
      exists claims, valid_credential (jwtManager r) req claims
                     /\ Role claims ∈ roles
  end.
Proof.
  intros Hfind Hcall.
  destruct (r_access rt) as [| |roles] eqn:Hacc; [done | |].
  - destruct (o_done o) eqn:Hdone.
    { by rewrite (canceled_refusal_eq r o l req rt Hfind Hdone) in Hcall. }
    destruct (snd (check l (RemoteIP req) (o_clock o))) as [|st] eqn:Hv.
    2:{ by rewrite (limiter_refusal_eq r o l req rt st Hfind Hdone Hv)
          in Hcall. }
    destruct (authenticate (jwtManager r) req) as [claims|msg] eqn:Hauth.
    + exists claims. by apply authenticate_inl.
    + rewrite (credential_refusal_eq r o l req rt msg Hfind) in Hcall;
        [done | by rewrite Hacc | done | done | done].
  - destruct (o_done o) eqn:Hdone.
    { by rewrite (canceled_refusal_eq r o l req rt Hfind Hdone) in Hcall. }
    destruct (snd (check l (RemoteIP req) (o_clock o))) as [|st] eqn:Hv.
    2:{ by rewrite (limiter_refusal_eq r o l req rt st Hfind Hdone Hv)
          in Hcall. }
    destruct (authenticate (jwtManager r) req) as [claims|msg] eqn:Hauth.
    + destruct (hasRole (Role claims) roles) eqn:Hrole.
      * exists claims. split; [by apply authenticate_inl |].
        by apply hasRole_elem_of.
      * by rewrite (role_refusal_eq r o l req rt roles claims Hfind Hacc
                      Hdone Hv Hauth Hrole) in Hcall.
    + rewrite (credential_refusal_eq r o l req rt msg Hfind) in Hcall;
        [done | by rewrite Hacc | done | done | done].
Qed.

Lemma backend_call_requires_credential_witness :
  exists claims,
    valid_credential (jwtManager demoAdminRouter)
      (searchRequest {[ "Authorization" := "Bearer r00t" ]}) claims
    /\ Role claims ∈ ["admin"].
Proof.
  apply (backend_call_requires_credential demoAdminRouter (demoOracle 0)
           demoLimiter (searchRequest {[ "Authorization" := "Bearer r00t" ]})
           adminSearch); [reflexivity | by vm_compute].
Defined.

End Refusals.

(** * A request that reaches its handler *)

Section Served.

Import gin middleware router.

(** What a handler that answers through [writeJSON] or the error
    translation leaves on a writer nothing was written to: the status line
    is the pending status, the headers are those set before plus the
    content type. *)
Lemma handlers_writeJSON_eq (w : responseWriter) (code : Z) (data : string) :
  w_sent w = None -> 0 < code ->
  handlers.writeJSON w code data
  = let hd := <["Content-Type" := "application/json"]> (w_header w) in
    mkWriter code hd (Some (code, hd)) (w_body w ++ [DataJSON data]).
Proof.
  destruct w as [st hd sent bd]. simpl. intros -> Hc.
  unfold handlers.writeJSON, Write, WriteHeaderNow, WriteHeader, Written,
    HeaderSet. simpl.
  assert ((0 <? code) = true) as -> by (apply Z.ltb_lt; lia).
  destruct (st =? code) eqn:E; simpl; [|done].
  apply Z.eqb_eq in E. by subst st.
Qed.

Lemma handlers_writeJSONError_eq (w : responseWriter) (code : Z)
    (msg : string) :
  w_sent w = None -> 0 < code ->
  handlers.writeJSONError w code msg
  = let hd := <["Content-Type" := "application/json"]> (w_header w) in
    mkWriter code hd (Some (code, hd))
      (w_body w ++ [ErrorJSON (http.StatusText code) msg code]).
Proof.
  destruct w as [st hd sent bd]. simpl. intros -> Hc.
  unfold handlers.writeJSONError, Write, WriteHeaderNow, WriteHeader, Written,
    HeaderSet. simpl.
  assert ((0 <? code) = true) as -> by (apply Z.ltb_lt; lia).
  destruct (st =? code) eqn:E; simpl; [|done].
  apply Z.eqb_eq in E. by subst st.
Qed.

(** The status and message the error translation settles on. *)
Lemma writeJSONErrorFromGRPC_eq (w : responseWriter) (err : status.error)
    (defaultStatus : Z) :
  w_sent w = None -> 0 < defaultStatus ->
  exists code msg,
    0 < code
    /\ (code = defaultStatus \/ 400 <= code <= 504)
    /\ handlers.writeJSONErrorFromGRPC w err defaultStatus
       = let hd := <["Content-Type" := "application/json"]> (w_header w) in
         mkWriter code hd (Some (code, hd))
           (w_body w ++ [ErrorJSON (http.StatusText code) msg code]).
Proof.
  intros Hs Hd. unfold handlers.writeJSONErrorFromGRPC.
  destruct err as [st|text]; cbn [status.FromError negb].
  - exists (handlers.grpcCodeToHTTP (status.Code st)), (status.Message st).
    split; [apply grpcCodeToHTTP_pos |]. split.
    + right. unfold handlers.grpcCodeToHTTP.
      repeat case_match; split; by cbv.
    + apply handlers_writeJSONError_eq; [done | apply grpcCodeToHTTP_pos].
  - exists defaultStatus, text. split; [done |]. split; [by left |].
    by apply handlers_writeJSONError_eq.
Qed.

(** X12: the product listing, through the whole engine, for a request
    that is live on arrival and within its rate limit.  One call is made
    on the product backend, with a page size between 1 and 100; the status
    the client receives is 200 or an error status, and it is the status
    logged; the response carries the request's identifier; the request has
    been counted against the client's limit.  This holds whatever becomes
    of the request's deadline once the handler has answered. *)
Theorem products_outcome (r : Router) (o : Oracle) (l : RateLimiter)
    (req : Request) :
  Method req = "GET" -> Path req = "/api/v1/products" ->
  o_done o = false ->
  snd (check l (RemoteIP req) (o_clock o)) = Passed ->
  let out := outcome (ServeHTTP r o l req) in
  exists (breq : handlers.ListProductsRequest) (code : Z),
    backend out = [handlers.CallListProducts breq]
    /\ 1 <= handlers.PerPage breq <= 100
    /\ client_status (response out) = Some code
    /\ (code = 200 \/ 400 <= code <= 504)
    /\ logged out
       = [mkLogLine (request_id o req) "GET" "/api/v1/products" code]
    /\ client_header "X-Request-ID" (response out) = Some (request_id o req)
    /\ limiter out = fst (check l (RemoteIP req) (o_clock o)).
Proof.
  intros Hm Hp Hdone Hpass out.
  assert (Hfind : findRoute req = Some productsRoute).
  { unfold findRoute, matches. by rewrite Hm, Hp. }
  assert (Hopt : Method req <> http.MethodOptions) by (by rewrite Hm).
  unfold out, ServeHTTP. rewrite Hfind.
  pose proof (engine_outcome_passed r o l req
                (routeHandlers r productsRoute) Hopt Hdone Hpass) as H.
  cbv zeta in H.
  change (routeHandlers r productsRoute)
    with [WrapF (handlers.ListProducts (productHandler r))] in H |- *.
  set (n := Z.of_nat _) in *. assert (Hn : n = 8) by reflexivity.
  set (l' := fst (check l (RemoteIP req) (o_clock o))) in *.
  set (wr0 := mkWriter defaultStatus (engine_headers r o req) None []).
  destruct (ListProducts_per_page (productHandler r) wr0 (identified o req))
    as (breq & Hcall & Hpp).
  exists breq.
  assert (exists code,
             (code = 200 \/ 400 <= code <= 504)
             /\ snd (handlers.ListProducts (productHandler r) wr0
                       (identified o req))
                = let hd := <["Content-Type" := "application/json"]>
                              (engine_headers r o req) in
                  mkWriter code hd (Some (code, hd))
                    (w_body (snd (handlers.ListProducts (productHandler r)
                                    wr0 (identified o req)))))
    as (code & Hcode & Hwr).
  { unfold handlers.ListProducts.
    destruct (handlers.productClient_ListProducts _ _) as [resp|err];
      cbn [snd].
    - exists 200. split; [by left |].
      by rewrite handlers_writeJSON_eq.
    - destruct (writeJSONErrorFromGRPC_eq wr0 err
                  http.StatusInternalServerError eq_refl eq_refl)
        as (code & msg & Hpos & Hc & ->).
      exists code. split; [| done].
      destruct Hc as [->|Hc]; [right; split; by cbv | by right]. }
  exists code.
  destruct (handlers.ListProducts (productHandler r) wr0 (identified o req))
    as [cs wr] eqn:E.
  cbn [fst snd] in Hcall, Hwr. subst cs.
  set (R := handle n _ (entering 7 r o l' req)) in *.
  assert (HR : R = incr (mkWorld
                           (setWriter wr (gc (entering 7 r o l' req))) l' []
                           [handlers.CallListProducts breq])).
  { unfold R. rewrite handle_step by (cbn; lia). unfold WrapF.
    cbn [entering gc c_Writer c_Request]. fold wr0. by rewrite E. }
  clearbody R. subst R.
  rewrite H.
  - unfold log_line, writer, client_status, client_header.
    cbn [incr onContext gc rl logs calls setWriter c_Writer c_Request
         c_Keys setIndex identified Method Path response backend limiter
         logged app entering].
    rewrite Hm, Hp, Hwr. cbn [w_sent w_status fmap option_fmap option_map fst].
    rewrite lookup_insert_eq. cbn [default from_option id].
    repeat split; try done; apply Hpp.
  - split; [cbn; lia |]. unfold writer. cbn. by rewrite Hwr.
Qed.

Lemma products_outcome_witness :
  exists breq code,
    backend (outcome (ServeHTTP demoRouter (demoOracle 0) demoLimiter
                        (queryRequest "GET" "/api/v1/products" ∅)))
    = [handlers.CallListProducts breq]
    /\ code = 200.
Proof.
  destruct (products_outcome demoRouter (demoOracle 0) demoLimiter
              (queryRequest "GET" "/api/v1/products" ∅))
    as (breq & code & H & _); [reflexivity .. |].
  exists breq, 200. by split.
Defined.

End Served.

(** * The handlers that act for the caller or look a record up *)

Section CallerHandlers.

Import gin handlers handlers_ext.

Lemma forward_calls (h : Clients) (call : Call) (d ok : Z) (c : Context) :
  fst (forward h call d ok c) = [call].
Proof. unfold forward. by destruct (invoke h call). Qed.

Lemma forwardF_calls (h : Clients) (call : Call) (d ok : Z)
    (w : responseWriter) :
  fst (forwardF h call d ok w) = [call].
Proof. unfold forwardF. by destruct (invoke h call). Qed.

(** X13: the handlers that act for the caller name nobody else.  Every
    call made by [GetProfile], [UpdateUser], [CreateAddress] and
    [ListAddresses] names the verified caller, narrowed to 32 bits,
    whatever the query string and the body say; without claims in the
    request context they make no call. *)
Theorem user_handlers_act_for_caller (h : Clients) (c : Context)
    (decoded : option CreateAddressRequest) (call : Call) :
  call ∈ fst (GetProfile h c) ++ fst (UpdateUser h c)
         ++ fst (CreateAddress h decoded c) ++ fst (ListAddresses h c) ->
  exists claims,
    ctx_userClaims (c_Request c) = Some claims
    /\ subject call = Some (int32 (UserID claims)).
Proof.
  unfold GetProfile, UpdateUser, CreateAddress, ListAddresses,
    middleware.GetUserID, middleware.GetUserClaims.
  destruct (ctx_userClaims (c_Request c)) as [claims|]; cbn [negb fst app].
  - intros Hin. exists claims. split; [done |].
    rewrite !forward_calls in Hin.
    destruct (JSONBody (c_Request c)), decoded; cbn [fst app] in Hin;
      rewrite ?forward_calls in Hin; cbn [app] in Hin;
      repeat (apply elem_of_cons in Hin as [->|Hin]; [done |]);
      by apply elem_of_nil in Hin.
  - by intros ?%elem_of_nil.
Qed.

Lemma user_handlers_act_for_caller_witness :
  exists claims,
    ctx_userClaims
      (c_Request (middleware.newContext
                    (callerRequest (Some (mkClaims 7 "customer"))
                       {[ "id" := "9" ]} None)))
    = Some claims
    /\ subject (CallGetUserByID 7) = Some (int32 (UserID claims)).
Proof.
  apply (user_handlers_act_for_caller demoClients
           (middleware.newContext
              (callerRequest (Some (mkClaims 7 "customer"))
                 {[ "id" := "9" ]} None)) None (CallGetUserByID 7)).
  cbn. apply elem_of_cons. by left.
Defined.

(** X14: the same for the cart: every call made by [GetCart] and
    [ClearCart] names the verified caller, and without claims they make no
    call. *)
Theorem cart_handlers_act_for_caller (h : Clients) (w : responseWriter)
    (r : Request) (call : Call) :
  call ∈ fst (GetCart h w r) ++ fst (ClearCart h w r) ->
  exists claims,
    ctx_userClaims r = Some claims
    /\ subject call = Some (middleware.int64 (UserID claims)).
Proof.
  unfold GetCart, ClearCart, middleware.GetUserID, middleware.GetUserClaims.
  destruct (ctx_userClaims r) as [claims|]; cbn [negb fst app].
  - intros Hin. exists claims. split; [done |].
    rewrite !forwardF_calls in Hin. cbn [app] in Hin.
    repeat (apply elem_of_cons in Hin as [->|Hin]; [done |]).
    by apply elem_of_nil in Hin.
  - by intros ?%elem_of_nil.
Qed.

Lemma cart_handlers_act_for_caller_witness :
  exists claims,
    ctx_userClaims (callerRequest (Some (mkClaims 7 "customer")) ∅ None)
    = Some claims
    /\ subject (CallGetCart 7) = Some (middleware.int64 (UserID claims)).
Proof.
  apply (cart_handlers_act_for_caller demoClients newWriter
           (callerRequest (Some (mkClaims 7 "customer")) ∅ None)
           (CallGetCart 7)).
  cbn. apply elem_of_cons. by left.
Defined.

Lemma int32_range (x : Z) : - 2 ^ 31 <= int32 x < 2 ^ 31.
Proof.
  unfold int32. pose proof (Z.mod_pos_bound (x + 2 ^ 31) (2 ^ 32)). lia.
Qed.

Lemma int32_periodic (x k : Z) : int32 (x + k * 2 ^ 32) = int32 x.
Proof.
  unfold int32. replace (x + k * 2 ^ 32 + 2 ^ 31)
    with (x + 2 ^ 31 + k * 2 ^ 32) by lia.
  by rewrite Z.mod_add by lia.
Qed.

(** X15: the handlers that take an identifier from the query string.
    Each makes a call exactly when the [id] parameter parses as a 64-bit
    decimal integer, and answers 400 without a call otherwise.  The
    product, category and order handlers forward the parsed number; the
    user handlers forward its low 32 bits, so that two identifiers that
    differ by a multiple of 2^32 name the same user. *)
Theorem lookup_by_id (h : Clients) (c : Context) :
  let idStr := gin.Query c "id" in
  let w := c_Writer c in
  let r := c_Request c in
  match strconv.ParseInt idStr with
  | (n, None) =>
      fst (GetUserByID h c) = [CallGetUserByID (int32 n)]
      /\ fst (DeleteUser h c) = [CallDeleteUser (int32 n)]
      /\ fst (GetProductByID h w r) = [CallGetProductByID n]
      /\ fst (DeleteProduct h w r) = [CallDeleteProduct n]
      /\ fst (GetCategoryByID h w r) = [CallGetCategoryByID n]
      /\ fst (DeleteCategory h w r) = [CallDeleteCategory n]
      /\ fst (GetOrderByID h w r) = [CallGetOrderByID n]
      /\ (- 2 ^ 31 <= n < 2 ^ 31 -> int32 n = n)
      /\ (forall k, int32 (n + k * 2 ^ 32) = int32 n)
  | (_, Some _) =>
      fst (GetUserByID h c) = [] /\ fst (DeleteUser h c) = []
      /\ fst (GetProductByID h w r) = [] /\ fst (DeleteProduct h w r) = []
      /\ fst (GetCategoryByID h w r) = [] /\ fst (DeleteCategory h w r) = []
      /\ fst (GetOrderByID h w r) = []
      /\ (Written w = false ->
          client_status (c_Writer (snd (GetUserByID h c))) = Some 400
          /\ client_status (c_Writer (snd (DeleteUser h c))) = Some 400
          /\ client_status (snd (GetProductByID h w r)) = Some 400
          /\ client_status (snd (DeleteProduct h w r)) = Some 400
          /\ client_status (snd (GetCategoryByID h w r)) = Some 400
          /\ client_status (snd (DeleteCategory h w r)) = Some 400
          /\ client_status (snd (GetOrderByID h w r)) = Some 400)
  end.
Proof.
  intros idStr w r.
  unfold GetUserByID, DeleteUser, GetProductByID, DeleteProduct,
    GetCategoryByID, DeleteCategory, GetOrderByID, gin.Query.
  fold r. change (Get (URLQuery r) "id") with idStr.
  destruct (strconv.ParseInt idStr) as [n [e|]] eqn:E.
  - destruct (String.eqb idStr ""); cbn [fst snd];
      do 7 (split; [done |]); intros Hw; cbn [setWriter c_Writer];
      repeat split; by apply writeJSONError_status.
  - destruct (String.eqb idStr "") eqn:Ee.
    { apply String.eqb_eq in Ee. rewrite Ee in E. discriminate E. }
    rewrite !forward_calls, !forwardF_calls.
    do 7 (split; [done |]).
    split; [intros Hn; by apply int32_small | intros k; apply int32_periodic].
Qed.

Lemma lookup_by_id_witness :
  fst (GetUserByID demoClients
         (middleware.newContext
            (callerRequest None {[ "id" := "4294967297" ]} None)))
  = [CallGetUserByID 1].
Proof.
  pose proof (lookup_by_id demoClients
                (middleware.newContext
                   (callerRequest None {[ "id" := "4294967297" ]} None)))
    as H.
  cbv zeta in H.
  change (strconv.ParseInt _) with (4294967297, @None strconv.NumError) in H.
  destruct H as (H & _). exact H.
Defined.



(** X17: whose orders are listed.  [ListOrders] makes one call, with a
    page size between 1 and 100.  A non-empty [user_id] parameter decides
    the user, as [ParseInt] reads it (0 when it is not a number), whoever
    the caller is: two requests with the same query string get the same
    call and the same response.  Without the parameter the user is the
    verified caller. *)
Theorem ListOrders_filter (h : Clients) (w : responseWriter)
    (r r' : Request) :
  (exists page perPage,
      fst (ListOrders h w r)
      = [CallListOrders page perPage
           (if String.eqb (Get (URLQuery r) "user_id") "" then
              match ctx_userClaims r with
              | Some claims => middleware.int64 (UserID claims)
              | None => 0
              end
            else fst (strconv.ParseInt (Get (URLQuery r) "user_id")))]
      /\ 1 <= perPage <= 100)
  /\ (URLQuery r = URLQuery r' ->
      Get (URLQuery r) "user_id" <> "" ->
      ListOrders h w r = ListOrders h w r').
Proof.
  split.
  - unfold ListOrders. rewrite forwardF_calls. eexists _, _. split.
    + f_equal. f_equal. unfold middleware.GetUserID, middleware.GetUserClaims.
      destruct (String.eqb _ ""); cbn [negb]; [| done].
      by destruct (ctx_userClaims r).
    + apply clamped_per_page.
  - intros Hq Hne. unfold ListOrders. rewrite <- Hq.
    apply String.eqb_neq in Hne. by rewrite Hne.
Qed.

Lemma ListOrders_filter_witness :
  ListOrders demoClients newWriter
    (callerRequest (Some (mkClaims 7 "customer")) {[ "user_id" := "9" ]} None)
  = ListOrders demoClients newWriter
      (callerRequest (Some (mkClaims 8 "customer")) {[ "user_id" := "9" ]}
         None).
Proof.
  destruct (ListOrders_filter demoClients newWriter
              (callerRequest (Some (mkClaims 7 "customer"))
                 {[ "user_id" := "9" ]} None)
              (callerRequest (Some (mkClaims 8 "customer"))
                 {[ "user_id" := "9" ]} None)) as [_ H].
  apply H; [reflexivity | discriminate].
Defined.

(** X18: the four list handlers page alike.  For the same [page] and
    [per_page] parameters they forward the same page and page size: a page
    size between 1 and 100, the parameter itself when it is a number in
    that range and 10 otherwise; and, for a page parameter below 2^31, a
    page of at least 1, the parameter itself when it is a number of at
    least 1 and 1 otherwise. *)
Theorem list_handlers_pagination (ph : ProductHandler) (uh : UserHandler)
    (h : Clients) (c : Context) :
  let w := c_Writer c in
  let r := c_Request c in
  let p := fst (strconv.Atoi (Get (URLQuery r) "page")) in
  let pp := fst (strconv.Atoi (Get (URLQuery r) "per_page")) in
  exists page perPage,
    fst (ListProducts ph w r)
    = [CallListProducts (mkListProducts page perPage)]
    /\ fst (SearchUsers uh c)
       = [CallSearchUsers (mkSearchUsers (gin.Query c "query") page perPage)]
    /\ fst (ListCategories h w r) = [CallListCategories page perPage]
    /\ (exists user, fst (ListOrders h w r)
                     = [CallListOrders page perPage user])
    /\ 1 <= perPage <= 100
    /\ (1 <= pp <= 100 -> perPage = pp)
    /\ (~ 1 <= pp <= 100 -> perPage = 10)
    /\ (p < 2 ^ 31 ->
        1 <= page /\ (1 <= p -> page = p) /\ (p < 1 -> page = 1)).
Proof.
  intros w r p pp.
  exists (int32 (if p <? 1 then 1 else p)),
         (int32 (if (pp <? 1) || (pp >? 100) then 10 else pp)).
  split; [unfold ListProducts; by destruct (productClient_ListProducts _ _) |].
  split; [unfold SearchUsers; by destruct (userClient_SearchUsers _ _) |].
  split; [unfold ListCategories; by rewrite forwardF_calls |].
  split; [unfold ListOrders; rewrite forwardF_calls; by eexists |].
  split; [apply clamped_per_page |].
  split; [| split].
  - intros Hpp.
    assert ((pp <? 1) = false) as -> by (apply Z.ltb_ge; lia).
    assert ((pp >? 100) = false) as ->
      by (rewrite Z.gtb_ltb; apply Z.ltb_ge; lia).
    apply int32_small. lia.
  - intros Hpp. destruct (pp <? 1) eqn:E1; [done |].
    apply Z.ltb_ge in E1.
    assert ((pp >? 100) = true) as ->
      by (rewrite Z.gtb_ltb; apply Z.ltb_lt; lia).
    done.
  - intros Hp. destruct (p <? 1) eqn:E.
    + apply Z.ltb_lt in E. rewrite int32_small by lia. lia.
    + apply Z.ltb_ge in E. rewrite int32_small by lia. lia.
Qed.

Lemma list_handlers_pagination_witness :
  exists page perPage,
    fst (ListCategories demoClients newWriter
           (callerRequest None {[ "per_page" := "500" ]} None))
    = [CallListCategories page perPage]
    /\ perPage = 10.
Proof.
  destruct (list_handlers_pagination
              (mkProductHandler (fun _ => Reply "{}"))
              (mkUserHandler (fun _ => Reply "{}") (fun _ => Reply "{}"))
              demoClients
              (middleware.newContext
                 (callerRequest None {[ "per_page" := "500" ]} None)))
    as (page & perPage & _ & _ & H & _ & _ & _ & Hd & _).
  exists page, perPage. split; [exact H |].
  apply Hd. vm_compute. intros [_ H']. by apply H'.
Defined.

End CallerHandlers.

(** * One response per handler *)

Section Answers.

Import gin handlers handlers_ext.

Lemma Write_once (b : Body) (w : responseWriter) :
  answers_once w (Write b w).
Proof.
  unfold answers_once, Write, WriteHeaderNow, Written.
  destruct w as [st hd [s|] bd]; cbn; eauto.
Qed.

Lemma answers_once_eq (w w1 w' : responseWriter) :
  w_body w1 = w_body w -> answers_once w1 w' -> answers_once w w'.
Proof. intros H [HW [doc Hb]]. split; [done |]. exists doc. by rewrite <- H. Qed.

Lemma WriteHeader_body (code : Z) (w : responseWriter) :
  w_body (WriteHeader code w) = w_body w.
Proof. unfold WriteHeader. by repeat case_match. Qed.

Lemma writeJSONError_once (w : responseWriter) (code : Z) (msg : string) :
  answers_once w (writeJSONError w code msg).
Proof.
  unfold writeJSONError. eapply answers_once_eq; [| apply Write_once].
  by rewrite WriteHeader_body.
Qed.


Lemma writeJSONErrorFromGRPC_once (w : responseWriter) (err : status.error)
    (d : Z) :
  answers_once w (writeJSONErrorFromGRPC w err d).
Proof.
  unfold writeJSONErrorFromGRPC.
  destruct (status.FromError err) as [st [|]]; apply writeJSONError_once.
Qed.






(** X20: the error document agrees with the status line.  On a writer
    nothing was written to, the error translation sends one status line
    and one document whose [code] member is that status and whose [error]
    member is its reason phrase; the status is the handler's default for an
    error without a gRPC status and lies between 400 and 504 otherwise.
    On a writer whose header is already sent the status line stays and the
    document is appended all the same. *)
Theorem error_document_matches_status_line (w : responseWriter)
    (err : status.error) (defaultStatus : Z) :
  0 < defaultStatus ->
  let out := writeJSONErrorFromGRPC w err defaultStatus in
  (w_sent w = None ->
   exists code msg,
     client_status out = Some code
     /\ w_body out = w_body w ++ [ErrorJSON (http.StatusText code) msg code]
     /\ client_header "Content-Type" out = Some "application/json"
     /\ (snd (status.FromError err) = false -> code = defaultStatus)
     /\ (snd (status.FromError err) = true -> 400 <= code <= 504))
  /\ (Written w = true ->
      client_status out = client_status w
      /\ exists doc, w_body out = w_body w ++ [doc]).
Proof.
  intros Hd out. split.
  - intros Hs. unfold out, writeJSONErrorFromGRPC.
    destruct err as [st|text]; cbn [status.FromError negb snd].
    + exists (grpcCodeToHTTP (status.Code st)), (status.Message st).
      rewrite handlers_writeJSONError_eq
        by (done || apply grpcCodeToHTTP_pos).
      cbv zeta. unfold client_status, client_header.
      cbn [w_sent w_body fmap option_fmap option_map fst].
      rewrite lookup_insert_eq. repeat split; try done.
      all: unfold grpcCodeToHTTP; repeat case_match; by cbv.
    + exists defaultStatus, text.
      rewrite handlers_writeJSONError_eq by done.
      cbv zeta. unfold client_status, client_header.
      cbn [w_sent w_body fmap option_fmap option_map fst].
      rewrite lookup_insert_eq. by repeat split.
  - intros HW. split.
    + unfold out, writeJSONErrorFromGRPC, writeJSONError, Write,
        WriteHeaderNow, WriteHeader, HeaderSet, client_status.
      destruct w as [st hd [s|] bd]; [| discriminate HW].
      destruct (status.FromError err) as [s' [|]]; cbn;
        by repeat case_match.
    + apply writeJSONErrorFromGRPC_once.
Qed.

Lemma error_document_matches_status_line_witness :
  exists code,
    client_status
      (writeJSONErrorFromGRPC newWriter
         (status.StatusError (status.mkStatus codes.NotFound "no such user"))
         http.StatusInternalServerError)
    = Some code
    /\ 400 <= code <= 504.
Proof.
  destruct (error_document_matches_status_line newWriter
              (status.StatusError
                 (status.mkStatus codes.NotFound "no such user"))
              http.StatusInternalServerError eq_refl) as [H _].
  destruct (H eq_refl) as (code & msg & Hc & _ & _ & _ & Hr).
  exists code. split; [exact Hc | by apply Hr].
Defined.

End Answers.

(** * Cross-origin headers, credentials, identifiers, cancellation *)

Section Stages.

Import gin middleware router.

Lemma pickOrigin_cases (allowed : list string) (origin : string) :
  (pickOrigin allowed origin = "*"
   \/ (pickOrigin allowed origin = origin /\ origin ∈ allowed))
  /\ (origin ∉ allowed -> pickOrigin allowed origin = "*")
  /\ ("*" ∉ allowed -> origin ∈ allowed -> pickOrigin allowed origin = origin).
Proof.
  induction allowed as [|a tl (IH1 & IH2 & IH3)]; cbn [pickOrigin].
  - split; [by left |]. split; [done |]. by intros _ ?%elem_of_nil.
  - destruct (String.eqb a "*") eqn:Es; cbn [orb].
    + apply String.eqb_eq in Es. subst a. split; [by left |].
      split; [done |]. intros H. exfalso. apply H. by left.
    + destruct (String.eqb a origin) eqn:Eo.
      * apply String.eqb_eq in Eo. subst a. split.
        { right. split; [done | by left]. }
        split; [| done]. intros H. exfalso. apply H. by left.
      * apply String.eqb_neq in Eo. split; [| split].
        -- destruct IH1 as [H|[H1 H2]]; [by left |].
           right. split; [done | by right].
        -- intros H. apply IH2. intros Hin. apply H. by right.
        -- intros Hs Hin. apply IH3.
           ++ intros H. apply Hs. by right.
           ++ apply elem_of_cons in Hin as [->|Hin]; done.
Qed.

(** X21: the origin the cross-origin stage allows.  On every request,
    preflight or not, the [Access-Control-Allow-Origin] header is either
    the wildcard or the request's own origin, the latter only when it is
    configured; an origin that is not configured gets the wildcard, and a
    configured one keeps its own when no wildcard is configured.
    [Access-Control-Allow-Credentials] is [true] in all cases. *)
Theorem cors_allow_origin (allowedOrigins allowedMethods allowedHeaders
    : list string) (w : World) :
  let origin := GetHeader (gc w) "Origin" in
  let hd := w_header (writer (CORS allowedOrigins allowedMethods
                                allowedHeaders (fun x => x) w)) in
  exists allowed,
    hd !! "Access-Control-Allow-Origin" = Some allowed
    /\ (allowed = "*" \/ (allowed = origin /\ origin ∈ allowedOrigins))
    /\ (origin ∉ allowedOrigins -> allowed = "*")
    /\ ("*" ∉ allowedOrigins -> origin ∈ allowedOrigins -> allowed = origin)
    /\ hd !! "Access-Control-Allow-Credentials" = Some "true".
Proof.
  intros origin hd. exists (pickOrigin allowedOrigins origin).
  destruct (pickOrigin_cases allowedOrigins origin) as (H1 & H2 & H3).
  assert (hd !! "Access-Control-Allow-Origin"
          = Some (pickOrigin allowedOrigins origin)
          /\ hd !! "Access-Control-Allow-Credentials" = Some "true")
    as [Ha Hc].
  { unfold hd, CORS, writer.
    destruct (String.eqb _ http.MethodOptions); cbn [gc onContext];
      unfold AbortWithStatus, Abort, Status, setIndex, setWriter,
        WriteHeaderNow, WriteHeader, HeaderSet;
      cbn [c_Writer w_header w_status w_sent];
      repeat case_match; cbn [w_header]; fold origin;
      (split; [rewrite !lookup_insert_ne by done
              | rewrite lookup_insert_ne by done ]; apply lookup_insert_eq). }
  by repeat split.
Qed.

Lemma cors_allow_origin_witness :
  w_header
    (writer (CORS ["https://shop.example"] ["GET"] ["Authorization"]
               (fun x => x)
               (newWorld
                  (mkRequest "GET" "/api/v1/products"
                     {[ "Origin" := "https://evil.example" ]} ∅
                     "203.0.113.9" None None None) demoLimiter)))
  !! "Access-Control-Allow-Origin" = Some "*".
Proof.
  destruct (cors_allow_origin ["https://shop.example"] ["GET"]
              ["Authorization"]
              (newWorld
                 (mkRequest "GET" "/api/v1/products"
                    {[ "Origin" := "https://evil.example" ]} ∅
                    "203.0.113.9" None None None) demoLimiter))
    as (allowed & Ha & _ & Hno & _).
  rewrite Ha. f_equal. apply Hno.
  intros H. apply list_elem_of_singleton in H. discriminate H.
Defined.

(** X22: the optional authentication stage never refuses.  It accepts
    the credentials the mandatory stage accepts and attaches the same
    claims; where the mandatory stage answers 401, it hands the request on
    as it came, with nothing written. *)
Theorem optional_auth_never_refuses (jwt : JWTManager)
    (next : World -> World) (w : World) :
  OptionalAuthMiddleware jwt next w
  = next (match authenticate jwt (c_Request (gc w)) with
          | inl claims => onContext (withClaims claims) w
          | inr _ => w
          end)
  /\ (forall claims,
        authenticate jwt (c_Request (gc w)) = inl claims ->
        AuthMiddleware jwt next w = OptionalAuthMiddleware jwt next w).
Proof.
  assert (OptionalAuthMiddleware jwt next w
          = next (match authenticate jwt (c_Request (gc w)) with
                  | inl claims => onContext (withClaims claims) w
                  | inr _ => w
                  end)) as H.
  { unfold OptionalAuthMiddleware, authenticate, GetHeader.
    destruct (String.eqb _ "") eqn:E0; cbn [negb]; [done |].
    destruct (Split _) as [|p0 [|p1 [|]]] eqn:Es; try done.
    destruct (String.eqb p0 "Bearer") eqn:Eb; cbn [negb]; [| done].
    by destruct (Verify jwt p1). }
  split; [exact H |]. intros claims Ha.
  by rewrite H, AuthMiddleware_authenticate, Ha.
Qed.

Lemma optional_auth_never_refuses_witness :
  let w := newWorld (searchRequest {[ "Authorization" := "Bearer t0k3n" ]})
             demoLimiter in
  AuthMiddleware (mkJWTManager demoVerify) (fun x => x) w
  = OptionalAuthMiddleware (mkJWTManager demoVerify) (fun x => x) w.
Proof.
  intros w.
  destruct (optional_auth_never_refuses (mkJWTManager demoVerify)
              (fun x => x) w) as [_ H].
  apply (H (mkClaims 7 "customer")). reflexivity.
Defined.

(** X23: what the authentication stage hands on.  For a request with a
    valid credential the rest of the chain runs on a world in which
    [GetUserClaims], [GetUserID] and [GetUserRole] return the verified
    claims, replacing any the request context held; the response writer,
    the rest of the request, the position in the chain and the limiter are
    untouched. *)
Theorem auth_attaches_claims (jwt : JWTManager) (w : World)
    (claims : UserClaims) :
  valid_credential jwt (c_Request (gc w)) claims ->
  exists w',
    (forall next, AuthMiddleware jwt next w = next w')
    /\ GetUserClaims (c_Request (gc w')) = Some claims
    /\ GetUserID (c_Request (gc w')) = (UserID claims, true)
    /\ GetUserRole (c_Request (gc w')) = (Role claims, true)
    /\ c_Writer (gc w') = c_Writer (gc w)
    /\ c_index (gc w') = c_index (gc w)
    /\ URLQuery (c_Request (gc w')) = URLQuery (c_Request (gc w))
    /\ JSONBody (c_Request (gc w')) = JSONBody (c_Request (gc w))
    /\ ctx_requestID (c_Request (gc w')) = ctx_requestID (c_Request (gc w))
    /\ rl w' = rl w /\ calls w' = calls w.
Proof.
  intros Hv. apply authenticate_inl in Hv.
  exists (onContext (withClaims claims) w). split.
  - intros next. by rewrite AuthMiddleware_authenticate, Hv.
  - by repeat split.
Qed.

Lemma auth_attaches_claims_witness :
  exists w',
    (forall next,
        AuthMiddleware (mkJWTManager demoVerify) next
          (newWorld (searchRequest {[ "Authorization" := "Bearer t0k3n" ]})
             demoLimiter)
        = next w')
    /\ GetUserID (c_Request (gc w')) = (7, true).
Proof.
  destruct (auth_attaches_claims (mkJWTManager demoVerify)
              (newWorld (searchRequest {[ "Authorization" := "Bearer t0k3n" ]})
                 demoLimiter) (mkClaims 7 "customer"))
    as (w' & H1 & _ & H2 & _).
  - exists "t0k3n". by repeat split.
  - exists w'. by split.
Defined.

(** X24: the identifier of a request is one and the same everywhere.
    The identification stage hands on a world in which the response
    header, the request context and the gin key hold the same identifier:
    the client's, verbatim, when it sent a non-empty one, the generated one
    otherwise.  Nothing is written and nothing else changes. *)
Theorem request_id_consistent (uuid : string) (w : World) :
  let id := if String.eqb (GetHeader (gc w) "X-Request-ID") ""
            then uuid else GetHeader (gc w) "X-Request-ID" in
  exists w',
    (forall next, RequestID uuid next w = next w')
    /\ w_header (writer w') !! "X-Request-ID" = Some id
    /\ ctx_requestID (c_Request (gc w')) = Some id
    /\ c_Keys (gc w') !! "requestID" = Some id
    /\ w_sent (writer w') = w_sent (writer w)
    /\ w_body (writer w') = w_body (writer w)
    /\ w_status (writer w') = w_status (writer w)
    /\ Header (c_Request (gc w')) = Header (c_Request (gc w))
    /\ ctx_userClaims (c_Request (gc w')) = ctx_userClaims (c_Request (gc w))
    /\ c_index (gc w') = c_index (gc w)
    /\ rl w' = rl w /\ logs w' = logs w /\ calls w' = calls w.
Proof.
  intros id. eexists. split; [intros next; unfold RequestID; reflexivity |].
  unfold writer. cbn. rewrite !lookup_insert_eq. by repeat split.
Qed.

(** X25: the cancellation stage after the chain.  With [Cancellation]
    around [Timeout] around the rest of the chain, as registered, and a
    context that is live on arrival: when neither context reports an
    error, both stages return what the chain returned; when the request's
    own context is done on return and nothing is written, and the deadline
    of the timeout stage has not passed, the client gets one document,
    503 for a cancellation and 504 for a deadline of the request's own;
    and in no case do the two stages together add more than one
    document. *)
Theorem cancellation_after_chain (rest : World -> World) (t : Z)
    (err terr : option ctxError) (w : World) :
  let out := Cancellation false err (Timeout t terr rest) w in
  (err = None -> is_DeadlineExceeded terr = false -> out = rest w)
  /\ (forall e, err = Some e -> is_DeadlineExceeded terr = false ->
      unwritten (writer (rest w)) ->
      let code := match e with Canceled => 503 | DeadlineExceeded => 504 end in
      client_status (writer out) = Some code
      /\ w_body (writer out)
         = [ErrorJSON (http.StatusText code) "request canceled" code])
  /\ (List.length (w_body (writer out))
      <= S (List.length (w_body (writer (rest w)))))%nat.
Proof.
  intros out. unfold out, Cancellation, Timeout. split; [| split].
  - intros -> ->. by cbn.
  - intros e -> -> [Hs Hb]. cbn [andb].
    assert (Written (c_Writer (gc (rest w))) = false) as HW
      by (unfold writer in Hs; unfold Written; by rewrite Hs).
    rewrite HW. cbn [negb andb]. rewrite bool_decide_true by done.
    cbn [andb]. unfold writer in *. cbn [gc onContext].
    destruct e; cbn [is_DeadlineExceeded].
    + rewrite writeJSONError_eq by done. cbn. by rewrite Hb.
    + rewrite writeJSONError_eq by done. cbn. by rewrite Hb.
  - unfold writer.
    destruct (Written (c_Writer (gc (rest w)))) eqn:HW.
    + rewrite !andb_false_r. rewrite HW, andb_false_r. lia.
    + assert (w_sent (c_Writer (gc (rest w))) = None) as Hs.
      { unfold Written in HW. by destruct (w_sent _). }
      cbn [negb]. rewrite andb_true_r.
      destruct (is_DeadlineExceeded terr).
      * cbn [gc onContext]. rewrite writeJSONError_Written by done.
        rewrite andb_false_r. cbn [gc onContext].
        rewrite writeJSONError_eq by done. cbn. rewrite length_app. cbn. lia.
      * rewrite HW, andb_true_r.
        destruct (bool_decide (err ≠ None)); [| lia].
        cbn [gc onContext].
        destruct (is_DeadlineExceeded err);
          rewrite writeJSONError_eq by done; cbn; rewrite length_app; cbn;
          lia.
Qed.

Lemma cancellation_after_chain_witness :
  client_status
    (writer (Cancellation false (Some Canceled)
               (Timeout 1000000 None (fun w => w))
               (newWorld (searchRequest ∅) demoLimiter)))
  = Some 503.
Proof.
  destruct (cancellation_after_chain (fun w => w) 1000000 (Some Canceled)
              None (newWorld (searchRequest ∅) demoLimiter))
    as (_ & H & _).
  destruct (H Canceled eq_refl eq_refl) as [Hs _]; [by split | exact Hs].
Defined.

(** X26: every registered route is found by its own method and path.
    No two registrations share a method and a path, so the route found
    for a request is the one registered under them, with its access
    level. *)
Theorem route_lookup (rt : Route) (req : Request) :
  rt ∈ setupRoutes ->
  Method req = r_method rt -> Path req = r_path rt ->
  findRoute req = Some rt.
Proof.
  intros Hin Hm Hp. unfold findRoute, matches. rewrite Hm, Hp.
  unfold setupRoutes in Hin |- *.
  repeat (apply elem_of_cons in Hin as [->|Hin]; [reflexivity |]).
  by apply elem_of_nil in Hin.
Qed.

Lemma route_lookup_witness :
  findRoute (searchRequest ∅) = Some adminSearch.
Proof.
  apply (route_lookup adminSearch (searchRequest ∅));
    [| reflexivity | reflexivity].
  unfold setupRoutes, adminSearch.
  do 6 (apply elem_of_cons; right). apply elem_of_cons. by left.
Defined.

End Stages.

(** * An administrator's search *)

Section AdminSearch.

Import gin middleware router.

Lemma RequireRole_passes (roles : list string) (next : World -> World)
    (w : World) (claims : UserClaims) :
  ctx_userClaims (c_Request (gc w)) = Some claims ->
  hasRole (Role claims) roles = true ->
  RequireRole roles next w = next w.
Proof. intros Hc Hr. unfold RequireRole. by rewrite Hc, Hr. Qed.

(** X27: the user search, through the whole engine, for an administrator.
    A request with a valid credential of the role [admin], live on arrival
    and within its rate limit, reaches the handler: one call is made on
    the user backend, with the [query] parameter as sent and a page size
    between 1 and 100; the status the client receives is 200 or an error
    status, and it is the status logged; the response carries the
    request's identifier; the request has been counted against the
    client's limit. *)
Theorem admin_search_outcome (r : Router) (o : Oracle) (l : RateLimiter)
    (req : Request) (claims : UserClaims) :
  Method req = "GET" -> Path req = "/api/v1/users/search" ->
  o_done o = false ->
  snd (check l (RemoteIP req) (o_clock o)) = Passed ->
  valid_credential (jwtManager r) req claims ->
  Role claims = "admin" ->
  let out := outcome (ServeHTTP r o l req) in
  exists (breq : handlers.SearchUsersRequest) (code : Z),
    backend out = [handlers.CallSearchUsers breq]
    /\ handlers.Query breq = Get (URLQuery req) "query"
    /\ 1 <= handlers.PageSize breq <= 100
    /\ client_status (response out) = Some code
    /\ (code = 200 \/ 400 <= code <= 504)
    /\ logged out
       = [mkLogLine (request_id o req) "GET" "/api/v1/users/search" code]
    /\ client_header "X-Request-ID" (response out) = Some (request_id o req)
    /\ limiter out = fst (check l (RemoteIP req) (o_clock o)).
Proof.
  intros Hm Hp Hdone Hpass Hcred Hrole out.
  apply authenticate_inl in Hcred.
  assert (Hfind : findRoute req = Some adminSearch).
  { unfold findRoute, matches. by rewrite Hm, Hp. }
  assert (Hopt : Method req <> http.MethodOptions) by (by rewrite Hm).
  unfold out, ServeHTTP. rewrite Hfind.
  pose proof (engine_outcome_passed r o l req
                (routeHandlers r adminSearch) Hopt Hdone Hpass) as H.
  cbv zeta in H.
  change (routeHandlers r adminSearch)
    with [AuthMiddleware (jwtManager r); RequireRole ["admin"];
          ginHandler (handlers.SearchUsers (userHandler r))] in H |- *.
  set (n := Z.of_nat _) in *. assert (Hn : n = 10) by reflexivity.
  set (l' := fst (check l (RemoteIP req) (o_clock o))) in *.
  set (req' := mkRequest (Method req) (Path req) (Header req) (URLQuery req)
                 (RemoteIP req) (JSONBody req) (ctx_requestID req)
                 (Some claims)).
  set (c9 := gc (entering 9 r o l' req')).
  set (breq := handlers.mkSearchUsers (Get (URLQuery req) "query")
                 (int32 (if fst (strconv.Atoi (Get (URLQuery req) "page")) <? 1
                         then 1
                         else fst (strconv.Atoi (Get (URLQuery req) "page"))))
                 (int32 (if (fst (strconv.Atoi
                                    (Get (URLQuery req) "per_page")) <? 1)
                            || (fst (strconv.Atoi
                                       (Get (URLQuery req) "per_page")) >? 100)
                         then 10
                         else fst (strconv.Atoi
                                     (Get (URLQuery req) "per_page"))))).
  assert (exists code c',
             (code = 200 \/ 400 <= code <= 504)
             /\ handlers.SearchUsers (userHandler r) c9
                = ([handlers.CallSearchUsers breq], c')
             /\ c_Request c' = c_Request c9 /\ c_Keys c' = c_Keys c9
             /\ c_index c' = 9
             /\ exists hd bd,
                  c_Writer c' = mkWriter code hd (Some (code, hd)) bd
                  /\ hd !! "X-Request-ID" = Some (request_id o req))
    as (code & c' & Hcode & Hs & Hrq & Hks & Hix & hd & bd & Hwr & Hid).
  { unfold handlers.SearchUsers. fold breq.
    change (handlers.mkSearchUsers (Query c9 "query") _ _) with breq.
    destruct (handlers.userClient_SearchUsers _ _) as [resp|err].
    - exists 200. eexists. split; [by left |]. split; [reflexivity |].
      do 3 (split; [reflexivity |]).
      unfold JSON. cbn [bodyAllowedForStatus negb Status setWriter c_Writer].
      change (negb (bodyAllowedForStatus http.StatusOK)) with false.
      cbn iota. cbn [setWriter c_Writer].
      rewrite first_write_eq by done. cbv zeta. eexists _, _.
      split; [reflexivity |].
      unfold WriteContentType. cbn [c9 entering gc c_Writer w_header].
      rewrite engine_headers_no_content_type. cbn [HeaderSet w_header].
      rewrite lookup_insert_ne by done. apply lookup_insert_eq.
    - destruct (writeJSONErrorFromGRPC_eq (c_Writer c9) err
                  http.StatusInternalServerError eq_refl eq_refl)
        as (code & msg & Hpos & Hc & Heq).
      exists code. eexists. split.
      { destruct Hc as [->|Hc]; [right; split; by cbv | by right]. }
      split; [reflexivity |]. do 3 (split; [reflexivity |]).
      cbn [setWriter c_Writer]. rewrite Heq. cbv zeta. eexists _, _.
      split; [reflexivity |].
      cbn [c9 entering gc c_Writer w_header].
      rewrite lookup_insert_ne by done. apply lookup_insert_eq. }
  exists breq, code.
  assert (H9 : handle n [ginHandler (handlers.SearchUsers (userHandler r))]
                 (entering 9 r o l' req')
               = incr (mkWorld c' l' [] [handlers.CallSearchUsers breq])).
  { rewrite handle_step by (cbn; lia). unfold ginHandler. fold c9.
    by rewrite Hs. }
  assert (H8 : handle n [RequireRole ["admin"];
                         ginHandler (handlers.SearchUsers (userHandler r))]
                 (entering 8 r o l' req')
               = incr (incr (mkWorld c' l' []
                               [handlers.CallSearchUsers breq]))).
  { apply (chain_stage n _ _ (entering 8 r o l' req')
             (entering 8 r o l' req') _ (fun x => x));
      [cbn; lia | exact H9 | | cbn; lia].
    intros HX. rewrite (RequireRole_passes _ _ _ claims); [exact HX | done |].
    by rewrite Hrole. }
  assert (H7 : handle n [AuthMiddleware (jwtManager r); RequireRole ["admin"];
                         ginHandler (handlers.SearchUsers (userHandler r))]
                 (entering 7 r o l' req)
               = incr (incr (incr (mkWorld c' l' []
                                     [handlers.CallSearchUsers breq])))).
  { apply (chain_stage n _ _ (entering 7 r o l' req)
             (onContext (withClaims claims) (entering 7 r o l' req)) _
             (fun x => x)); [cbn; lia | exact H8 | | cbn; lia].
    intros HX. rewrite AuthMiddleware_authenticate.
    cbn [entering gc c_Request].
    rewrite (authenticate_Header (jwtManager r) (identified o req) req)
      by reflexivity.
    rewrite Hcred. exact HX. }
  rewrite H7 in H. rewrite H.
  - unfold log_line, writer, client_status, client_header.
    cbn [incr onContext gc rl logs calls setIndex c_Writer c_Request c_Keys
         response backend limiter logged app].
    rewrite Hrq, Hks, Hwr. unfold c9, req'.
    cbn [entering gc c_Request c_Keys identified Method Path w_sent
         w_status fmap option_fmap option_map fst].
    rewrite lookup_insert_eq, Hm, Hp. cbn [default from_option id].
    repeat split; try done; apply clamped_per_page.
  - split; [cbn; lia |]. unfold writer. cbn [incr onContext gc setIndex c_Writer].
    by rewrite Hwr.
Qed.

Lemma admin_search_outcome_witness :
  exists breq code,
    backend
      (outcome (ServeHTTP demoAdminRouter (demoOracle 0) demoLimiter
                  (searchRequest {[ "Authorization" := "Bearer r00t" ]})))
    = [handlers.CallSearchUsers breq]
    /\ client_status
         (response
            (outcome (ServeHTTP demoAdminRouter (demoOracle 0) demoLimiter
                        (searchRequest
                           {[ "Authorization" := "Bearer r00t" ]}))))
       = Some code.
Proof.
  destruct (admin_search_outcome demoAdminRouter (demoOracle 0) demoLimiter
              (searchRequest {[ "Authorization" := "Bearer r00t" ]})
              (mkClaims 1 "admin"))
    as (breq & code & H1 & _ & _ & H2 & _);
    [reflexivity | reflexivity | reflexivity | reflexivity | | reflexivity |].
  - exists "r00t". by repeat split.
  - exists breq, code. split; [exact H1 | exact H2].
Defined.

End AdminSearch.
